(** * Billing_Analysis: the upload and query views of [view.py]

    A shallow embedding of [to_safe_time], [FileUploadView] and
    [SearchView], and the properties of the name-reconciliation and
    merge engine stated over it.

    Conventions of the embedding.
    - Python exceptions are the [Raise] results of [result]; the
      database is threaded explicitly through the [db] monad.
    - Python [int] is [Z]; a Python [float] is a binary64 value of
      [spec_float] with the operations of [SpecFloat] at precision 53.
    - Strings are ASCII strings; upper-casing and the case-insensitive
      lookups ([iexact], [icontains]) fold the letters a-z only.
    - A table of the ORM is the list of its rows in insertion order.
      The database is SQLite, the default of Django: a date column
      handed pandas' [NaT] holds the text ['NaT'], which sorts after
      every date, lies in no range of dates and is read back as
      [None]; a text column handed a missing cell (NaN) holds the text
      ['nan'].
    - [datetime.date] and [datetime.time] take C ints and raise
      [OverflowError] beyond them.
    - External collaborators (the similarity scorer and the date and
      time parsers of pandas) are variables of the section. *)

From Stdlib Require Import ZArith QArith Qpower Ascii Floats.SpecFloat Sorting.Sorted.
From stdpp Require Import gmap strings list fin_maps.

Local Open Scope Z_scope.

(** ** Exceptions and results *)

Inductive exn :=
  | ValueError
  | OverflowError
  | AttributeError
  | IndexError
  | KeyError
  | MultipleObjectsReturned.

Inductive result (A : Type) :=
  | Ok (a : A)
  | Raise (e : exn).
Arguments Ok {A} a.
Arguments Raise {A} e.

#[global] Instance result_ret : MRet result := λ A a, Ok a.
#[global] Instance result_bind : MBind result := λ A B k r,
  match r with
  | Ok a => k a
  | Raise e => Raise e
  end.

(** ** Strings *)

Definition upper_ascii (c : ascii) : ascii :=
  let n := nat_of_ascii c in
  if ((97 <=? n) && (n <=? 122))%nat then ascii_of_nat (n - 32) else c.

(** [str.upper], and the upper-casing behind [iexact] and [icontains]. *)
Fixpoint upper (s : string) : string :=
  match s with
  | EmptyString => EmptyString
  | String c s' => String (upper_ascii c) (upper s')
  end.

Definition iexact (value pattern : string) : bool :=
  String.eqb (upper value) (upper pattern).

Fixpoint contains (needle hay : string) : bool :=
  String.prefix needle hay ||
  match hay with
  | EmptyString => false
  | String _ hay' => contains needle hay'
  end.

Definition icontains (value pattern : string) : bool :=
  contains (upper pattern) (upper value).

Definition is_space (c : ascii) : bool :=
  let n := nat_of_ascii c in
  ((n =? 32) || ((9 <=? n) && (n <=? 13)) || ((28 <=? n) && (n <=? 31)))%nat.

(** [str.split()]: the maximal runs of non-blank characters. *)
Fixpoint split_from (word : string) (s : string) : list string :=
  match s with
  | EmptyString => if String.eqb word "" then [] else [word]
  | String c s' =>
      if is_space c
      then (if String.eqb word "" then split_from "" s' else word :: split_from "" s')
      else split_from (word +:+ String c "") s'
  end.

Definition split (s : string) : list string := split_from "" s.

Definition is_digit (c : ascii) : bool :=
  let n := nat_of_ascii c in ((48 <=? n) && (n <=? 57))%nat.

Fixpoint all_digits (s : string) : bool :=
  match s with
  | EmptyString => true
  | String c s' => is_digit c && all_digits s'
  end.

(** [str.isdigit]: at least one character, all of them digits. *)
Definition isdigit (s : string) : bool :=
  negb (String.eqb s "") && all_digits s.

Fixpoint int_from (acc : Z) (s : string) : Z :=
  match s with
  | EmptyString => acc
  | String c s' => int_from (acc * 10 + (Z.of_nat (nat_of_ascii c) - 48)) s'
  end.

(** [int(s)] on a string of digits. *)
Definition int_of_digits (s : string) : Z := int_from 0 s.

(** Truthiness of an optional query parameter or cell: [None] and the
    empty string are false. *)
Definition truthy (o : option string) : option string :=
  match o with
  | Some s => if String.eqb s "" then None else Some s
  | None => None
  end.

(** ** datetime.time and datetime.date *)

Record time := mktime { hour : Z; minute : Z; second : Z; microsecond : Z }.

(** The constructors of [datetime.time] and [datetime.date] take C
    ints: an argument outside their range raises [OverflowError] before
    any field is checked. *)
Definition fits_int (z : Z) : bool := (-2147483648 <=? z) && (z <=? 2147483647).

(** [datetime.time(h, m, s)]: [OverflowError] for an argument that is
    no C int, [ValueError] for a field out of its range. *)
Definition time_new (h m s : Z) : result time :=
  if negb (fits_int h && fits_int m && fits_int s) then Raise OverflowError
  else if (0 <=? h) && (h <=? 23) && (0 <=? m) && (m <=? 59) && (0 <=? s) && (s <=? 59)
  then Ok (mktime h m s 0)
  else Raise ValueError.

Definition time_micros (t : time) : Z :=
  ((hour t * 60 + minute t) * 60 + second t) * 1000000 + microsecond t.

Definition time_ltb (a b : time) : bool := time_micros a <? time_micros b.

Record date := mkdate { year : Z; month : Z; day : Z }.

#[global] Instance date_eq_dec : EqDecision date.
Proof. solve_decision. Defined.

#[global] Instance date_countable : Countable date :=
  inj_countable' (λ d, (year d, month d, day d))
                 (λ t, mkdate t.1.1 t.1.2 t.2)
                 (λ d, match d with mkdate _ _ _ => eq_refl end).

Definition is_leap (y : Z) : bool :=
  (y mod 4 =? 0) && (negb (y mod 100 =? 0) || (y mod 400 =? 0)).

Definition days_in_month (y m : Z) : Z :=
  if m =? 2 then (if is_leap y then 29 else 28)
  else if (m =? 4) || (m =? 6) || (m =? 9) || (m =? 11) then 30
  else 31.

(** [datetime.date(y, m, d)]: [OverflowError] for an argument that is
    no C int, [ValueError] outside the calendar. *)
Definition date_new (y m d : Z) : result date :=
  if negb (fits_int y && fits_int m && fits_int d) then Raise OverflowError
  else if (1 <=? y) && (y <=? 9999) && (1 <=? m) && (m <=? 12)
          && (1 <=? d) && (d <=? days_in_month y m)
  then Ok (mkdate y m d)
  else Raise ValueError.

(** What the date column of a row holds when the ORM was handed pandas'
    [NaT]: its text, ['NaT'], which the database orders after every
    date and which no range of dates contains.  It stands here as a
    date past [date.max]. *)
Definition NaT : date := mkdate 10000 1 1.

(** The value the ORM stores for what [.date()] returned. *)
Definition date_column (d : option date) : date :=
  match d with
  | Some d => d
  | None => NaT
  end.

(** [d.replace(day=n)] *)
Definition date_replace_day (d : date) (n : Z) : result date :=
  date_new (year d) (month d) n.

(** Dates compare as the tuples (year, month, day). *)
Definition date_ltb (a b : date) : bool :=
  (year a <? year b) ||
  ((year a =? year b) &&
   ((month a <? month b) || ((month a =? month b) && (day a <? day b)))).

Definition date_leb (a b : date) : bool := negb (date_ltb b a).

(** The day after and the day before; [date.max] is 9999-12-31 and
    [date.min] is 0001-01-01, beyond which arithmetic overflows. *)
Definition next_day (d : date) : result date :=
  if day d <? days_in_month (year d) (month d)
  then Ok (mkdate (year d) (month d) (day d + 1))
  else if month d <? 12 then Ok (mkdate (year d) (month d + 1) 1)
  else if year d <? 9999 then Ok (mkdate (year d + 1) 1 1)
  else Raise OverflowError.

Definition prev_day (d : date) : result date :=
  if 1 <? day d then Ok (mkdate (year d) (month d) (day d - 1))
  else if 1 <? month d
  then Ok (mkdate (year d) (month d - 1) (days_in_month (year d) (month d - 1)))
  else if 1 <? year d then Ok (mkdate (year d - 1) 12 31)
  else Raise OverflowError.

Fixpoint iter_days (step : date → result date) (n : nat) (d : date) : result date :=
  match n with
  | O => Ok d
  | S n' => d' ← step d; iter_days step n' d'
  end.

(** [d + datetime.timedelta(days=n)] *)
Definition date_add_days (d : date) (n : Z) : result date :=
  if 0 <=? n then iter_days next_day (Z.to_nat n) d
  else iter_days prev_day (Z.to_nat (- n)) d.

(** [d - datetime.timedelta(days=n)] *)
Definition date_sub_days (d : date) (n : Z) : result date :=
  date_add_days d (- n).

(** ** Spreadsheet cells *)

(** A cell as pandas hands it over: missing ([None], NaN), a
    [datetime.time], a Python [int], a [float], or any other object,
    which the code only uses through its text form. *)
Inductive cell :=
  | CNone
  | CTime (t : time)
  | CInt (z : Z)
  | CFloat (f : spec_float)
  | CStr (s : string).

Definition b64_mul : spec_float → spec_float → spec_float := SFmul 53 1024.

(** The float an [int] operand is converted to ([24] and [60] are exact). *)
Definition b64_of_Z (z : Z) : spec_float := binary_normalize 53 1024 z 0 false.

(** [int(x)] on a float: truncation toward zero; infinities and NaN raise. *)
Definition py_int_of_float (x : spec_float) : result Z :=
  match x with
  | S754_zero _ => Ok 0
  | S754_infinity _ => Raise OverflowError
  | S754_nan => Raise ValueError
  | S754_finite s m e =>
      let mag := if 0 <=? e then Z.pos m * 2 ^ e else Z.pos m / 2 ^ (- e) in
      Ok (if s then - mag else mag)
  end.

(** The number [m * 2^e], the magnitude of a finite float. *)
Definition fval (m e : Z) : Q := (inject_Z m * 2 ^ e)%Q.

(** [x >= k] for a float [x] and an integer [k]: [x] is plus infinity
    or a positive finite float of at least that value. *)
Definition b64_ge (x : spec_float) (k : Z) : Prop :=
  match x with
  | S754_infinity false => True
  | S754_finite false m e => (inject_Z k <= fval (Z.pos m) e)%Q
  | _ => False
  end.

(** The floats [0.5], [0.25], [1.5] and [1e308]. *)
Definition b64_half : spec_float := S754_finite false 4503599627370496 (-53).
Definition b64_quarter : spec_float := S754_finite false 4503599627370496 (-54).
Definition b64_one_and_half : spec_float := S754_finite false 6755399441055744 (-52).
Definition b64_1e308 : spec_float := S754_finite false 5010420900022432 971.

(** [int(t * 24 * 60 * 60)], evaluated left to right. *)
Definition scaled_seconds (c : cell) : result Z :=
  match c with
  | CInt z => Ok (z * 24 * 60 * 60)
  | CFloat f =>
      py_int_of_float (b64_mul (b64_mul (b64_mul f (b64_of_Z 24)) (b64_of_Z 60)) (b64_of_Z 60))
  | _ => Raise ValueError
  end.

Definition time_of_seconds (total_seconds : Z) : result time :=
  let total_seconds := Z.min total_seconds 86399 in
  let hours := total_seconds / 3600 in
  let remainder := total_seconds mod 3600 in
  let minutes := remainder / 60 in
  let seconds := remainder mod 60 in
  time_new hours minutes seconds.

(** ** The models and the database *)

(** The [Roster] and [Attendance] models of [models.py], with the
    fields the views read and write.  A [name] is what the view hands
    to the ORM, so it may be [None]. *)
Record Roster := mkRoster {
  r_name : option string;
  r_date : date;
  r_team : option string;
  r_schedule : option string }.

Record Attendance := mkAttendance {
  a_name : option string;
  a_date : date;
  a_employee_id : option string;
  a_user_type : option string;
  a_designation : option string;
  a_department : option string;
  a_location : option string;
  a_first_in : option time;
  a_last_out : option time;
  a_gross_time : option time;
  a_out_of_office_time : option time;
  a_out_of_office_count : option Z;
  a_net_office_time : option time }.

Record store := mkstore {
  rosters : list Roster;
  attendances : list Attendance }.

Definition empty_store : store := mkstore [] [].

(** The unique key of both models: (name, date). *)
Abbreviation key := (option string * date)%type.

Definition roster_key (r : Roster) : key := (r_name r, r_date r).
Definition attendance_key (a : Attendance) : key := (a_name a, a_date a).

(** Code that talks to the database: a state passed along, and a
    result that may be an exception.  What was written before an
    exception stays written. *)
Definition db (A : Type) : Type := store → store * result A.

#[global] Instance db_ret : MRet db := λ A a st, (st, Ok a).
#[global] Instance db_bind : MBind db := λ A B k m st,
  match m st with
  | (st', Ok a) => k a st'
  | (st', Raise e) => (st', Raise e)
  end.

Definition db_raise {A} (e : exn) : db A := λ st, (st, Raise e).

Definition db_lift {A} (r : result A) : db A := λ st, (st, r).

(** [try: body except Exception as e: handler(e)] *)
Definition try_except {A} (body : db A) (handler : exn → db A) : db A := λ st,
  match body st with
  | (st', Ok a) => (st', Ok a)
  | (st', Raise e) => handler e st'
  end.

(** [for x in l: body(x)] *)
Fixpoint for_each {A} (l : list A) (body : A → db ()) : db () :=
  match l with
  | [] => mret ()
  | x :: l' => body x ;; for_each l' body
  end.

(** [Model.objects.update_or_create(name=.., date=.., defaults=..)] on one table:
    the row with the key is looked up; none: the row is created; one:
    its default fields are overwritten (every field but the key is
    among the defaults of both calls, so the row becomes [row]); more
    than one: [MultipleObjectsReturned]. *)
Definition update_or_create {R} (key_of : R → key) (row : R) (table : list R)
    : result (list R) :=
  let is_match r := bool_decide (key_of r = key_of row) in
  match List.filter is_match table with
  | [] => Ok (table ++ [row])
  | [_] => Ok (map (λ r, if is_match r then row else r) table)
  | _ => Raise MultipleObjectsReturned
  end.

Definition Roster_update_or_create (row : Roster) : db () := λ st,
  match update_or_create roster_key row (rosters st) with
  | Ok table => (mkstore table (attendances st), Ok ())
  | Raise e => (st, Raise e)
  end.

Definition Attendance_update_or_create (row : Attendance) : db () := λ st,
  match update_or_create attendance_key row (attendances st) with
  | Ok table => (mkstore (rosters st) table, Ok ())
  | Raise e => (st, Raise e)
  end.

(** ** The uploaded sheets *)

(** The roster sheet as [pd.read_excel] returns it, with the column
    labels already normalised: every cell is text or missing. *)
Record roster_sheet := mkroster_sheet {
  columns : list string;
  rows : list (list (option string)) }.

(** [row.items()] *)
Definition items (df : roster_sheet) (row : list (option string))
    : list (string * option string) :=
  zip (columns df) row.

(** [row.get(label)]: the cell of the first column with that label. *)
Definition row_get (label : string) (row : list (string * option string)) : option string :=
  match List.find (λ item, String.eqb item.1 label) row with
  | Some item => item.2
  | None => None
  end.

(** What a text column of the roster model stores for a cell of the
    roster sheet: its text, and for a missing cell, which reaches the
    ORM as NaN, the text ['nan']. *)
Definition stored_text (c : option string) : string :=
  match c with
  | Some s => s
  | None => "nan"
  end.

(** [row.get(label)] as the ORM stores it: [None] (null) only when the
    sheet has no column with that label. *)
Definition row_field (label : string) (row : list (string * option string))
    : option string :=
  match List.find (λ item, String.eqb item.1 label) row with
  | Some item => Some (stored_text item.2)
  | None => None
  end.

(** A row of the attendance sheet under its thirteen positional labels. *)
Record attendance_row := mkattendance_row {
  ads_id : option string;
  name_in_attendance : option string;
  user_type : option string;
  designation : option string;
  department : option string;
  location : option string;
  first_in : cell;
  last_out : cell;
  gross_time : cell;
  out_of_office_time : cell;
  out_of_office_count : option Z;
  net_office_time : cell;
  attendance_date : cell }.

Record upload_request := mkupload {
  roster_file : option roster_sheet;
  attendance_file : option (list attendance_row) }.

(** [Series.unique()]: the distinct values in order of first appearance. *)
Fixpoint unique_from `{EqDecision A} (seen : list A) (l : list A) : list A :=
  match l with
  | [] => []
  | x :: l' =>
      if bool_decide (x ∈ seen) then unique_from seen l'
      else x :: unique_from (x :: seen) l'
  end.

Definition unique `{EqDecision A} (l : list A) : list A := unique_from [] l.

(** [queryset.distinct()] on a list of values. *)
Definition distinct `{EqDecision A} (l : list A) : list A := unique l.

(** [Series.dropna()] *)
Definition dropna {A} (l : list (option A)) : list A := omap id l.

(** ** Responses *)

Record counts := mkcounts {
  Total_WFO : Z;
  Total_WFH : Z;
  Total_WO : Z;
  Total_PL : Z;
  Total_working_days : Z;
  Total_Leaves : Z }.

Record count_result := mkcount_result {
  cr_employee : option string;
  cr_employee_id : option string;
  cr_period_start : date;
  cr_period_end : date;
  cr_counts : counts }.

Record low_hours_result := mklow_hours_result {
  lh_name : option string;
  lh_employee_id : option string;
  lh_team : option string;
  lh_date : date;
  lh_shift : option string;
  lh_net_office_time : option time }.

Record search_result := mksearch_result {
  sr_name : option string;
  sr_employee_id : option string;
  sr_team : option string;
  sr_date : date;
  sr_schedule : option string;
  sr_department : option string;
  sr_first_in : option time;
  sr_last_out : option time;
  sr_gross_time : option time;
  sr_out_of_office_time : option time;
  sr_out_of_office_count : option Z;
  sr_net_office_time : option time }.

(** The payloads of the responses; an error payload stands for the
    message of the source. *)
Inductive body :=
  | UploadBothFiles
  | ErrorOccurred (e : exn)
  | ProcessedSuccessfully (year month : Z)
  | QueryRequired
  | NoDataForPeriod
  | NoEmployeeWithId (employee_id : string)
  | NoEmployeeMatching (query : string)
  | NoDataFound
  | CountResults (results : list count_result)
  | LowHours (count : nat) (employees_with_low_hours : list low_hours_result)
  | NonPlLowHours (count : nat) (employees : list low_hours_result)
  | SearchResults (results : list search_result).

Record response := Response { body_of : body; status : Z }.

Definition HTTP_200_OK : Z := 200.
Definition HTTP_201_CREATED : Z := 201.
Definition HTTP_400_BAD_REQUEST : Z := 400.
Definition HTTP_404_NOT_FOUND : Z := 404.
Definition HTTP_500_INTERNAL_SERVER_ERROR : Z := 500.

(** [pd.isna(t) or t is None] *)
Definition isna (t : cell) : bool :=
  match t with
  | CNone | CFloat S754_nan => true
  | _ => false
  end.

(** The truth value of what [.date()] returned.  A [datetime.date]
    is true, and so is [NaT] (here [None]): neither defines a false
    value. *)
Definition date_truth (d : option date) : bool :=
  match d with
  | Some _ => true
  | None => true
  end.

(** [try: body except ValueError: handler] *)
Definition try_except_ValueError {A} (body : db A) (handler : db A) : db A := λ st,
  match body st with
  | (st', Raise ValueError) => handler st'
  | r => r
  end.

(** ** Query sets *)

Record query_params := mkquery {
  qp_action : option string;
  qp_q : option string;
  qp_id : option string;
  qp_teamname : option string;
  qp_shift : option string;
  qp_start_date : option string;
  qp_end_date : option string }.

(** [date__range=[start_date, end_date]] *)
Definition date__range (start_date end_date d : date) : bool :=
  date_leb start_date d && date_leb d end_date.

(** A lookup on a text column is false on a row whose column is null. *)
Definition lookup_text (test : string → bool) (value : option string) : bool :=
  match value with
  | Some v => test v
  | None => false
  end.

(** [name__in=names] *)
Definition name__in (names : list (option string)) (value : option string) : bool :=
  match value with
  | Some v => bool_decide (Some v ∈ names)
  | None => false
  end.

Definition name_leb (a b : option string) : bool :=
  match a, b with
  | None, _ => true
  | Some _, None => false
  | Some x, Some y => String.leb x y
  end.

Fixpoint insert_by {A} (leb : A → A → bool) (x : A) (l : list A) : list A :=
  match l with
  | [] => [x]
  | y :: l' => if leb x y then x :: l else y :: insert_by leb x l'
  end.

Definition sort_by {A} (leb : A → A → bool) (l : list A) : list A :=
  foldr (insert_by leb) [] l.

(** [order_by('date', 'name')] *)
Definition order_by_date_name {A} (date_of : A → date) (name_of : A → option string)
    (l : list A) : list A :=
  sort_by (λ x y, date_ltb (date_of x) (date_of y)
                  || (bool_decide (date_of x = date_of y)
                      && name_leb (name_of x) (name_of y))) l.

(** [Attendance.objects.order_by('-date').first()] *)
Definition latest (table : list Attendance) : option Attendance :=
  foldl (λ best a,
           match best with
           | None => Some a
           | Some b => if date_ltb (a_date b) (a_date a) then Some a else Some b
           end) None table.

Definition WFO_SCHEDULES : gset string :=
  list_to_set ["WFO-M"; "WFO-G"; "WFO-G2"; "WFO-S"; "WFO-N"].
Definition WFH_SCHEDULES : gset string :=
  list_to_set ["WFH-M"; "WFH-G"; "WFH-G2"; "WFH-S"; "WFH-N"].

(** [str(entry.schedule).upper() if entry.schedule else ""] *)
Definition schedule_of (entry : Roster) : string :=
  match truthy (r_schedule entry) with
  | Some s => upper s
  | None => ""
  end.

(** The body of the loop over [employee_rosters]. *)
Definition count_entry (c : counts) (entry : Roster) : counts :=
  let schedule := schedule_of entry in
  if bool_decide (schedule ∈ WFO_SCHEDULES)
  then mkcounts (Total_WFO c + 1) (Total_WFH c) (Total_WO c) (Total_PL c)
         (Total_working_days c) (Total_Leaves c)
  else if bool_decide (schedule ∈ WFH_SCHEDULES)
  then mkcounts (Total_WFO c) (Total_WFH c + 1) (Total_WO c) (Total_PL c)
         (Total_working_days c) (Total_Leaves c)
  else if String.eqb schedule "WO"
  then mkcounts (Total_WFO c) (Total_WFH c) (Total_WO c + 1) (Total_PL c)
         (Total_working_days c) (Total_Leaves c)
  else if String.eqb schedule "PL"
  then mkcounts (Total_WFO c) (Total_WFH c) (Total_WO c) (Total_PL c + 1)
         (Total_working_days c) (Total_Leaves c)
  else c.

Definition count_entries (employee_rosters : list Roster) : counts :=
  let c := foldl count_entry (mkcounts 0 0 0 0 0 0) employee_rosters in
  mkcounts (Total_WFO c) (Total_WFH c) (Total_WO c) (Total_PL c)
    (Total_WFO c + Total_WFH c) (Total_WO c + Total_PL c).

(** The five categories of a shift code, and the tests of the loop
    body one by one. *)
Inductive category := WFO | WFH | WO | PL | Uncategorized.

#[global] Instance category_eq_dec : EqDecision category.
Proof. solve_decision. Defined.



(** ** The writes of an ingestion, one after the other *)

(** A loop of [update_or_create] calls as the list of what each turn
    does: a row to write, or an exception raised before the write.
    The loop stops at the first exception and keeps what it wrote. *)
Fixpoint upsert_all {R} (key_of : R → key) (ops : list (result R)) (table : list R)
    : list R * result () :=
  match ops with
  | [] => (table, Ok ())
  | Raise e :: _ => (table, Raise e)
  | Ok row :: ops' =>
      match update_or_create key_of row table with
      | Ok table' => upsert_all key_of ops' table'
      | Raise e => (table, Raise e)
      end
  end.

(** A successful [update_or_create] as a total function: the rows
    under the key become [row], or [row] is added at the end. *)
Definition replace_row {R} (key_of : R → key) (row r : R) : R :=
  if bool_decide (key_of r = key_of row) then row else r.

Definition put {R} (key_of : R → key) (row : R) (table : list R) : list R :=
  if bool_decide (key_of row ∈ map key_of table)
  then map (replace_row key_of row) table
  else table ++ [row].

Definition put_all {R} (key_of : R → key) (rows : list R) (table : list R) : list R :=
  foldl (λ t row, put key_of row t) table rows.

(** The turns a loop gets through when [ok] tells the keys that can be
    written, and how the loop ends. *)
Fixpoint written {R} (key_of : R → key) (ok : key → bool) (ops : list (result R))
    : list R :=
  match ops with
  | Ok row :: ops' => if ok (key_of row) then row :: written key_of ok ops' else []
  | _ => []
  end.

Fixpoint outcome {R} (key_of : R → key) (ok : key → bool) (ops : list (result R))
    : result () :=
  match ops with
  | [] => Ok ()
  | Raise e :: _ => Raise e
  | Ok row :: ops' =>
      if ok (key_of row) then outcome key_of ok ops' else Raise MultipleObjectsReturned
  end.

(** The number of rows of a table under a key. *)
Definition key_count {R} (key_of : R → key) (k : key) (table : list R) : nat :=
  length (List.filter (λ r, bool_decide (key_of r = k)) table).

(** The keys [update_or_create] can write: at most one row has them. *)
Definition writable {R} (key_of : R → key) (table : list R) (k : key) : bool :=
  bool_decide (key_count key_of k table ≤ 1)%nat.

(** No key of the store is held by two rows. *)
Definition unique_keys (st : store) : Prop :=
  (∀ k, (key_count roster_key k (rosters st) ≤ 1)%nat)
  ∧ (∀ k, (key_count attendance_key k (attendances st) ≤ 1)%nat).

(** The two loops as code that talks to the database. *)
Definition run_roster (ops : list (result Roster)) : db () := λ st,
  let '(table, r) := upsert_all roster_key ops (rosters st) in
  (mkstore table (attendances st), r).

Definition run_attendance (ops : list (result Attendance)) : db () := λ st,
  let '(table, r) := upsert_all attendance_key ops (attendances st) in
  (mkstore (rosters st) table, r).

Section Billing.

(** [rapidfuzz.fuzz.token_set_ratio], a score between 0 and 100. *)
Variable token_set_ratio : string → string → Q.

(** [pd.to_datetime(str(t), errors='coerce')] followed by [.time()];
    [None] stands for [NaT]. *)
Variable to_datetime_time : string → option time.

(** [pd.to_datetime(x, dayfirst=True, errors='coerce')] on one cell
    that is not [None], followed by [.date()]; [None] stands for [NaT]. *)
Variable to_datetime_dayfirst : cell → option date.

(** The same call on a whole column. *)
Variable to_datetime_series : list cell → list (option date).

(** [pd.to_datetime(s).date()] on a query parameter. *)
Variable to_datetime_query : string → result date.

Definition to_safe_time (t : cell) : result (option time) :=
  if isna t then Ok None else
  match t with
  | CTime tm => Ok (Some tm)
  | CInt _ | CFloat _ =>
      total_seconds ← scaled_seconds t;
      tm ← time_of_seconds total_seconds;
      Ok (Some tm)
  | CStr s =>
      (* [NaT.time()] raises [ValueError], which the handler turns into [None] *)
      match to_datetime_time s with
      | Some tm => Ok (Some tm)
      | None => Ok None
      end
  | CNone => Ok None
  end.

(** *** FileUploadView *)

(** Modelled from the spec: [rapidfuzz.process.extractOne] is not part
    of the sources.  Every choice is scored against the query, the
    highest score wins, and among equal scores the first one met. *)
Fixpoint extractOne_from (query : string) (best : option (string * Q))
    (choices : list string) : option (string * Q) :=
  match choices with
  | [] => best
  | choice :: choices' =>
      let score := token_set_ratio query choice in
      let best' :=
        match best with
        | None => Some (choice, score)
        | Some (_, result_score) =>
            if Qle_bool score result_score then best else Some (choice, score)
        end in
      extractOne_from query best' choices'
  end.

Definition extractOne (query : string) (choices : list string) : option (string * Q) :=
  extractOne_from query None choices.

(** One turn of the loop that fills [name_map]. *)
Definition reconcile (roster_names : list string) (name_map : gmap string string)
    (att_name : string) : gmap string string :=
  match extractOne att_name roster_names with
  | Some (canonical_name, score) =>
      if Qle_bool 90 score then <[att_name := canonical_name]> name_map else name_map
  | None => name_map
  end.

Definition build_name_map (attendance_names roster_names : list string)
    : gmap string string :=
  foldl (reconcile roster_names) ∅ attendance_names.

(** [list(name_map.values())] *)
Definition values (name_map : gmap string string) : list string :=
  (map_to_list name_map).*2.

(** [series.isin(matched_names)] on one cell. *)
Definition isin (matched_names : list string) (c : option string) : bool :=
  match c with
  | Some n => bool_decide (n ∈ matched_names)
  | None => false
  end.

Definition _process_roster_data (df : roster_sheet) (year month : Z) : db () :=
  for_each (rows df) (λ row,
    let name := row_field "name" (items df row) in
    let team := row_field "sr no" (items df row) in
    for_each (items df row) (λ '(col_name, schedule),
      if isdigit col_name then
        try_except_ValueError
          (date ← db_lift (date_new year month (int_of_digits col_name));
           Roster_update_or_create
             (mkRoster name date team (Some (stored_text schedule))))
          (mret ())
      else mret ())).

(** The rows that reach [_process_attendance_data] carry the column
    [name] that [post] added. *)
Definition named_row : Type := attendance_row * option string.

Definition _process_attendance_data (df : list named_row) : db () :=
  for_each df (λ '(row, name),
    attendance_date ←
      db_lift (if isna (attendance_date row) then Raise AttributeError
               else Ok (to_datetime_dayfirst (attendance_date row)));
    if negb (date_truth attendance_date) then mret () else
    first_in' ← db_lift (to_safe_time (first_in row));
    last_out' ← db_lift (to_safe_time (last_out row));
    gross_time' ← db_lift (to_safe_time (gross_time row));
    out_of_office_time' ← db_lift (to_safe_time (out_of_office_time row));
    net_office_time' ← db_lift (to_safe_time (net_office_time row));
    Attendance_update_or_create
      (mkAttendance name (date_column attendance_date) (ads_id row) (user_type row)
         (designation row) (department row) (location row) first_in' last_out'
         gross_time' out_of_office_time' (out_of_office_count row) net_office_time')).

Definition roster_names_of (roster_df : roster_sheet) : list string :=
  unique (dropna (map (λ row, row_get "name" (items roster_df row)) (rows roster_df))).

Definition attendance_names_of (attendance_df : list attendance_row) : list string :=
  unique (dropna (map name_in_attendance attendance_df)).

Definition name_map_of (roster_df : roster_sheet) (attendance_df : list attendance_row)
    : gmap string string :=
  build_name_map (attendance_names_of attendance_df) (roster_names_of roster_df).

(** [attendance_df['name_in_attendance'].map(name_map)] on one cell. *)
Definition map_name (name_map : gmap string string) (c : option string) : option string :=
  n ← c; name_map !! n.

(** The body of the [try] block; it returns the year and the month of
    the first valid date. *)
Definition process_files (roster_df : roster_sheet) (attendance_df : list attendance_row)
    : db (Z * Z) :=
  (* a sheet without a data row is read as a frame without columns, and
     giving it the thirteen labels raises *)
  _ ← db_lift (match attendance_df with
               | [] => Raise ValueError
               | _ :: _ => Ok ()
               end);
  let dates := to_datetime_series (map attendance_date attendance_df) in
  first_valid_date ← db_lift (match dropna dates with
                              | d :: _ => Ok d
                              | [] => Raise IndexError
                              end);
  let processing_year := year first_valid_date in
  let processing_month := month first_valid_date in
  _ ← db_lift (if bool_decide ("name" ∈ columns roster_df) then Ok () else Raise KeyError);
  let name_map := name_map_of roster_df attendance_df in
  let named := map (λ row, (row, map_name name_map (name_in_attendance row))) attendance_df in
  let matched_names := values name_map in
  let roster_df' :=
    mkroster_sheet (columns roster_df)
      (List.filter (λ row, isin matched_names (row_get "name" (items roster_df row)))
         (rows roster_df)) in
  let attendance_df' := List.filter (λ nr : named_row, bool_decide (is_Some nr.2)) named in
  _process_roster_data roster_df' processing_year processing_month;;
  _process_attendance_data attendance_df';;
  mret (processing_year, processing_month).

Definition post (request : upload_request) : db response :=
  match roster_file request, attendance_file request with
  | Some roster_df, Some attendance_df =>
      try_except
        (ym ← process_files roster_df attendance_df;
         mret (Response (ProcessedSuccessfully ym.1 ym.2) HTTP_201_CREATED))
        (λ e, mret (Response (ErrorOccurred e) HTTP_500_INTERNAL_SERVER_ERROR))
  | _, _ => mret (Response UploadBothFiles HTTP_400_BAD_REQUEST)
  end.

(** *** SearchView *)

Definition _get_date_range (request : query_params) (st : store)
    : result (option (date * date)) :=
  match truthy (qp_start_date request) with
  | Some start_date_str =>
      start_date ← to_datetime_query start_date_str;
      end_date ← match truthy (qp_end_date request) with
                 | Some end_date_str => to_datetime_query end_date_str
                 | None => Ok start_date
                 end;
      Ok (Some (start_date, end_date))
  | None =>
      match latest (attendances st) with
      | None => Ok None
      | Some last_attendance =>
          let target_date := a_date last_attendance in
          (* a date column that holds ['NaT'] is read back as [None] *)
          if bool_decide (target_date = NaT) then Raise AttributeError else
          start_date ← date_replace_day target_date 1;
          day28 ← date_replace_day start_date 28;
          next_month ← date_add_days day28 4;
          end_date ← date_sub_days next_month (day next_month);
          Ok (Some (start_date, end_date))
      end
  end.

(** [for word in query.split(): qs = qs.filter(name__icontains=word)] *)
Definition filter_words (query : string) (qs : list Roster) : list Roster :=
  foldl (λ qs word, List.filter (λ r, lookup_text (λ n, icontains n word) (r_name r)) qs)
        qs (split query).

(** The names of the attendance rows of an employee id in the range. *)
Definition names_with_id (st : store) (start_date end_date : date) (employee_id : string)
    : list (option string) :=
  distinct (map a_name
    (List.filter (λ a, lookup_text (λ v, iexact v employee_id) (a_employee_id a)
                       && date__range start_date end_date (a_date a))
       (attendances st))).

(** One turn of the loop over [employee_names]. *)
Definition count_employee (st : store) (rosters_query : list Roster)
    (start_date end_date : date) (name : option string) : count_result :=
  let employee_rosters := List.filter (λ r, bool_decide (r_name r = name)) rosters_query in
  let emp_id :=
    match List.filter (λ a, bool_decide (a_name a = name)) (attendances st) with
    | a :: _ => a_employee_id a
    | [] => None
    end in
  mkcount_result name emp_id start_date end_date (count_entries employee_rosters).

Definition _perform_count (request : query_params) (st : store) : result response :=
  let query := truthy (qp_q request) in
  let employee_id := truthy (qp_id request) in
  if bool_decide (query = None) && bool_decide (employee_id = None)
  then Ok (Response QueryRequired HTTP_400_BAD_REQUEST) else
  range ← _get_date_range request st;
  match range with
  | None => Ok (Response NoDataForPeriod HTTP_404_NOT_FOUND)
  | Some (start_date, end_date) =>
      let rosters_query :=
        List.filter (λ r, date__range start_date end_date (r_date r)) (rosters st) in
      let respond employee_names :=
        Ok (Response
              (CountResults
                 (map (count_employee st rosters_query start_date end_date) employee_names))
              HTTP_200_OK) in
      match employee_id, query with
      | Some employee_id, _ =>
          let employee_names := names_with_id st start_date end_date employee_id in
          if bool_decide (employee_names = [])
          then Ok (Response (NoEmployeeWithId employee_id) HTTP_404_NOT_FOUND)
          else respond employee_names
      | None, Some query =>
          let temp_rosters := filter_words query rosters_query in
          let employee_names := distinct (map r_name temp_rosters) in
          if bool_decide (employee_names = [])
          then Ok (Response (NoEmployeeMatching query) HTTP_404_NOT_FOUND)
          else respond employee_names
      | None, None => respond []
      end
  end.

Definition eight_hours : time := mktime 8 0 0 0.

(** The attendance rows both low-hours actions start from. *)
Definition low_hour_attendances (st : store) (start_date end_date : date)
    : list Attendance :=
  order_by_date_name a_date a_name
    (List.filter (λ a, date__range start_date end_date (a_date a)
                       && match a_net_office_time a with
                          | Some t => time_ltb t eight_hours
                          | None => false
                          end)
       (attendances st)).

(** [{(r.name, r.date): r for r in qs}] *)
Definition roster_map_of (qs : list Roster) : gmap key Roster :=
  foldl (λ m r, <[(r_name r, r_date r) := r]> m) ∅ qs.

(** The loop that joins the low-hour rows to [roster_map]. *)
Definition join_low_hours (roster_map : gmap key Roster) (atts : list Attendance)
    : list low_hours_result :=
  omap (λ att,
          roster_record ← roster_map !! (a_name att, a_date att);
          Some (mklow_hours_result (a_name att) (a_employee_id att)
                  (r_team roster_record) (a_date att) (r_schedule roster_record)
                  (a_net_office_time att))) atts.

(** The roster rows of the range and of the low-hour names that the
    [exclude] leaves. *)
Definition low_hours_rosters (excluded : string → bool) (st : store)
    (start_date end_date : date) (atts : list Attendance) : list Roster :=
  List.filter (λ r, date__range start_date end_date (r_date r)
                    && name__in (map a_name atts) (r_name r)
                    && negb (lookup_text excluded (r_schedule r)))
    (rosters st).

Definition _find_low_hours (request : query_params) (st : store) : result response :=
  range ← _get_date_range request st;
  match range with
  | None => Ok (Response NoDataFound HTTP_404_NOT_FOUND)
  | Some (start_date, end_date) =>
      let atts := low_hour_attendances st start_date end_date in
      let roster_map :=
        roster_map_of
          (low_hours_rosters (λ s, iexact s "PL" || iexact s "WO") st
             start_date end_date atts) in
      let results := join_low_hours roster_map atts in
      Ok (Response (LowHours (length results) results) HTTP_200_OK)
  end.

Definition _find_non_pl_low_hours (request : query_params) (st : store)
    : result response :=
  range ← _get_date_range request st;
  match range with
  | None => Ok (Response NoDataFound HTTP_404_NOT_FOUND)
  | Some (start_date, end_date) =>
      let atts := low_hour_attendances st start_date end_date in
      let roster_map :=
        roster_map_of
          (low_hours_rosters (λ s, iexact s "PL") st start_date end_date atts) in
      let results := join_low_hours roster_map atts in
      Ok (Response (NonPlLowHours (length results) results) HTTP_200_OK)
  end.

(** [{(att.name, att.date): att for att in attendance_data}] *)
Definition attendance_map_of (qs : list Attendance) : gmap key Attendance :=
  foldl (λ m att, <[(a_name att, a_date att) := att]> m) ∅ qs.

(** The loop that joins the roster rows to [attendance_map]. *)
Definition join_search (attendance_map : gmap key Attendance) (qs : list Roster)
    : list search_result :=
  map (λ roster,
         let attendance_record := attendance_map !! (r_name roster, r_date roster) in
         let field {A} (f : Attendance → option A) : option A :=
           att ← attendance_record; f att in
         mksearch_result (r_name roster) (field a_employee_id) (r_team roster)
           (r_date roster) (r_schedule roster) (field a_department) (field a_first_in)
           (field a_last_out) (field a_gross_time) (field a_out_of_office_time)
           (field a_out_of_office_count) (field a_net_office_time)) qs.

(** [qs.filter(...) if param else qs] *)
Definition filter_if {A} (param : option string) (test : string → A → bool)
    (qs : list A) : list A :=
  match param with
  | Some p => List.filter (test p) qs
  | None => qs
  end.

Definition _perform_search (request : query_params) (st : store) : result response :=
  let teamname := truthy (qp_teamname request) in
  let query := truthy (qp_q request) in
  let shift := truthy (qp_shift request) in
  let employee_id := truthy (qp_id request) in
  range ← _get_date_range request st;
  match range with
  | None => Ok (Response NoDataForPeriod HTTP_404_NOT_FOUND)
  | Some (start_date, end_date) =>
      let rosters0 :=
        List.filter (λ r, date__range start_date end_date (r_date r)) (rosters st) in
      let finish rosters1 :=
        let rosters2 :=
          filter_if teamname (λ t r, lookup_text (λ v, iexact v t) (r_team r)) rosters1 in
        let rosters3 :=
          match query with
          | Some query => filter_words query rosters2
          | None => rosters2
          end in
        let rosters4 :=
          filter_if shift (λ s r, lookup_text (λ v, iexact v s) (r_schedule r)) rosters3 in
        let rosters5 := order_by_date_name r_date r_name rosters4 in
        let names_to_fetch := distinct (map r_name rosters5) in
        let attendance_data :=
          List.filter (λ a, name__in names_to_fetch (a_name a)
                            && date__range start_date end_date (a_date a))
            (attendances st) in
        let attendance_map := attendance_map_of attendance_data in
        Ok (Response (SearchResults (join_search attendance_map rosters5)) HTTP_200_OK) in
      match employee_id with
      | Some employee_id =>
          let names := names_with_id st start_date end_date employee_id in
          if bool_decide (names = [])
          then Ok (Response (SearchResults []) HTTP_200_OK)
          else finish (List.filter (λ r, name__in names (r_name r)) rosters0)
      | None => finish rosters0
      end
  end.

(** [action == name]; a parameter that was not sent is [None] and
    equals no name. *)
Definition action_is (action : option string) (name : string) : bool :=
  match action with
  | Some a => String.eqb a name
  | None => false
  end.

Definition get (request : query_params) (st : store) : result response :=
  let action := qp_action request in
  if action_is action "count" then _perform_count request st
  else if action_is action "low_hours" then _find_low_hours request st
  else if action_is action "non_pl_low_hours" then _find_non_pl_low_hours request st
  else _perform_search request st.

(** *** Vocabulary of the statements *)

(** [c] is the choice at index [i], no choice scores higher, and every
    earlier choice scores strictly lower. *)
Definition first_max (query : string) (choices : list string) (i : nat) (c : string)
    : Prop :=
  choices !! i = Some c
  ∧ (∀ j c', choices !! j = Some c'
             → (token_set_ratio query c' <= token_set_ratio query c)%Q)
  ∧ (∀ j c', (j < i)%nat → choices !! j = Some c'
             → (token_set_ratio query c' < token_set_ratio query c)%Q).

(** What the loop of [post] decides for one attendance name. *)
Definition accept (roster_names : list string) (att_name : string) : option string :=
  match extractOne att_name roster_names with
  | Some (canonical_name, score) => if Qle_bool 90 score then Some canonical_name else None
  | None => None
  end.

(** What one cell of a roster row makes [_process_roster_data] do:
    write a record, skip the cell ([ValueError]), or raise. *)
Definition roster_cell_op (name team : option string) (year month : Z)
    (item : string * option string) : list (result Roster) :=
  if isdigit item.1 then
    match date_new year month (int_of_digits item.1) with
    | Ok date => [Ok (mkRoster name date team (Some (stored_text item.2)))]
    | Raise ValueError => []
    | Raise e => [Raise e]
    end
  else [].

Definition roster_row_ops (df : roster_sheet) (year month : Z)
    (row : list (option string)) : list (result Roster) :=
  flat_map (roster_cell_op (row_field "name" (items df row))
              (row_field "sr no" (items df row)) year month)
    (items df row).

Definition roster_ops (df : roster_sheet) (year month : Z) : list (result Roster) :=
  flat_map (roster_row_ops df year month) (rows df).

(** What one attendance row makes [_process_attendance_data] do:
    nothing ([None]), write a record, or raise. *)
Definition attendance_record (nr : named_row) : result (option Attendance) :=
  let '(row, name) := nr in
  attendance_date ← (if isna (attendance_date row) then Raise AttributeError
                     else Ok (to_datetime_dayfirst (attendance_date row)));
  if negb (date_truth attendance_date) then Ok None else
  first_in' ← to_safe_time (first_in row);
  last_out' ← to_safe_time (last_out row);
  gross_time' ← to_safe_time (gross_time row);
  out_of_office_time' ← to_safe_time (out_of_office_time row);
  net_office_time' ← to_safe_time (net_office_time row);
  Ok (Some (mkAttendance name (date_column attendance_date) (ads_id row) (user_type row)
              (designation row) (department row) (location row) first_in' last_out'
              gross_time' out_of_office_time' (out_of_office_count row)
              net_office_time')).

Definition attendance_row_ops (nr : named_row) : list (result Attendance) :=
  match attendance_record nr with
  | Ok (Some a) => [Ok a]
  | Ok None => []
  | Raise e => [Raise e]
  end.

Definition attendance_ops (df : list named_row) : list (result Attendance) :=
  flat_map attendance_row_ops df.

(** The rows [post] hands to the two ingestors. *)
Definition matched_roster (roster_df : roster_sheet) (attendance_df : list attendance_row)
    : roster_sheet :=
  mkroster_sheet (columns roster_df)
    (List.filter
       (λ row, isin (values (name_map_of roster_df attendance_df))
                 (row_get "name" (items roster_df row)))
       (rows roster_df)).

Definition matched_attendance (roster_df : roster_sheet)
    (attendance_df : list attendance_row) : list named_row :=
  List.filter (λ nr : named_row, bool_decide (is_Some nr.2))
    (map (λ row, (row, map_name (name_map_of roster_df attendance_df)
                         (name_in_attendance row)))
       attendance_df).

(** The first valid date of the attendance sheet, as [post] finds it;
    in a sheet without a data row it finds none. *)
Definition first_valid_date (attendance_df : list attendance_row) : option date :=
  match attendance_df with
  | [] => None
  | _ :: _ => head (dropna (to_datetime_series (map attendance_date attendance_df)))
  end.

(** The [try] block of [post] as two loops of writes. *)
Definition ingest (roster_df : roster_sheet) (attendance_df : list attendance_row)
    : db (Z * Z) := λ st,
  match first_valid_date attendance_df with
  | None =>
      (st, Raise (match attendance_df with [] => ValueError | _ :: _ => IndexError end))
  | Some first =>
      if bool_decide ("name" ∈ columns roster_df) then
        (run_roster (roster_ops (matched_roster roster_df attendance_df)
                       (year first) (month first));;
         run_attendance (attendance_ops (matched_attendance roster_df attendance_df));;
         mret (year first, month first)) st
      else (st, Raise KeyError)
  end.

(** No numbered column of the sheet carries a number too large for
    [datetime.date]. *)
Definition day_labels_fit (df : roster_sheet) : Prop :=
  ∀ col_name, col_name ∈ columns df → isdigit col_name = true →
              fits_int (int_of_digits col_name) = true.

(** An attendance record of the range with a net office time below
    eight hours. *)
Definition low_hour (st : store) (start_date end_date : date) (att : Attendance) : Prop :=
  att ∈ attendances st
  ∧ date__range start_date end_date (a_date att) = true
  ∧ ∃ t, a_net_office_time att = Some t ∧ time_ltb t eight_hours = true.

(** The roster entry an attendance record joins to: the same name, not
    null, the same date, and a shift code that is not excluded. *)
Definition roster_entry_for (excluded : string → bool) (st : store) (att : Attendance)
    (r : Roster) : Prop :=
  r ∈ rosters st
  ∧ is_Some (a_name att) ∧ r_name r = a_name att ∧ r_date r = a_date att
  ∧ lookup_text excluded (r_schedule r) = false.

Definition flagged (att : Attendance) (r : Roster) : low_hours_result :=
  mklow_hours_result (a_name att) (a_employee_id att) (r_team r) (a_date att)
    (r_schedule r) (a_net_office_time att).

(** *** The low-hours reports in the words of the specification

    The report the specification describes, written without the
    lookups of the ORM, to compare the two actions with. *)

(** A time of day strictly before 8:00:00, by its microseconds since
    midnight. *)
Definition before_eight (t : time) : bool :=
  ((hour t * 60 + minute t) * 60 + second t) * 1000000 + microsecond t
  <? 8 * 60 * 60 * 1000000.

(** A day that is not after another one. *)
Definition not_after (a b : date) : bool :=
  (year a <? year b)
  || ((year a =? year b)
      && ((month a <? month b) || ((month a =? month b) && (day a <=? day b)))).

(** An attendance record of the range whose net office time is
    strictly less than 8:00:00. *)
Definition under_worked (start_date end_date : date) (att : Attendance) : bool :=
  not_after start_date (a_date att) && not_after (a_date att) end_date
  && match a_net_office_time att with
     | Some t => before_eight t
     | None => false
     end.

(** The roster entry has the name and the date of the attendance
    record. *)
Definition same_name_and_date (att : Attendance) (r : Roster) : bool :=
  match a_name att, r_name r with
  | Some n, Some n' => String.eqb n n'
  | _, _ => false
  end
  && (year (r_date r) =? year (a_date att))
  && (month (r_date r) =? month (a_date att))
  && (day (r_date r) =? day (a_date att)).

(** The shift code of the roster entry is one of the codes, whatever
    the case of its letters. *)
Definition shift_among (codes : list string) (r : Roster) : bool :=
  match r_schedule r with
  | Some s => existsb (String.eqb (upper s)) codes
  | None => false
  end.

(** Every under-worked attendance record of the range, once for each
    roster entry of its name and date whose shift code is not one of
    the excluded codes, with the fields of the two. *)
Definition low_hours_report (excluded_codes : list string) (st : store)
    (start_date end_date : date) : list low_hours_result :=
  flat_map
    (λ att,
       map (λ r, mklow_hours_result (a_name att) (a_employee_id att) (r_team r)
                   (a_date att) (r_schedule r) (a_net_office_time att))
         (List.filter
            (λ r, same_name_and_date att r && negb (shift_among excluded_codes r))
            (rosters st)))
    (List.filter (under_worked start_date end_date) (attendances st)).

(** A request that asks for a count and names nobody: neither [q] nor
    [id] is sent, or both are empty. *)
Definition count_without_filter (request : query_params) : Prop :=
  action_is (qp_action request) "count" = true
  ∧ truthy (qp_q request) = None ∧ truthy (qp_id request) = None.

(** No attendance record of the range carries the employee id. *)
Definition id_matches_nobody (st : store) (start_date end_date : date)
    (employee_id : string) : Prop :=
  ∀ a, a ∈ attendances st →
       date__range start_date end_date (a_date a) = true →
       lookup_text (λ v, iexact v employee_id) (a_employee_id a) = false.

(** No roster entry of the range has a name that contains every word
    of the query. *)
Definition query_matches_nobody (st : store) (start_date end_date : date)
    (query : string) : Prop :=
  ∀ r, r ∈ rosters st →
       date__range start_date end_date (r_date r) = true →
       ¬ ∀ word, word ∈ split query →
                 lookup_text (λ n, icontains n word) (r_name r) = true.

(** The filters on the team, the words of the name and the shift that a
    search request sends; a filter that was not sent lets every entry
    through. *)
Definition passes_filters (request : query_params) (r : Roster) : bool :=
  match truthy (qp_teamname request) with
  | Some t => lookup_text (λ v, iexact v t) (r_team r)
  | None => true
  end
  && match truthy (qp_q request) with
     | Some q => forallb (λ word, lookup_text (λ n, icontains n word) (r_name r)) (split q)
     | None => true
     end
  && match truthy (qp_shift request) with
     | Some s => lookup_text (λ v, iexact v s) (r_schedule r)
     | None => true
     end.

(** The roster entries a search over a range selects. *)
Definition search_selects (request : query_params) (st : store)
    (start_date end_date : date) (r : Roster) : bool :=
  date__range start_date end_date (r_date r)
  && match truthy (qp_id request) with
     | Some employee_id =>
         name__in (names_with_id st start_date end_date employee_id) (r_name r)
     | None => true
     end
  && passes_filters request r.

Definition selected_rosters (request : query_params) (st : store)
    (start_date end_date : date) : list Roster :=
  order_by_date_name r_date r_name
    (List.filter (search_selects request st start_date end_date) (rosters st)).

(** The roster fields of a search result. *)
Definition roster_of_result (e : search_result) : Roster :=
  mkRoster (sr_name e) (sr_date e) (sr_team e) (sr_schedule e).

(** The attendance fields of a search result are those of the
    attendance record [o], or all null when there is none. *)
Definition joined_to (e : search_result) (o : option Attendance) : Prop :=
  sr_employee_id e = o ≫= a_employee_id
  ∧ sr_department e = o ≫= a_department
  ∧ sr_first_in e = o ≫= a_first_in
  ∧ sr_last_out e = o ≫= a_last_out
  ∧ sr_gross_time e = o ≫= a_gross_time
  ∧ sr_out_of_office_time e = o ≫= a_out_of_office_time
  ∧ sr_out_of_office_count e = o ≫= a_out_of_office_count
  ∧ sr_net_office_time e = o ≫= a_net_office_time.

(** ** A sample month *)

(** The collaborators of the examples: a scorer given by a table of
    the scores of the few spellings the examples use, and parsers that
    know the few texts the examples use. *)
Definition ex_ratio (raw canonical : string) : Q :=
  if String.eqb raw canonical then 100
  else if String.eqb canonical "John Doe" then
    if String.eqb raw "Jon Doe" then 280 # 3
    else if String.eqb raw "J Doe" then 1000 # 13
    else 0
  else 0.

Definition ex_time (s : string) : option time :=
  if String.eqb s "09:30:00" then Some (mktime 9 30 0 0) else None.

Definition ex_day (c : cell) : option date :=
  match c with
  | CStr s =>
      if String.eqb s "01/03/2024" then Some (mkdate 2024 3 1)
      else if String.eqb s "02/03/2024" then Some (mkdate 2024 3 2)
      else if String.eqb s "01/04/2024" then Some (mkdate 2024 4 1)
      else if String.eqb s "02/04/2024" then Some (mkdate 2024 4 2)
      else None
  | _ => None
  end.

Definition ex_series (l : list cell) : list (option date) :=
  map (λ c, if isna c then None else ex_day c) l.

Definition ex_query_date (s : string) : result date :=
  if String.eqb s "2024-03-01" then Ok (mkdate 2024 3 1)
  else if String.eqb s "2024-03-31" then Ok (mkdate 2024 3 31)
  else Raise ValueError.

(** Two people on the roster; only one of them is in the attendance
    export, under another spelling, next to a stranger. *)
Definition ex_roster : roster_sheet :=
  mkroster_sheet ["name"; "sr no"; "1"; "2"; "31"]
    [[Some "John Doe"; Some "T1"; Some "WFO-M"; Some "WO"; Some "PL"];
     [Some "Asha Rao"; Some "T2"; Some "WFH-G"; Some "WFH-G"; None]].

Definition ex_attendance_row (raw day : string) (net : cell) : attendance_row :=
  mkattendance_row (Some "E1") (Some raw) (Some "Employee") (Some "Engineer")
    (Some "Billing") (Some "Pune") (CStr "09:30:00") CNone CNone CNone (Some 2) net
    (CStr day).

Definition ex_attendance : list attendance_row :=
  [ex_attendance_row "Jon Doe" "01/03/2024" (CTime (mktime 7 59 0 0));
   ex_attendance_row "Jon Doe" "02/03/2024" (CFloat b64_quarter);
   ex_attendance_row "Zed Q" "01/03/2024" (CInt 0)].

Definition ex_upload : upload_request := mkupload (Some ex_roster) (Some ex_attendance).

(** An export of April whose second row has a date that does not
    parse, and a roster with a day 31. *)
Definition ex_attendance_bad_date : list attendance_row :=
  [ex_attendance_row "John Doe" "01/04/2024" (CFloat b64_half);
   ex_attendance_row "John Doe" "someday" (CFloat b64_half);
   ex_attendance_row "John Doe" "02/04/2024" (CFloat b64_half)].

Definition ex_upload_bad_date : upload_request :=
  mkupload (Some ex_roster) (Some ex_attendance_bad_date).

(** The same export with the date cell of the second row left empty. *)
Definition ex_attendance_no_date : list attendance_row :=
  [ex_attendance_row "John Doe" "01/04/2024" (CFloat b64_half);
   mkattendance_row (Some "E1") (Some "John Doe") (Some "Employee") (Some "Engineer")
     (Some "Billing") (Some "Pune") (CStr "09:30:00") CNone CNone CNone (Some 2)
     (CFloat b64_half) CNone;
   ex_attendance_row "John Doe" "02/04/2024" (CFloat b64_half)].

Definition ex_upload_no_date : upload_request :=
  mkupload (Some ex_roster) (Some ex_attendance_no_date).

(** A store that holds one attendance record, of the last December
    a date can name. *)
Definition ex_store_9999 : store :=
  mkstore []
    [mkAttendance (Some "John Doe") (mkdate 9999 12 15) (Some "E1") None None None None
       None None None None None None].

(** A store with a roster row that the sample upload overwrites. *)
Definition ex_store_stale : store :=
  mkstore [mkRoster (Some "John Doe") (mkdate 2024 3 1) (Some "T9") (Some "PL")] [].

Definition ex_query (action q id start_date : option string) : query_params :=
  mkquery action q id None None start_date None.

(** A store in which one (name, date) is held by two roster rows. *)
Definition ex_store_duplicated : store :=
  mkstore [mkRoster (Some "John Doe") (mkdate 2024 4 1) None None;
           mkRoster (Some "John Doe") (mkdate 2024 4 1) None None] [].

(** A store with a roster row of somebody the sample roster does not
    name. *)
Definition ex_store_other : store :=
  mkstore [mkRoster (Some "John Doe") (mkdate 2024 3 1) (Some "T9") (Some "PL");
           mkRoster (Some "Zed Q") (mkdate 2024 3 1) (Some "T3") (Some "WFO-G")] [].

(** A roster sheet that has the same person on two rows. *)
Definition ex_roster_twice : roster_sheet :=
  mkroster_sheet ["name"; "sr no"; "1"]
    [[Some "John Doe"; Some "T1"; Some "WFO-M"];
     [Some "John Doe"; Some "T2"; Some "PL"]].

(** An export of the person whose roster row has an empty cell. *)
Definition ex_upload_missing_cell : upload_request :=
  mkupload (Some ex_roster) (Some [ex_attendance_row "Asha Rao" "01/03/2024" (CInt 0)]).

(** A roster sheet with a numbered column that is no day of any
    month and no C int. *)
Definition ex_roster_overflow : roster_sheet :=
  mkroster_sheet ["name"; "sr no"; "1"; "4294967296"; "2"]
    [[Some "John Doe"; Some "T1"; Some "WFO-M"; Some "WO"; Some "PL"]].

(** A store of March days around the eight hours, the borders of the
    month and the two codes of a day without work. *)
Definition ex_hours (name : string) (d : date) (net : option time) : Attendance :=
  mkAttendance (Some name) d (Some "E1") None None None None None None None None None net.

Definition ex_shift (d : date) (code : string) : Roster :=
  mkRoster (Some "John Doe") d (Some "T1") (Some code).

Definition ex_store_hours : store :=
  mkstore
    [ex_shift (mkdate 2024 2 29) "WFO-M";
     ex_shift (mkdate 2024 3 1) "WFO-M";
     ex_shift (mkdate 2024 3 2) "WFO-M";
     ex_shift (mkdate 2024 3 3) "wo";
     ex_shift (mkdate 2024 3 4) "Pl";
     ex_shift (mkdate 2024 3 5) "WFH-G";
     ex_shift (mkdate 2024 3 31) "WFO-G";
     ex_shift (mkdate 2024 4 1) "WFO-G"]
    [ex_hours "John Doe" (mkdate 2024 2 29) (Some (mktime 1 0 0 0));
     ex_hours "John Doe" (mkdate 2024 3 1) (Some (mktime 7 59 59 999999));
     ex_hours "Asha Rao" (mkdate 2024 3 1) (Some (mktime 1 0 0 0));
     ex_hours "John Doe" (mkdate 2024 3 2) (Some (mktime 8 0 0 0));
     ex_hours "John Doe" (mkdate 2024 3 3) (Some (mktime 6 0 0 0));
     ex_hours "John Doe" (mkdate 2024 3 4) (Some (mktime 5 0 0 0));
     ex_hours "John Doe" (mkdate 2024 3 5) None;
     ex_hours "John Doe" (mkdate 2024 3 31) (Some (mktime 7 0 0 0));
     ex_hours "John Doe" (mkdate 2024 4 1) (Some (mktime 1 0 0 0))].


(** * Properties *)

(** ** The time normalizer *)

Lemma time_of_seconds_ok (n : Z) :
  0 ≤ n →
  let total := Z.min n 86399 in
  time_of_seconds n
  = Ok (mktime (total / 3600) (total mod 3600 / 60) (total mod 3600 mod 60) 0).
Proof.
  intros Hn total. unfold time_of_seconds, time_new, fits_int. fold total.
  assert (0 ≤ total ≤ 86399) as Htot by (unfold total; lia).
  assert (0 ≤ total / 3600 < 24) as Hh.
  { split; [apply Z.div_pos; lia | apply Z.div_lt_upper_bound; lia]. }
  pose proof (Z.mod_pos_bound total 3600 ltac:(lia)) as Hr.
  assert (0 ≤ total mod 3600 / 60 < 60) as Hm.
  { split; [apply Z.div_pos; lia | apply Z.div_lt_upper_bound; lia]. }
  pose proof (Z.mod_pos_bound (total mod 3600) 60 ltac:(lia)) as Hs.
  repeat match goal with
         | |- context [?a <=? ?b] =>
             let H := fresh in
             assert ((a <=? b) = true) as H by (apply Z.leb_le; lia); rewrite H; clear H
         end.
  reflexivity.
Qed.

Lemma time_of_seconds_clamped (n : Z) :
  86399 ≤ n → time_of_seconds n = Ok (mktime 23 59 59 0).
Proof.
  intros Hn. rewrite time_of_seconds_ok by lia.
  replace (Z.min n 86399) with 86399 by lia. reflexivity.
Qed.

Lemma to_safe_time_of_seconds (c : cell) (n : Z) :
  scaled_seconds c = Ok n →
  to_safe_time c = (tm ← time_of_seconds n; Ok (Some tm)).
Proof.
  intros Hs.
  destruct c as [ | tm | z | f | s]; try (simpl in Hs; discriminate).
  - unfold to_safe_time. cbn [isna]. rewrite Hs. reflexivity.
  - destruct f; try (simpl in Hs; discriminate);
      unfold to_safe_time; cbn [isna]; rewrite Hs; reflexivity.
Qed.

(** *** Floats that are at least one day *)

Lemma two_pow_pos (e : Z) : (0 < 2 ^ e)%Q.
Proof. apply Qpower_0_lt. reflexivity. Qed.

Lemma two_pow_add (a b : Z) : (2 ^ (a + b) == 2 ^ a * 2 ^ b)%Q.
Proof. apply Qpower_plus. discriminate. Qed.

Lemma two_pow_inject (n : Z) : 0 <= n → (inject_Z (2 ^ n) == 2 ^ n)%Q.
Proof. intros. apply (Zpower_Qpower 2 n). assumption. Qed.

Lemma shr_1_m (mrs : shr_record) :
  0 <= shr_m mrs → shr_m (shr_1 mrs) = shr_m mrs / 2.
Proof.
  destruct mrs as [m r s]. simpl. intros Hm.
  destruct m as [ | [p | p | ] | p]; simpl; try reflexivity; try lia.
  - rewrite Pos2Z.inj_xI. apply Z.div_unique with (r := 1); lia.
  - rewrite Pos2Z.inj_xO. apply Z.div_unique with (r := 0); lia.
Qed.

Lemma two_pow_xI (p : positive) : 2 ^ Z.pos p~1 = 2 * (2 ^ Z.pos p * 2 ^ Z.pos p).
Proof.
  rewrite Pos2Z.inj_xI. replace (2 * Z.pos p + 1) with (1 + Z.pos p + Z.pos p) by lia.
  rewrite !Z.pow_add_r, Z.pow_1_r by lia. lia.
Qed.

Lemma two_pow_xO (p : positive) : 2 ^ Z.pos p~0 = 2 ^ Z.pos p * 2 ^ Z.pos p.
Proof.
  change (Z.pos p~0) with (2 * Z.pos p).
  replace (2 * Z.pos p) with (Z.pos p + Z.pos p) by lia.
  rewrite Z.pow_add_r by lia. lia.
Qed.

Lemma iter_shr_1_m (p : positive) (mrs : shr_record) :
  0 <= shr_m mrs →
  shr_m (SpecFloat.iter_pos shr_1 p mrs) = shr_m mrs / 2 ^ Z.pos p.
Proof.
  revert mrs. induction p as [p IH | p IH | ]; intros mrs Hm; simpl SpecFloat.iter_pos.
  - assert (0 <= shr_m (shr_1 mrs)) as H1 by (rewrite shr_1_m by lia; apply Z.div_pos; lia).
    assert (0 <= shr_m (SpecFloat.iter_pos shr_1 p (shr_1 mrs))) as H2
      by (rewrite IH by lia; apply Z.div_pos; lia).
    rewrite IH, IH, shr_1_m by lia.
    rewrite !Z.div_div by lia. rewrite two_pow_xI. reflexivity.
  - assert (0 <= shr_m (SpecFloat.iter_pos shr_1 p mrs)) as H2
      by (rewrite IH by lia; apply Z.div_pos; lia).
    rewrite IH, IH by lia. rewrite !Z.div_div by lia. rewrite two_pow_xO. reflexivity.
  - rewrite shr_1_m by lia. reflexivity.
Qed.

Lemma digits2_pos_bounds (m : positive) :
  2 ^ (Z.pos (digits2_pos m) - 1) <= Z.pos m < 2 ^ Z.pos (digits2_pos m).
Proof.
  induction m as [m IH | m IH | ]; simpl digits2_pos.
  - rewrite Pos2Z.inj_succ.
    replace (Z.succ (Z.pos (digits2_pos m)) - 1) with (Z.pos (digits2_pos m)) by lia.
    rewrite Z.pow_succ_r by lia.
    assert (2 ^ Z.pos (digits2_pos m) = 2 * 2 ^ (Z.pos (digits2_pos m) - 1)) as H.
    { rewrite <- Z.pow_succ_r by lia. f_equal. lia. }
    lia.
  - rewrite Pos2Z.inj_succ.
    replace (Z.succ (Z.pos (digits2_pos m)) - 1) with (Z.pos (digits2_pos m)) by lia.
    rewrite Z.pow_succ_r by lia.
    assert (2 ^ Z.pos (digits2_pos m) = 2 * 2 ^ (Z.pos (digits2_pos m) - 1)) as H.
    { rewrite <- Z.pow_succ_r by lia. f_equal. lia. }
    lia.
  - simpl. lia.
Qed.

(** Rounding keeps a float above an integer [K] it can hold exactly:
    [K] is [k0 * 2^t] and at most [2^52]. *)
Section Round.
Variables (K k0 t : Z).
Hypothesis HK : K = k0 * 2 ^ t.
Hypothesis Hk0 : 0 < k0.
Hypothesis Ht : 0 <= t.
Hypothesis HK52 : K <= 2 ^ 52.

Lemma shift_ge (m e p : Z) :
  0 <= m → 0 < p →
  (inject_Z K <= fval m e)%Q →
  e + p <= t \/ (2 ^ 52 <= m / 2 ^ p /\ t < e + p) →
  (inject_Z K <= fval (m / 2 ^ p) (e + p))%Q.
Proof.
  intros Hm Hp Hval [HA | [HB1 HB2]]; unfold fval in *.
  - set (K' := k0 * 2 ^ (t - (e + p))).
    assert (inject_Z K == inject_Z K' * 2 ^ (e + p))%Q as HKq.
    { subst K K'. rewrite !inject_Z_mult, !two_pow_inject by lia.
      rewrite <- Qmult_assoc, <- two_pow_add. replace (t - (e + p) + (e + p)) with t by lia.
      reflexivity. }
    assert (K' * 2 ^ p <= m) as Hle.
    { rewrite Zle_Qle, inject_Z_mult, two_pow_inject by lia.
      apply (Qmult_le_r _ _ (2 ^ e)); [apply two_pow_pos | ].
      rewrite <- Qmult_assoc, <- two_pow_add. replace (p + e) with (e + p) by lia.
      rewrite <- HKq. exact Hval. }
    rewrite HKq. apply Qmult_le_compat_r; [ | apply Qlt_le_weak, two_pow_pos].
    rewrite <- Zle_Qle. apply Z.div_le_lower_bound; lia.
  - apply Qle_trans with (inject_Z (m / 2 ^ p)).
    + rewrite <- Zle_Qle. lia.
    + rewrite <- (Qmult_1_r (inject_Z (m / 2 ^ p))) at 1.
      apply Qmult_le_compat_nonneg.
      * split; [ | apply Qle_refl]. rewrite <- (Zle_Qle 0). apply Z.div_pos; lia.
      * split; [discriminate | ]. apply Qpower_1_le; [discriminate | lia].
Qed.

Lemma shr_m_of_loc (m : Z) (l : SpecFloat.location) : shr_m (shr_record_of_loc m l) = m.
Proof. destruct l as [ | []]; reflexivity. Qed.

Lemma shr_fexp_ge (mp : positive) (e : Z) (l : SpecFloat.location) :
  (inject_Z K <= fval (Z.pos mp) e)%Q →
  (inject_Z K <= fval (shr_m (fst (shr_fexp 53 1024 (Z.pos mp) e l)))
                   (snd (shr_fexp 53 1024 (Z.pos mp) e l)))%Q.
Proof.
  intros Hval. unfold shr_fexp, shr. cbn [Zdigits2].
  set (d := Z.pos (digits2_pos mp)).
  assert (fexp 53 1024 (d + e) = Z.max (d + e - 53) (-1074)) as Hfexp by reflexivity.
  destruct (fexp 53 1024 (d + e) - e) as [ | p | p] eqn:Hn; cbn [fst snd];
    rewrite ?shr_m_of_loc; try exact Hval.
  rewrite iter_shr_1_m by (rewrite shr_m_of_loc; lia). rewrite shr_m_of_loc.
  apply shift_ge; [lia | lia | exact Hval | ].
  destruct (Z_le_gt_dec (e + Z.pos p) t) as [Hle | Hgt]; [by left | right].
  split; [ | lia].
  assert (Z.pos p = d - 53) as -> by lia.
  pose proof (digits2_pos_bounds mp) as [Hlow _]. fold d in Hlow.
  apply Z.div_le_lower_bound; [apply Z.pow_pos_nonneg; lia | ].
  rewrite Z.mul_comm, <- Z.pow_add_r by lia.
  replace (52 + (d - 53)) with (d - 1) by lia. exact Hlow.
Qed.

Lemma round_nearest_even_ge (m : Z) (l : SpecFloat.location) : m <= round_nearest_even m l.
Proof. destruct l as [ | []]; cbn; try destruct (Z.even m); lia. Qed.

Lemma fval_mono (m m' e : Z) : m <= m' → (fval m e <= fval m' e)%Q.
Proof.
  intros H. unfold fval. apply Qmult_le_compat_r; [ | apply Qlt_le_weak, two_pow_pos].
  by rewrite <- Zle_Qle.
Qed.

Lemma fval_pos (m e : Z) : (0 < fval m e)%Q → 0 < m.
Proof.
  unfold fval. intros H. destruct (Z_lt_le_dec 0 m) as [ | Hle]; [assumption | ].
  exfalso. apply (Qlt_not_le _ _ H).
  rewrite <- (Qmult_0_l (2 ^ e)). apply Qmult_le_compat_r;
    [ | apply Qlt_le_weak, two_pow_pos].
  change (inject_Z m <= inject_Z 0)%Q. by rewrite <- Zle_Qle.
Qed.

Lemma K_pos : (0 < inject_Z K)%Q.
Proof.
  change (inject_Z 0 < inject_Z K)%Q. rewrite <- Zlt_Qlt. subst K. apply Z.mul_pos_pos; [lia | ].
  apply Z.pow_pos_nonneg; lia.
Qed.

Lemma binary_round_aux_ge (mp : positive) (e : Z) :
  (inject_Z K <= fval (Z.pos mp) e)%Q →
  b64_ge (binary_round_aux 53 1024 false (Z.pos mp) e loc_Exact) K.
Proof.
  intros Hval. unfold binary_round_aux.
  pose proof (shr_fexp_ge mp e loc_Exact Hval) as H1.
  destruct (shr_fexp 53 1024 (Z.pos mp) e loc_Exact) as [mrs' e']. cbn [fst snd] in H1.
  set (m2 := round_nearest_even (shr_m mrs') (loc_of_shr_record mrs')).
  assert (inject_Z K <= fval m2 e')%Q as H2.
  { eapply Qle_trans; [exact H1 | ]. apply fval_mono, round_nearest_even_ge. }
  assert (0 < m2) as Hm2.
  { apply (fval_pos m2 e'). eapply Qlt_le_trans; [apply K_pos | exact H2]. }
  destruct m2 as [ | m2p | m2p] eqn:Em2; try lia.
  pose proof (shr_fexp_ge m2p e' loc_Exact H2) as H3.
  destruct (shr_fexp 53 1024 (Z.pos m2p) e' loc_Exact) as [mrs'' e'']. cbn [fst snd] in H3.
  assert (0 < shr_m mrs'') as Hm3.
  { apply (fval_pos _ e''). eapply Qlt_le_trans; [apply K_pos | exact H3]. }
  destruct (shr_m mrs'') as [ | m3 | m3]; try lia.
  destruct (e'' <=? 1024 - 53); [exact H3 | exact I].
Qed.

End Round.

#[local] Set Default Proof Using "Type".

(** A proof that does not talk about a collaborator does not keep it. *)
Ltac only_stated :=
  try clear to_datetime_query; try clear to_datetime_series;
  try clear to_datetime_dayfirst; try clear to_datetime_time;
  try clear token_set_ratio.

Lemma fval_mul (m1 e1 m2 e2 : Z) :
  (fval (m1 * m2) (e1 + e2) == fval m1 e1 * fval m2 e2)%Q.
Proof. unfold fval. rewrite inject_Z_mult, two_pow_add. ring. Qed.

(** Multiplying a float that is at least [kx] by the float of a
    positive integer [c] gives a float that is at least [kx * c]. *)
Lemma b64_mul_ge (x : spec_float) (kx c k0 t : Z) (my : positive) (ey : Z) :
  0 < kx → (fval (Z.pos my) ey == inject_Z c)%Q → 0 < c →
  kx * c = k0 * 2 ^ t → 0 < k0 → 0 ≤ t → kx * c ≤ 2 ^ 52 →
  b64_ge x kx → b64_ge (b64_mul x (S754_finite false my ey)) (kx * c).
Proof.
  intros Hkx Hy Hc HK Hk0 Ht H52 Hx.
  destruct x as [ | [] | | [] mx ex]; try done. cbn [b64_mul SFmul xorb].
  apply (binary_round_aux_ge (kx * c) k0 t HK Hk0 Ht H52).
  change (Z.pos (mx * my)) with (Z.pos mx * Z.pos my).
  rewrite fval_mul, Hy, inject_Z_mult. cbn [b64_ge] in Hx.
  apply Qmult_le_compat_r; [exact Hx | ].
  change (inject_Z 0 <= inject_Z c)%Q. rewrite <- Zle_Qle. lia.
Qed.

Lemma b64_scaled_ge (x : spec_float) :
  b64_ge x 1 →
  b64_ge (b64_mul (b64_mul (b64_mul x (b64_of_Z 24)) (b64_of_Z 60)) (b64_of_Z 60)) 86400.
Proof.
  intros Hx.
  change (b64_of_Z 24) with (S754_finite false 6755399441055744 (-48)).
  change (b64_of_Z 60) with (S754_finite false 8444249301319680 (-47)).
  change 86400 with (1440 * 60).
  apply (b64_mul_ge _ 1440 60 675 7); try done.
  change 1440 with (24 * 60).
  apply (b64_mul_ge _ 24 60 45 5); try done.
  change 24 with (1 * 24).
  apply (b64_mul_ge _ 1 24 3 3); try done.
Qed.

Lemma py_int_of_float_ge (x : spec_float) (k n : Z) :
  b64_ge x k → py_int_of_float x = Ok n → k ≤ n.
Proof.
  destruct x as [ | [] | | [] m e]; try done. cbn [b64_ge py_int_of_float].
  unfold fval. intros Hge [= <-]. destruct (0 <=? e) eqn:He.
  - apply Z.leb_le in He. rewrite Zle_Qle, inject_Z_mult, two_pow_inject by lia. done.
  - apply Z.leb_gt in He. apply Z.div_le_lower_bound; [apply Z.pow_pos_nonneg; lia | ].
    rewrite Z.mul_comm, Zle_Qle, inject_Z_mult, two_pow_inject by lia.
    apply (Qmult_le_r _ _ (2 ^ e)); [apply two_pow_pos | ].
    rewrite <- Qmult_assoc, <- two_pow_add. replace (- e + e) with 0 by lia.
    by rewrite Qmult_1_r.
Qed.

(** X22. For a numeric cell whose scaled value
    [t * 24 * 60 * 60], computed left to right (in binary64 for a
    float), is finite and truncates to a second count [n >= 0], the
    normalizer returns the time of day of [min n 86399]; 0.5 gives
    12:00:00; every integer [t >= 1], and every float [t >= 1.0] whose
    scaled value does not overflow, gives 23:59:59; and a missing cell
    gives the absence marker. *)
Theorem to_safe_time_numeric :
  (∀ c n, scaled_seconds c = Ok n → 0 ≤ n →
          let total := Z.min n 86399 in
          to_safe_time c
          = Ok (Some (mktime (total / 3600) (total mod 3600 / 60)
                        (total mod 3600 mod 60) 0)))
  ∧ to_safe_time (CFloat b64_half) = Ok (Some (mktime 12 0 0 0))
  ∧ (∀ z, 1 ≤ z → to_safe_time (CInt z) = Ok (Some (mktime 23 59 59 0)))
  ∧ (∀ f n, b64_ge f 1 → scaled_seconds (CFloat f) = Ok n →
            to_safe_time (CFloat f) = Ok (Some (mktime 23 59 59 0)))
  ∧ (∀ c, isna c = true → to_safe_time c = Ok None).
Proof.
  split; [ | split; [ | split; [ | split]]].
  - intros c n Hs Hn total. rewrite (to_safe_time_of_seconds c n Hs).
    by rewrite time_of_seconds_ok.
  - reflexivity.
  - intros z Hz. rewrite (to_safe_time_of_seconds (CInt z) (z * 24 * 60 * 60) eq_refl).
    by rewrite time_of_seconds_clamped by lia.
  - intros f n Hf Hs. rewrite (to_safe_time_of_seconds (CFloat f) n Hs).
    rewrite time_of_seconds_clamped; [done | ].
    cbn [scaled_seconds] in Hs. apply b64_scaled_ge in Hf.
    pose proof (py_int_of_float_ge _ _ _ Hf Hs). lia.
  - intros c Hc. unfold to_safe_time. by rewrite Hc.
Qed.

(** ** The name reconciler *)

Lemma first_max_unique (query : string) (choices : list string) i c i' c' :
  first_max query choices i c → first_max query choices i' c' → i = i' ∧ c = c'.
Proof.
  intros (Hi & Hmax & Hfirst) (Hi' & Hmax' & Hfirst').
  assert (i = i') as ->.
  { destruct (Nat.lt_trichotomy i i') as [Hlt | [-> | Hlt]]; [ | done | ].
    - exfalso. apply (Qlt_not_le _ _ (Hfirst' _ _ Hlt Hi)). eauto.
    - exfalso. apply (Qlt_not_le _ _ (Hfirst _ _ Hlt Hi')). eauto. }
  split; [done | congruence].
Qed.

(** The running best of [extractOne_from] over the choices seen so far. *)
Lemma extractOne_from_first_max (query : string) (rest seen : list string) best :
  match best with
  | None => seen = []
  | Some (c, s) => s = token_set_ratio query c ∧ ∃ i, first_max query seen i c
  end →
  match extractOne_from query best rest with
  | None => seen ++ rest = []
  | Some (c, s) => s = token_set_ratio query c ∧ ∃ i, first_max query (seen ++ rest) i c
  end.
Proof.
  revert seen best. induction rest as [ | choice rest IH]; intros seen best Hbest.
  - simpl. rewrite app_nil_r. done.
  - simpl. replace (seen ++ choice :: rest) with ((seen ++ [choice]) ++ rest)
      by (rewrite <- app_assoc; done).
    apply IH. destruct best as [[c s] | ].
    + destruct Hbest as (-> & i & Hi & Hmax & Hfirst).
      destruct (Qle_bool (token_set_ratio query choice) (token_set_ratio query c)) eqn:Hle.
      * apply Qle_bool_iff in Hle. split; [done | ]. exists i. split; [ | split].
        -- by apply lookup_app_l_Some.
        -- intros j c' [Hj | [_ Hj]]%lookup_app_Some; [eauto | ].
           apply list_lookup_singleton_Some in Hj as [_ <-]. done.
        -- intros j c' Hlt Hj. apply (Hfirst j c' Hlt).
           apply lookup_lt_Some in Hi. rewrite lookup_app_l in Hj by lia. done.
      * assert (token_set_ratio query c < token_set_ratio query choice)%Q as Hlt.
        { apply Qnot_le_lt. intros H%Qle_bool_iff. congruence. }
        split; [done | ]. exists (length seen). split; [ | split].
        -- rewrite lookup_app_r by lia. by rewrite Nat.sub_diag.
        -- intros j c' [Hj | [_ Hj]]%lookup_app_Some.
           ++ apply Qlt_le_weak. eapply Qle_lt_trans; [ | exact Hlt]. eauto.
           ++ apply list_lookup_singleton_Some in Hj as [_ <-]. apply Qle_refl.
        -- intros j c' Hj Hc'. rewrite lookup_app_l in Hc' by lia.
           eapply Qle_lt_trans; [ | exact Hlt]. eauto.
    + subst seen. split; [done | ]. exists 0%nat. split; [done | split].
      * intros j c' Hj. apply list_lookup_singleton_Some in Hj as [_ <-]. apply Qle_refl.
      * intros j c' Hj. lia.
Qed.

Lemma extractOne_Some (query : string) (choices : list string) c s :
  extractOne query choices = Some (c, s)
  ↔ s = token_set_ratio query c ∧ ∃ i, first_max query choices i c.
Proof.
  pose proof (extractOne_from_first_max query choices [] None eq_refl) as H.
  simpl in H. fold (extractOne query choices) in H.
  destruct (extractOne query choices) as [[c0 s0] | ] eqn:He.
  - destruct H as (-> & i0 & H0). split.
    + intros [= <- <-]. eauto.
    + intros (-> & i & Hi). destruct (first_max_unique _ _ _ _ _ _ H0 Hi) as [_ ->]. done.
  - subst choices. split; [done | ].
    intros (_ & i & Hi & _). by rewrite lookup_nil in Hi.
Qed.

Lemma extractOne_None (query : string) (choices : list string) :
  extractOne query choices = None ↔ choices = [].
Proof.
  split.
  - intros He. pose proof (extractOne_from_first_max query choices [] None eq_refl) as H.
    simpl in H. fold (extractOne query choices) in H. by rewrite He in H.
  - intros ->. done.
Qed.

Lemma accept_Some (roster_names : list string) (raw canonical : string) :
  accept roster_names raw = Some canonical
  ↔ ∃ i, first_max raw roster_names i canonical
         ∧ (90 <= token_set_ratio raw canonical)%Q.
Proof.
  unfold accept. destruct (extractOne raw roster_names) as [[c s] | ] eqn:He.
  - apply extractOne_Some in He as (-> & i & Hi).
    destruct (Qle_bool 90 (token_set_ratio raw c)) eqn:Hle.
    + apply Qle_bool_iff in Hle. split.
      * intros [= <-]. eauto.
      * intros (i' & Hi' & _). destruct (first_max_unique _ _ _ _ _ _ Hi Hi') as [_ ->]. done.
    + split; [done | ]. intros (i' & Hi' & H90).
      destruct (first_max_unique _ _ _ _ _ _ Hi Hi') as [_ ->].
      apply Qle_bool_iff in H90. congruence.
  - apply extractOne_None in He as ->. split; [done | ].
    intros (i & (Hi & _) & _). by rewrite lookup_nil in Hi.
Qed.

Lemma accept_None (roster_names : list string) (raw : string) :
  accept roster_names raw = None
  ↔ ∀ c, c ∈ roster_names → (token_set_ratio raw c < 90)%Q.
Proof.
  unfold accept. destruct (extractOne raw roster_names) as [[c s] | ] eqn:He.
  - apply extractOne_Some in He as (-> & i & Hi & Hmax & _).
    destruct (Qle_bool 90 (token_set_ratio raw c)) eqn:Hle.
    + apply Qle_bool_iff in Hle. split; [done | ]. intros Hall. exfalso.
      apply (Qlt_not_le _ _ (Hall c (list_elem_of_lookup_2 _ _ _ Hi))). done.
    + split; [ | done]. intros _ c' [j Hj]%list_elem_of_lookup_1.
      eapply Qle_lt_trans; [eauto | ].
      apply Qnot_le_lt. intros H%Qle_bool_iff. congruence.
  - apply extractOne_None in He as ->. split; [ | done].
    intros _ c Hc. by apply elem_of_nil in Hc.
Qed.

Lemma accept_elem_of (roster_names : list string) (raw canonical : string) :
  accept roster_names raw = Some canonical → canonical ∈ roster_names.
Proof.
  intros (i & (Hi & _) & _)%accept_Some. by eapply list_elem_of_lookup_2.
Qed.

Lemma lookup_reconcile (roster_names : list string) (m : gmap string string) x raw :
  reconcile roster_names m x !! raw
  = if decide (raw = x)
    then match accept roster_names x with Some c => Some c | None => m !! raw end
    else m !! raw.
Proof.
  unfold reconcile, accept. destruct (extractOne x roster_names) as [[c s] | ].
  - destruct (Qle_bool 90 s); case_decide; subst; simplify_map_eq; done.
  - case_decide; done.
Qed.

Lemma lookup_build_name_map (attendance_names roster_names : list string) raw :
  build_name_map attendance_names roster_names !! raw
  = if decide (raw ∈ attendance_names) then accept roster_names raw else None.
Proof.
  unfold build_name_map.
  assert (∀ m : gmap string string,
            foldl (reconcile roster_names) m attendance_names !! raw
            = if decide (raw ∈ attendance_names)
              then match accept roster_names raw with
                   | Some c => Some c
                   | None => m !! raw
                   end
              else m !! raw) as H.
  { induction attendance_names as [ | x l IH]; intros m; [done | ].
    simpl. rewrite IH, lookup_reconcile.
    destruct (decide (raw = x)) as [-> | Hne].
    - rewrite (decide_True _ _ (list_elem_of_here x l)).
      destruct (accept roster_names x); by case_decide.
    - destruct (decide (raw ∈ l)) as [Hin | Hnin].
      + by rewrite decide_True by (by apply list_elem_of_further).
      + rewrite decide_False; [done | ].
        intros [? | ?]%elem_of_cons; done. }
  rewrite H, lookup_empty. case_decide; [ | done]. by destruct (accept roster_names raw).
Qed.

(** C3. For every raw attendance name, the reconciler maps it to the
    first highest-scoring canonical name exactly when that best score
    is at least 90, and leaves it unmapped exactly when every canonical
    name scores below 90. *)
Theorem name_reconciler_threshold (attendance_names roster_names : list string)
    (raw : string) :
  raw ∈ attendance_names →
  (∀ canonical,
     build_name_map attendance_names roster_names !! raw = Some canonical
     ↔ ∃ i, first_max raw roster_names i canonical
            ∧ (90 <= token_set_ratio raw canonical)%Q)
  ∧ (build_name_map attendance_names roster_names !! raw = None
     ↔ ∀ c, c ∈ roster_names → (token_set_ratio raw c < 90)%Q).
Proof.
  intros Hraw. rewrite lookup_build_name_map, decide_True by done. split.
  - intros canonical. apply accept_Some.
  - apply accept_None.
Qed.

(** ** The classification of shift codes *)



#[local] Opaque WFO_SCHEDULES WFH_SCHEDULES.









(** ** Tables under [update_or_create] *)

Section Upsert.
Context {R : Type} (key_of : R → key).

Lemma key_count_0 (k : key) (table : list R) :
  key_count key_of k table = 0%nat ↔ k ∉ map key_of table.
Proof.
  unfold key_count. induction table as [ | r table IH]; cbn [List.filter map].
  - split; [intros _ H; by apply elem_of_nil in H | done].
  - rewrite not_elem_of_cons. case_bool_decide as Hk; cbn [length].
    + split; [done | ]. intros [Hne _]. by destruct Hne.
    + rewrite IH. split; [ | tauto]. intros Hn. split; [congruence | done].
Qed.

Lemma key_count_app (k : key) (t1 t2 : list R) :
  key_count key_of k (t1 ++ t2) = (key_count key_of k t1 + key_count key_of k t2)%nat.
Proof. unfold key_count. by rewrite List.filter_app, length_app. Qed.

Lemma key_of_replace_row (row r : R) : key_of (replace_row key_of row r) = key_of r.
Proof. unfold replace_row. by case_bool_decide. Qed.

Lemma key_count_replace (k : key) (row : R) (table : list R) :
  key_count key_of k (map (replace_row key_of row) table) = key_count key_of k table.
Proof.
  unfold key_count. induction table as [ | r table IH]; [done | ].
  cbn [map List.filter]. rewrite key_of_replace_row.
  case_bool_decide; cbn [length]; by rewrite IH.
Qed.

Lemma keys_replace (row : R) (table : list R) :
  map key_of (map (replace_row key_of row) table) = map key_of table.
Proof.
  induction table as [ | r table IH]; [done | ].
  cbn [map]. by rewrite key_of_replace_row, IH.
Qed.

Lemma update_or_create_count (row : R) (table : list R) :
  update_or_create key_of row table
  = match key_count key_of (key_of row) table with
    | 0%nat => Ok (table ++ [row])
    | 1%nat => Ok (map (replace_row key_of row) table)
    | _ => Raise MultipleObjectsReturned
    end.
Proof.
  unfold update_or_create, key_count.
  destruct (List.filter _ table) as [ | a [ | b l]]; done.
Qed.

Lemma update_or_create_put (row : R) (table : list R) :
  update_or_create key_of row table
  = if writable key_of table (key_of row) then Ok (put key_of row table)
    else Raise MultipleObjectsReturned.
Proof.
  rewrite update_or_create_count. unfold writable, put.
  destruct (key_count key_of (key_of row) table) as [ | [ | n]] eqn:Hc.
  - apply key_count_0 in Hc. rewrite bool_decide_eq_true_2 by lia.
    by rewrite bool_decide_eq_false_2.
  - rewrite bool_decide_eq_true_2 by lia. rewrite bool_decide_eq_true_2; [done | ].
    destruct (decide (key_of row ∈ map key_of table)) as [ | Hn]; [done | ].
    apply key_count_0 in Hn. lia.
  - by rewrite bool_decide_eq_false_2 by lia.
Qed.

Lemma key_count_put (row : R) (table : list R) (k : key) :
  key_count key_of k (put key_of row table)
  = if decide (key_of row ∈ map key_of table) then key_count key_of k table
    else if decide (key_of row = k) then 1%nat else key_count key_of k table.
Proof.
  unfold put. destruct (decide (key_of row ∈ map key_of table)) as [Hin | Hin].
  - by rewrite (bool_decide_eq_true_2 _ Hin), key_count_replace.
  - rewrite (bool_decide_eq_false_2 _ Hin), key_count_app.
    unfold key_count at 2. cbn [List.filter].
    destruct (decide (key_of row = k)) as [<- | Hk].
    + apply key_count_0 in Hin. rewrite Hin.
      by rewrite bool_decide_eq_true_2.
    + rewrite (bool_decide_eq_false_2 _ Hk). cbn [length]. lia.
Qed.

Lemma writable_put (row : R) (table : list R) (k : key) :
  writable key_of (put key_of row table) k = writable key_of table k.
Proof.
  unfold writable. apply bool_decide_ext. rewrite key_count_put.
  destruct (decide (key_of row ∈ map key_of table)) as [Hin | Hin]; [done | ].
  destruct (decide (key_of row = k)) as [<- | Hk]; [ | done].
  apply key_count_0 in Hin. lia.
Qed.

Lemma writable_put_all (rows : list R) (table : list R) (k : key) :
  writable key_of (put_all key_of rows table) k = writable key_of table k.
Proof.
  revert table. induction rows as [ | row rows IH]; intros table; [done | ].
  unfold put_all in *. cbn [foldl]. by rewrite IH, writable_put.
Qed.

Lemma written_ext (ok ok' : key → bool) (ops : list (result R)) :
  (∀ k, ok k = ok' k) →
  written key_of ok ops = written key_of ok' ops
  ∧ outcome key_of ok ops = outcome key_of ok' ops.
Proof.
  intros Hok. induction ops as [ | [row | e] ops [IH1 IH2]]; [done | | done].
  cbn [written outcome]. rewrite <- Hok. destruct (ok (key_of row)); [ | done].
  by rewrite IH1, IH2.
Qed.

(** A loop writes the turns it gets through, and which those are is
    decided by the keys the table could be written under at the start. *)
Lemma upsert_all_written (ops : list (result R)) (table : list R) :
  upsert_all key_of ops table
  = (put_all key_of (written key_of (writable key_of table) ops) table,
     outcome key_of (writable key_of table) ops).
Proof.
  revert table. induction ops as [ | [row | e] ops IH]; intros table; [done | | done].
  cbn [upsert_all written outcome]. rewrite update_or_create_put.
  destruct (writable key_of table (key_of row)) eqn:Hw; [ | done].
  rewrite IH.
  destruct (written_ext (writable key_of (put key_of row table)) (writable key_of table)
              ops (writable_put row table)) as [-> ->].
  done.
Qed.

Lemma elem_of_written (ok : key → bool) (ops : list (result R)) (row : R) :
  row ∈ written key_of ok ops → Ok row ∈ ops.
Proof.
  induction ops as [ | [r | e] ops IH]; cbn [written]; try by intros ?%elem_of_nil.
  destruct (ok (key_of r)); [ | by intros ?%elem_of_nil].
  intros [-> | H]%elem_of_cons; [left | right; auto].
Qed.

Lemma elem_of_put (row r : R) (table : list R) :
  r ∈ put key_of row table → r ∈ table ∨ r = row.
Proof.
  unfold put. case_bool_decide.
  - intros (r0 & -> & Hr0)%list_elem_of_fmap. unfold replace_row.
    case_bool_decide; auto.
  - intros [? | ->%list_elem_of_singleton]%elem_of_app; auto.
Qed.

Lemma elem_of_put_all (rows : list R) (r : R) (table : list R) :
  r ∈ put_all key_of rows table → r ∈ table ∨ r ∈ rows.
Proof.
  revert table. induction rows as [ | row rows IH]; intros table; [by left | ].
  unfold put_all in *. cbn [foldl]. intros [[? | ->]%elem_of_put | ?]%IH.
  - by left.
  - right. left.
  - right. by right.
Qed.

(** Every row of a table after a loop was there before or was written
    by a turn of the loop. *)
Lemma elem_of_upsert_all (ops : list (result R)) (table : list R) (r : R) :
  r ∈ (upsert_all key_of ops table).1 → r ∈ table ∨ Ok r ∈ ops.
Proof.
  rewrite upsert_all_written. cbn [fst].
  intros [? | ?%elem_of_written]%elem_of_put_all; auto.
Qed.

Lemma keys_put (row : R) (table : list R) :
  map key_of (put key_of row table)
  = if decide (key_of row ∈ map key_of table) then map key_of table
    else map key_of table ++ [key_of row].
Proof.
  unfold put. destruct (decide (key_of row ∈ map key_of table)) as [Hin | Hin].
  - by rewrite (bool_decide_eq_true_2 _ Hin), keys_replace.
  - by rewrite (bool_decide_eq_false_2 _ Hin), map_app.
Qed.

Lemma keys_put_mono (row : R) (table : list R) (k : key) :
  k ∈ map key_of table → k ∈ map key_of (put key_of row table).
Proof.
  rewrite keys_put. case_decide; [done | ]. intros ?. apply elem_of_app. by left.
Qed.

Lemma key_in_put (row : R) (table : list R) :
  key_of row ∈ map key_of (put key_of row table).
Proof.
  rewrite keys_put. case_decide; [done | ].
  apply elem_of_app. right. by apply list_elem_of_singleton.
Qed.

Lemma put_all_snoc (rows : list R) (row : R) (table : list R) :
  put_all key_of (rows ++ [row]) table = put key_of row (put_all key_of rows table).
Proof. unfold put_all. by rewrite foldl_app. Qed.

Lemma keys_put_all_mono (rows : list R) (table : list R) (k : key) :
  k ∈ map key_of table → k ∈ map key_of (put_all key_of rows table).
Proof.
  revert table. induction rows as [ | row rows IH]; intros table Hk; [done | ].
  unfold put_all in *. cbn [foldl]. by apply IH, keys_put_mono.
Qed.

(** Every written row leaves its key in the table. *)
Lemma key_in_put_all (rows : list R) (table : list R) (row : R) :
  row ∈ rows → key_of row ∈ map key_of (put_all key_of rows table).
Proof.
  revert table. induction rows as [ | r rows IH]; intros table; [by intros ?%elem_of_nil | ].
  unfold put_all in *. cbn [foldl]. intros [-> | Hin]%elem_of_cons.
  - apply (keys_put_all_mono rows), key_in_put.
  - by apply IH.
Qed.

Lemma replace_row_absent (row : R) (table : list R) :
  key_of row ∉ map key_of table → map (replace_row key_of row) table = table.
Proof.
  induction table as [ | r table IH]; [done | ].
  cbn [map]. intros [Hne Hn]%not_elem_of_cons. rewrite IH by done.
  unfold replace_row. by rewrite bool_decide_eq_false_2 by done.
Qed.

(** Two tables that agree on the keys, and on the rows once those
    under the key of [row] are overwritten, still do after a write. *)
Lemma put_related (row x : R) (t1 t2 : list R) :
  Forall2 (λ r1 r2, key_of r1 = key_of r2
                    ∧ replace_row key_of row r1 = replace_row key_of row r2) t1 t2 →
  Forall2 (λ r1 r2, key_of r1 = key_of r2
                    ∧ replace_row key_of row r1 = replace_row key_of row r2)
    (put key_of x t1) (put key_of x t2).
Proof.
  intros H.
  assert (map key_of t1 = map key_of t2) as Hk.
  { induction H as [ | r1 r2 t1 t2 [Hr _] _ IH]; [done | ]. cbn [map]. by rewrite Hr, IH. }
  assert (Forall2 (λ r1 r2, key_of r1 = key_of r2
                            ∧ replace_row key_of row r1 = replace_row key_of row r2)
            (map (replace_row key_of x) t1) (map (replace_row key_of x) t2)) as Hmap.
  { clear Hk. induction H as [ | r1 r2 t1 t2 [Hr1 Hr2] _ IH]; [constructor | ].
    cbn [map]. constructor; [ | exact IH]. rewrite !key_of_replace_row. split; [done | ].
    unfold replace_row at 2 4. rewrite Hr1. by case_bool_decide. }
  unfold put. rewrite Hk. case_bool_decide; [done | ].
  apply Forall2_app; [done | ]. by constructor.
Qed.

Lemma put_all_related (row : R) (rows : list R) (t1 t2 : list R) :
  Forall2 (λ r1 r2, key_of r1 = key_of r2
                    ∧ replace_row key_of row r1 = replace_row key_of row r2) t1 t2 →
  map (replace_row key_of row) (put_all key_of rows t1)
  = map (replace_row key_of row) (put_all key_of rows t2).
Proof.
  revert t1 t2. induction rows as [ | x rows IH]; intros t1 t2 H.
  - unfold put_all. cbn [foldl].
    induction H as [ | r1 r2 t1 t2 [_ Hr] _ IH]; [done | ]. cbn [map]. by rewrite Hr, IH.
  - unfold put_all in *. cbn [foldl]. by apply IH, put_related.
Qed.

Lemma put_all_replace (row : R) (rows : list R) (table : list R) :
  map (replace_row key_of row) (put_all key_of rows (map (replace_row key_of row) table))
  = map (replace_row key_of row) (put_all key_of rows table).
Proof.
  apply put_all_related. induction table as [ | r table IH]; [constructor | ].
  cbn [map]. constructor; [ | done]. split; [apply key_of_replace_row | ].
  unfold replace_row. destruct (decide (key_of r = key_of row)) as [H1 | H1].
  - rewrite (bool_decide_eq_true_2 _ H1). by rewrite bool_decide_eq_true_2.
  - rewrite (bool_decide_eq_false_2 _ H1). by rewrite (bool_decide_eq_false_2 _ H1).
Qed.

Lemma put_all_app_fresh (row : R) (rows : list R) (table : list R) :
  (∀ x, x ∈ rows → key_of x ∈ map key_of table ∧ key_of x ≠ key_of row) →
  put_all key_of rows (table ++ [row]) = put_all key_of rows table ++ [row].
Proof.
  revert table. induction rows as [ | x rows IH]; intros table Hrows; [done | ].
  unfold put_all in *. cbn [foldl].
  destruct (Hrows x ltac:(left)) as [Hx Hne].
  assert (put key_of x (table ++ [row]) = put key_of x table ++ [row]) as ->.
  { unfold put. rewrite map_app. rewrite (bool_decide_eq_true_2 _ Hx).
    rewrite bool_decide_eq_true_2 by (apply elem_of_app; by left).
    rewrite map_app. cbn [map]. unfold replace_row at 2.
    by rewrite bool_decide_eq_false_2 by done. }
  apply IH. intros y Hy. destruct (Hrows y ltac:(by right)) as [Hy1 Hy2].
  split; [by apply keys_put_mono | done].
Qed.

(** Writing the same rows a second time changes nothing. *)
Lemma put_all_idempotent (rows : list R) (table : list R) :
  put_all key_of rows (put_all key_of rows table) = put_all key_of rows table.
Proof.
  revert table. induction rows as [ | row rows IH] using rev_ind; intros table; [done | ].
  rewrite !put_all_snoc. set (t := put_all key_of rows table).
  assert (put_all key_of rows t = t) as Ht by apply IH.
  assert (∀ x, x ∈ rows → key_of x ∈ map key_of t) as Hkeys.
  { intros x Hx. by apply key_in_put_all. }
  destruct (decide (key_of row ∈ map key_of t)) as [Hin | Hin].
  - assert (put key_of row t = map (replace_row key_of row) t) as Hput.
    { unfold put. by rewrite (bool_decide_eq_true_2 _ Hin). }
    rewrite Hput. unfold put at 1. rewrite bool_decide_eq_true_2.
    + by rewrite put_all_replace, Ht.
    + apply keys_put_all_mono. by rewrite keys_replace.
  - assert (put key_of row t = t ++ [row]) as Hput.
    { unfold put. by rewrite (bool_decide_eq_false_2 _ Hin). }
    rewrite Hput, put_all_app_fresh, Ht.
    + unfold put. rewrite bool_decide_eq_true_2.
      * rewrite map_app, replace_row_absent by done. cbn [map]. unfold replace_row.
        by rewrite bool_decide_eq_true_2.
      * rewrite map_app. apply elem_of_app. right. by left.
    + intros x Hx. split; [by apply Hkeys | ]. intros Heq. apply Hin.
      rewrite <- Heq. by apply Hkeys.
Qed.

(** A loop run a second time over the table it left ends the same way
    and leaves the table as it is. *)
Lemma upsert_all_idempotent (ops : list (result R)) (table : list R) :
  upsert_all key_of ops (upsert_all key_of ops table).1 = upsert_all key_of ops table.
Proof.
  rewrite (upsert_all_written ops table). cbn [fst].
  rewrite upsert_all_written.
  destruct (written_ext
              (writable key_of
                 (put_all key_of (written key_of (writable key_of table) ops) table))
              (writable key_of table) ops
              (writable_put_all _ table)) as [-> ->].
  by rewrite put_all_idempotent.
Qed.

(** A loop creates no second row under any key. *)
Lemma upsert_all_writable (ops : list (result R)) (table : list R) (k : key) :
  writable key_of (upsert_all key_of ops table).1 k = writable key_of table k.
Proof. rewrite upsert_all_written. apply writable_put_all. Qed.

End Upsert.

(** ** The ingestors as loops of writes *)

Lemma store_eta (st : store) : mkstore (rosters st) (attendances st) = st.
Proof. by destruct st. Qed.

Lemma upsert_all_app {R} (key_of : R → key) (ops1 ops2 : list (result R)) (table : list R) :
  upsert_all key_of (ops1 ++ ops2) table
  = match upsert_all key_of ops1 table with
    | (table', Ok _) => upsert_all key_of ops2 table'
    | (table', Raise e) => (table', Raise e)
    end.
Proof.
  revert table. induction ops1 as [ | [row | e] ops1 IH]; intros table; [done | | done].
  cbn [app upsert_all]. destruct (update_or_create key_of row table); [apply IH | done].
Qed.

Lemma run_roster_app (ops1 ops2 : list (result Roster)) (st : store) :
  run_roster (ops1 ++ ops2) st = (run_roster ops1 ;; run_roster ops2) st.
Proof.
  unfold mbind, db_bind, run_roster. rewrite upsert_all_app.
  destruct (upsert_all roster_key ops1 (rosters st)) as [table [[] | e]]; done.
Qed.

Lemma run_attendance_app (ops1 ops2 : list (result Attendance)) (st : store) :
  run_attendance (ops1 ++ ops2) st = (run_attendance ops1 ;; run_attendance ops2) st.
Proof.
  unfold mbind, db_bind, run_attendance. rewrite upsert_all_app.
  destruct (upsert_all attendance_key ops1 (attendances st)) as [table [[] | e]]; done.
Qed.

Lemma for_each_run_roster {A} (l : list A) (body : A → db ())
    (ops : A → list (result Roster)) :
  (∀ x st, body x st = run_roster (ops x) st) →
  ∀ st, for_each l body st = run_roster (flat_map ops l) st.
Proof.
  intros Hbody. induction l as [ | x l IH]; intros st.
  - unfold run_roster. cbn. by rewrite store_eta.
  - cbn [for_each flat_map]. rewrite run_roster_app. unfold mbind, db_bind.
    rewrite Hbody. destruct (run_roster (ops x) st) as [st' [[] | e]]; [apply IH | done].
Qed.

Lemma for_each_run_attendance {A} (l : list A) (body : A → db ())
    (ops : A → list (result Attendance)) :
  (∀ x st, body x st = run_attendance (ops x) st) →
  ∀ st, for_each l body st = run_attendance (flat_map ops l) st.
Proof.
  intros Hbody. induction l as [ | x l IH]; intros st.
  - unfold run_attendance. cbn. by rewrite store_eta.
  - cbn [for_each flat_map]. rewrite run_attendance_app. unfold mbind, db_bind.
    rewrite Hbody. destruct (run_attendance (ops x) st) as [st' [[] | e]]; [apply IH | done].
Qed.

Lemma update_or_create_raises {R} (key_of : R → key) (row : R) (table : list R) e :
  update_or_create key_of row table = Raise e → e = MultipleObjectsReturned.
Proof.
  unfold update_or_create. destruct (List.filter _ table) as [ | a [ | b l]]; congruence.
Qed.

Lemma date_new_raises (y m d : Z) e :
  date_new y m d = Raise e → e = ValueError ∨ e = OverflowError.
Proof. unfold date_new. repeat case_match; intros [= <-]; first [by left | by right]. Qed.


Lemma date_new_overflow (y m d : Z) :
  date_new y m d = Raise OverflowError
  ↔ fits_int y && fits_int m && fits_int d = false.
Proof.
  unfold date_new. destruct (fits_int y && fits_int m && fits_int d); cbn [negb].
  - split; [ | done]. by case_match.
  - done.
Qed.

Lemma _process_roster_data_ops (df : roster_sheet) (year month : Z) (st : store) :
  _process_roster_data df year month st = run_roster (roster_ops df year month) st.
Proof.
  unfold _process_roster_data, roster_ops. apply for_each_run_roster. clear st.
  intros row st. unfold roster_row_ops. apply for_each_run_roster. clear st.
  intros [col_name schedule] st. unfold roster_cell_op. cbn [fst snd].
  destruct (isdigit col_name).
  - unfold try_except_ValueError, mbind, db_bind, db_lift, run_roster,
      Roster_update_or_create.
    destruct (date_new year month (int_of_digits col_name)) as [date | e] eqn:Hd.
    + cbn [upsert_all].
      destruct (update_or_create roster_key _ (rosters st)) as [table | e] eqn:Hu.
      * done.
      * apply update_or_create_raises in Hu as ->. by rewrite store_eta.
    + apply date_new_raises in Hd as [-> | ->]; cbn; by rewrite store_eta.
  - unfold run_roster. cbn. by rewrite store_eta.
Qed.

Lemma _process_attendance_data_ops (df : list named_row) (st : store) :
  _process_attendance_data df st = run_attendance (attendance_ops df) st.
Proof.
  unfold _process_attendance_data, attendance_ops. apply for_each_run_attendance.
  clear st. intros [row name] st.
  unfold attendance_row_ops, attendance_record, run_attendance,
    Attendance_update_or_create, mbind, db_bind, result_bind, db_lift, db_raise.
  destruct (isna (attendance_date row)); [cbn; by rewrite store_eta | ].
  destruct (negb (date_truth (to_datetime_dayfirst (attendance_date row))));
    [cbn; by rewrite store_eta | ].
  destruct (to_safe_time (first_in row)); [ | cbn; by rewrite store_eta].
  destruct (to_safe_time (last_out row)); [ | cbn; by rewrite store_eta].
  destruct (to_safe_time (gross_time row)); [ | cbn; by rewrite store_eta].
  destruct (to_safe_time (out_of_office_time row)); [ | cbn; by rewrite store_eta].
  destruct (to_safe_time (net_office_time row)); [ | cbn; by rewrite store_eta].
  cbn [upsert_all].
  destruct (update_or_create attendance_key _ (attendances st)); [done | ].
  by rewrite store_eta.
Qed.

Lemma process_files_ingest (roster_df : roster_sheet)
    (attendance_df : list attendance_row) (st : store) :
  process_files roster_df attendance_df st = ingest roster_df attendance_df st.
Proof.
  unfold process_files, ingest, first_valid_date, mbind, db_bind, db_lift, mret, db_ret.
  destruct attendance_df as [ | row0 attendance_df0] eqn:Hdf; [done | ]. rewrite <- Hdf.
  destruct (dropna (to_datetime_series (map attendance_date attendance_df)))
    as [ | first l]; [by rewrite Hdf | ].
  cbn [head]. destruct (bool_decide ("name" ∈ columns roster_df)); [ | done].
  fold (matched_roster roster_df attendance_df).
  fold (matched_attendance roster_df attendance_df).
  rewrite _process_roster_data_ops.
  destruct (run_roster _ st) as [st1 [[] | e]]; [ | done].
  rewrite _process_attendance_data_ops.
  destruct (run_attendance _ st1) as [st2 [[] | e]]; done.
Qed.

(** What [post] leaves in the database. *)
Lemma post_store (request : upload_request) (st : store) :
  (post request st).1
  = match roster_file request, attendance_file request with
    | Some roster_df, Some attendance_df => (ingest roster_df attendance_df st).1
    | _, _ => st
    end.
Proof.
  unfold post. destruct (roster_file request) as [roster_df | ]; [ | done].
  destruct (attendance_file request) as [attendance_df | ]; [ | done].
  unfold try_except, mbind, db_bind. rewrite process_files_ingest.
  destruct (ingest roster_df attendance_df st) as [st' [ym | e]]; done.
Qed.

(** ** What an upload writes *)

Lemma elem_of_flat_map {A B} (f : A → list B) (l : list A) (y : B) :
  y ∈ flat_map f l ↔ ∃ x, x ∈ l ∧ y ∈ f x.
Proof.
  rewrite list_elem_of_In, in_flat_map. split; intros (x & Hx & Hy); exists x;
    by rewrite ?list_elem_of_In in *.
Qed.

Lemma elem_of_bfilter {A} (f : A → bool) (l : list A) (x : A) :
  x ∈ List.filter f l ↔ x ∈ l ∧ f x = true.
Proof. by rewrite list_elem_of_In, filter_In, <- list_elem_of_In. Qed.

Lemma values_elem (name_map : gmap string string) (n : string) :
  n ∈ values name_map ↔ ∃ raw, name_map !! raw = Some n.
Proof.
  unfold values. rewrite list_elem_of_fmap. split.
  - intros ([raw n'] & -> & H%elem_of_map_to_list). by exists raw.
  - intros [raw H]. exists (raw, n). split; [done | ]. by apply elem_of_map_to_list.
Qed.

Lemma unique_from_elem `{EqDecision A} (seen l : list A) (x : A) :
  x ∈ unique_from seen l ↔ x ∈ l ∧ x ∉ seen.
Proof.
  revert seen. induction l as [ | y l IH]; intros seen; cbn [unique_from].
  - split; [by intros ?%elem_of_nil | by intros [?%elem_of_nil _]].
  - case_bool_decide as Hy.
    + rewrite IH, elem_of_cons. split; [tauto | ].
      intros [[-> | ?] ?]; [done | tauto].
    + rewrite !elem_of_cons, IH, not_elem_of_cons. split.
      * intros [-> | [? [? ?]]]; [tauto | tauto].
      * intros [[-> | ?] ?]; [tauto | ].
        destruct (decide (x = y)) as [-> | ?]; tauto.
Qed.

Lemma unique_elem `{EqDecision A} (l : list A) (x : A) : x ∈ unique l ↔ x ∈ l.
Proof.
  unfold unique. rewrite unique_from_elem. split; [tauto | ].
  intros ?. split; [done | ]. by intros ?%elem_of_nil.
Qed.

(** A name the reconciler maps to is a name of the roster sheet, and
    its score against the raw name is at least 90. *)
Lemma name_map_of_Some (roster_df : roster_sheet) (attendance_df : list attendance_row)
    (raw n : string) :
  name_map_of roster_df attendance_df !! raw = Some n →
  n ∈ roster_names_of roster_df ∧ (90 <= token_set_ratio raw n)%Q.
Proof.
  unfold name_map_of. rewrite lookup_build_name_map. case_decide; [ | done].
  intros Hacc. split; [by eapply accept_elem_of | ].
  apply accept_Some in Hacc as (i & _ & H90). done.
Qed.

Lemma run_attendance_rosters (ops : list (result Attendance)) (st : store) :
  rosters (run_attendance ops st).1 = rosters st.
Proof.
  unfold run_attendance. by destruct (upsert_all attendance_key ops (attendances st)).
Qed.

Lemma run_roster_attendances (ops : list (result Roster)) (st : store) :
  attendances (run_roster ops st).1 = attendances st.
Proof.
  unfold run_roster. by destruct (upsert_all roster_key ops (rosters st)).
Qed.

Lemma run_roster_rosters (ops : list (result Roster)) (st : store) :
  rosters (run_roster ops st).1 = (upsert_all roster_key ops (rosters st)).1.
Proof.
  unfold run_roster. by destruct (upsert_all roster_key ops (rosters st)).
Qed.

Lemma run_attendance_attendances (ops : list (result Attendance)) (st : store) :
  attendances (run_attendance ops st).1
  = (upsert_all attendance_key ops (attendances st)).1.
Proof.
  unfold run_attendance. by destruct (upsert_all attendance_key ops (attendances st)).
Qed.

Lemma ingest_unchanged (roster_df : roster_sheet) (attendance_df : list attendance_row)
    (st : store) :
  first_valid_date attendance_df = None ∨ "name" ∉ columns roster_df →
  (ingest roster_df attendance_df st).1 = st.
Proof.
  unfold ingest. intros [-> | Hname]; [done | ].
  destruct (first_valid_date attendance_df); [ | done].
  by rewrite bool_decide_eq_false_2.
Qed.

(** The tables after the [try] block, loop by loop. *)
Lemma ingest_tables (roster_df : roster_sheet) (attendance_df : list attendance_row)
    (st : store) (first : date) :
  first_valid_date attendance_df = Some first →
  "name" ∈ columns roster_df →
  let rops := roster_ops (matched_roster roster_df attendance_df)
                (year first) (month first) in
  let aops := attendance_ops (matched_attendance roster_df attendance_df) in
  rosters (ingest roster_df attendance_df st).1
  = (upsert_all roster_key rops (rosters st)).1
  ∧ (attendances (ingest roster_df attendance_df st).1 = attendances st
     ∨ (upsert_all roster_key rops (rosters st)).2 = Ok ()
       ∧ attendances (ingest roster_df attendance_df st).1
         = (upsert_all attendance_key aops (attendances st)).1).
Proof.
  intros Hfirst Hname. unfold ingest. rewrite Hfirst, bool_decide_eq_true_2 by done.
  cbv zeta. unfold mbind, db_bind, mret, db_ret.
  pose proof (run_roster_rosters
                (roster_ops (matched_roster roster_df attendance_df) (year first)
                   (month first)) st) as Hr.
  pose proof (run_roster_attendances
                (roster_ops (matched_roster roster_df attendance_df) (year first)
                   (month first)) st) as Ha.
  unfold run_roster in *.
  destruct (upsert_all roster_key _ (rosters st)) as [table [[] | e]]; cbn [fst snd] in *.
  - pose proof (run_attendance_rosters
                  (attendance_ops (matched_attendance roster_df attendance_df))
                  (mkstore table (attendances st))) as Hr'.
    pose proof (run_attendance_attendances
                  (attendance_ops (matched_attendance roster_df attendance_df))
                  (mkstore table (attendances st))) as Ha'.
    destruct (run_attendance _ (mkstore table (attendances st))) as [st2 [[] | e]];
      cbn [fst snd rosters attendances] in *; (split; [done | right; done]).
  - split; [done | by left].
Qed.

Lemma roster_ops_elem (df : roster_sheet) (year month : Z) (r : Roster) :
  Ok r ∈ roster_ops df year month
  ↔ ∃ row col_name schedule date,
      row ∈ rows df ∧ (col_name, schedule) ∈ items df row
      ∧ isdigit col_name = true
      ∧ date_new year month (int_of_digits col_name) = Ok date
      ∧ r = mkRoster (row_field "name" (items df row)) date
              (row_field "sr no" (items df row)) (Some (stored_text schedule)).
Proof.
  unfold roster_ops, roster_row_ops. rewrite elem_of_flat_map. split.
  - intros (row & Hrow & ([col_name schedule] & Hitem & Hop)%elem_of_flat_map).
    unfold roster_cell_op in Hop. cbn [fst snd] in Hop.
    destruct (isdigit col_name) eqn:Hdigit; [ | by apply elem_of_nil in Hop].
    destruct (date_new year month (int_of_digits col_name)) as [date | e] eqn:Hdate;
      [ | destruct e; first [by apply elem_of_nil in Hop
                            | by apply list_elem_of_singleton in Hop]].
    apply list_elem_of_singleton in Hop as [= ->].
    by exists row, col_name, schedule, date.
  - intros (row & col_name & schedule & date & Hrow & Hitem & Hdigit & Hdate & ->).
    exists row. split; [done | ]. apply elem_of_flat_map. exists (col_name, schedule).
    split; [done | ]. unfold roster_cell_op. cbn [fst snd]. rewrite Hdigit, Hdate.
    by apply list_elem_of_singleton.
Qed.

Lemma items_column (df : roster_sheet) (row : list (option string))
    (col_name : string) (schedule : option string) :
  (col_name, schedule) ∈ items df row → col_name ∈ columns df.
Proof.
  unfold items. generalize (columns df). intros cols. revert row.
  induction cols as [ | c cols IH]; intros [ | x row]; cbn [zip zip_with];
    try by intros ?%elem_of_nil.
  intros [[= -> ->] | H]%elem_of_cons; [left | right; by eapply IH].
Qed.

(** The only exception a turn of the roster loop raises before its
    write is the [OverflowError] of a number that is no C int. *)
Lemma roster_ops_raise (df : roster_sheet) (year month : Z) (e : exn) :
  Raise e ∈ roster_ops df year month →
  e = OverflowError
  ∧ ∃ col_name, col_name ∈ columns df ∧ isdigit col_name = true
                ∧ fits_int year && fits_int month && fits_int (int_of_digits col_name)
                  = false.
Proof.
  unfold roster_ops, roster_row_ops.
  intros (row & _ & ([col_name schedule] & Hitem & Hop)%elem_of_flat_map)%elem_of_flat_map.
  unfold roster_cell_op in Hop. cbn [fst snd] in Hop.
  destruct (isdigit col_name) eqn:Hdigit; [ | by apply elem_of_nil in Hop].
  destruct (date_new year month (int_of_digits col_name)) as [date | e'] eqn:Hdate;
    [by apply list_elem_of_singleton in Hop | ].
  destruct (date_new_raises _ _ _ _ Hdate) as [-> | ->];
    [by apply elem_of_nil in Hop | ].
  apply list_elem_of_singleton in Hop as [= ->]. split; [done | ].
  exists col_name. split; [by eapply items_column | ]. split; [done | ].
  by apply date_new_overflow.
Qed.

Lemma roster_ops_no_raise (df : roster_sheet) (year month : Z) (e : exn) :
  fits_int year = true → fits_int month = true → day_labels_fit df →
  Raise e ∉ roster_ops df year month.
Proof.
  intros Hy Hm Hfit [_ (col_name & Hcol & Hdigit & Hover)]%roster_ops_raise.
  by rewrite Hy, Hm, (Hfit col_name Hcol Hdigit) in Hover.
Qed.

Lemma row_field_get (label : string) (row : list (string * option string)) (v : string) :
  row_get label row = Some v → row_field label row = Some v.
Proof.
  unfold row_get, row_field. destruct (List.find _ row) as [item | ]; [ | done].
  by intros ->.
Qed.

Lemma matched_roster_rows (roster_df : roster_sheet) (attendance_df : list attendance_row)
    (row : list (option string)) :
  row ∈ rows (matched_roster roster_df attendance_df)
  ↔ row ∈ rows roster_df
    ∧ ∃ n, row_get "name" (items roster_df row) = Some n
           ∧ n ∈ values (name_map_of roster_df attendance_df).
Proof.
  unfold matched_roster. cbn [rows]. rewrite elem_of_bfilter. unfold isin.
  destruct (row_get "name" (items roster_df row)) as [n | ].
  - rewrite bool_decide_eq_true. split.
    + intros [? ?]. split; [done | ]. by exists n.
    + intros [? (n' & [= <-] & ?)]. done.
  - split; [by intros [_ ?] | by intros [_ (n & ? & _)]].
Qed.

Lemma attendance_ops_elem (df : list named_row) (a : Attendance) :
  Ok a ∈ attendance_ops df ↔ ∃ nr, nr ∈ df ∧ attendance_record nr = Ok (Some a).
Proof.
  unfold attendance_ops. rewrite elem_of_flat_map. unfold attendance_row_ops.
  split; intros (nr & Hnr & H); exists nr; (split; [done | ]).
  - destruct (attendance_record nr) as [[a' | ] | e].
    + by apply list_elem_of_singleton in H as [= ->].
    + by apply elem_of_nil in H.
    + by apply list_elem_of_singleton in H.
  - rewrite H. by apply list_elem_of_singleton.
Qed.

Lemma attendance_record_name (row : attendance_row) (name : option string)
    (a : Attendance) :
  attendance_record (row, name) = Ok (Some a) → a_name a = name.
Proof.
  unfold attendance_record, mbind, result_bind.
  destruct (isna (attendance_date row)); [done | ].
  destruct (negb (date_truth (to_datetime_dayfirst (attendance_date row)))).
  { unfold date_truth in *. by destruct (to_datetime_dayfirst (attendance_date row)). }
  destruct (to_safe_time (first_in row)); [ | done].
  destruct (to_safe_time (last_out row)); [ | done].
  destruct (to_safe_time (gross_time row)); [ | done].
  destruct (to_safe_time (out_of_office_time row)); [ | done].
  destruct (to_safe_time (net_office_time row)); [ | done].
  by intros [= <-].
Qed.

Lemma matched_attendance_elem (roster_df : roster_sheet)
    (attendance_df : list attendance_row) (row : attendance_row) (name : option string) :
  (row, name) ∈ matched_attendance roster_df attendance_df
  ↔ row ∈ attendance_df
    ∧ ∃ raw n, name_in_attendance row = Some raw
               ∧ name_map_of roster_df attendance_df !! raw = Some n
               ∧ name = Some n.
Proof.
  unfold matched_attendance. rewrite elem_of_bfilter, list_elem_of_fmap.
  cbn [snd]. rewrite bool_decide_eq_true. unfold map_name. split.
  - intros [(row' & [= <- ->] & Hrow) [n Hn]]. split; [done | ].
    destruct (name_in_attendance row) as [raw | ]; [ | done].
    cbn in Hn. by exists raw, n.
  - intros [Hrow (raw & n & Hraw & Hmap & ->)]. split; [ | by exists n].
    exists row. split; [ | done]. rewrite Hraw. cbn. by rewrite Hmap.
Qed.

(** C1. Every record an upload writes to either store carries a name
    of the roster sheet's canonical names, and a written attendance
    record comes from a sheet row whose raw name the reconciler mapped,
    with a score of at least 90, to the name the record is stored
    under. *)
Theorem persisted_names_canonical (request : upload_request) (st : store) :
  let st' := (post request st).1 in
  (∀ r, r ∈ rosters st' →
        r ∈ rosters st
        ∨ ∃ roster_df n,
            roster_file request = Some roster_df
            ∧ r_name r = Some n ∧ n ∈ roster_names_of roster_df)
  ∧ (∀ a, a ∈ attendances st' →
          a ∈ attendances st
          ∨ ∃ roster_df attendance_df row raw n,
              roster_file request = Some roster_df
              ∧ attendance_file request = Some attendance_df
              ∧ row ∈ attendance_df
              ∧ name_in_attendance row = Some raw
              ∧ name_map_of roster_df attendance_df !! raw = Some n
              ∧ (90 <= token_set_ratio raw n)%Q
              ∧ attendance_record (row, Some n) = Ok (Some a)
              ∧ a_name a = Some n ∧ n ∈ roster_names_of roster_df).
Proof.
  cbv zeta. rewrite post_store.
  destruct (roster_file request) as [roster_df | ]; [ | by split; left].
  destruct (attendance_file request) as [attendance_df | ]; [ | by split; left].
  destruct (first_valid_date attendance_df) as [first | ] eqn:Hfirst;
    [ | rewrite ingest_unchanged by (by left); by split; left].
  destruct (decide ("name" ∈ columns roster_df)) as [Hname | Hname];
    [ | rewrite ingest_unchanged by (by right); by split; left].
  destruct (ingest_tables roster_df attendance_df st first Hfirst Hname) as [Hr Ha].
  split.
  - intros r. rewrite Hr. intros [? | Hop]%elem_of_upsert_all; [by left | right].
    apply roster_ops_elem in Hop
      as (row & col_name & schedule & date & Hrow & _ & _ & _ & ->).
    apply matched_roster_rows in Hrow as (_ & n & Hn & (raw & Hraw)%values_elem).
    exists roster_df, n. split; [done | ]. split; [exact (row_field_get _ _ _ Hn) | ].
    by apply name_map_of_Some in Hraw as [? _].
  - intros a. destruct Ha as [-> | [_ ->]]; [by left | ].
    intros [? | Hop]%elem_of_upsert_all; [by left | right].
    apply attendance_ops_elem in Hop as ([row name] & Hnr & Hrec).
    apply matched_attendance_elem in Hnr as (Hrow & raw & n & Hraw & Hmap & ->).
    exists roster_df, attendance_df, row, raw, n.
    destruct (name_map_of_Some _ _ _ _ Hmap) as [Hn H90].
    repeat (split; [done | ]). split; [by eapply attendance_record_name | done].
Qed.


(** When every key can be written and no turn raises, the loop gets
    through every turn. *)
Lemma written_all {R} (key_of : R → key) (ok : key → bool) (ops : list (result R)) :
  (∀ k, ok k = true) → (∀ e, Raise e ∉ ops) →
  outcome key_of ok ops = Ok ()
  ∧ ∀ row, Ok row ∈ ops → row ∈ written key_of ok ops.
Proof.
  intros Hok. induction ops as [ | [row | e] ops IH]; intros Hraise.
  - split; [done | ]. by intros row ?%elem_of_nil.
  - cbn [written outcome]. rewrite Hok. destruct IH as [IH1 IH2].
    { intros e He. apply (Hraise e). by right. }
    split; [done | ]. intros row' [[= ->] | H]%elem_of_cons; [left | right; auto].
  - destruct (Hraise e). left.
Qed.


(** ** Ingesting the same files again *)

Lemma ingest_idempotent (roster_df : roster_sheet) (attendance_df : list attendance_row)
    (st : store) :
  ingest roster_df attendance_df (ingest roster_df attendance_df st).1
  = ingest roster_df attendance_df st.
Proof.
  unfold ingest. destruct (first_valid_date attendance_df) as [first | ]; [ | done].
  destruct (bool_decide ("name" ∈ columns roster_df)); [ | done].
  unfold mbind, db_bind, mret, db_ret, run_roster, run_attendance.
  set (rops := roster_ops _ _ _). set (aops := attendance_ops _).
  pose proof (upsert_all_idempotent roster_key rops (rosters st)) as Hr.
  destruct (upsert_all roster_key rops (rosters st)) as [tr [[] | e]] eqn:Er;
    cbn [fst snd rosters attendances] in *.
  - pose proof (upsert_all_idempotent attendance_key aops (attendances st)) as Ha.
    destruct (upsert_all attendance_key aops (attendances st)) as [ta [[] | e]] eqn:Ea;
      cbn [fst snd rosters attendances] in *; rewrite Hr;
      cbn [fst snd rosters attendances]; rewrite Ha; done.
  - by rewrite Hr.
Qed.

Lemma ingest_writable (roster_df : roster_sheet) (attendance_df : list attendance_row)
    (st : store) (k : key) :
  writable roster_key (rosters (ingest roster_df attendance_df st).1) k
  = writable roster_key (rosters st) k
  ∧ writable attendance_key (attendances (ingest roster_df attendance_df st).1) k
    = writable attendance_key (attendances st) k.
Proof.
  destruct (first_valid_date attendance_df) as [first | ] eqn:Hfirst;
    [ | by rewrite ingest_unchanged by (by left)].
  destruct (decide ("name" ∈ columns roster_df)) as [Hname | Hname];
    [ | by rewrite ingest_unchanged by (by right)].
  destruct (ingest_tables roster_df attendance_df st first Hfirst Hname)
    as [-> [-> | [_ ->]]]; by rewrite ?upsert_all_writable.
Qed.

(** C8. Uploading the same two files again leaves both stores as the
    first upload left them, with the same response, and an upload
    leaves at most one row under every key that had at most one. *)
Theorem reingestion_idempotent (request : upload_request) (st : store) :
  let st1 := (post request st).1 in
  post request st1 = (st1, (post request st).2)
  ∧ (∀ k, (key_count roster_key k (rosters st) ≤ 1)%nat
          → (key_count roster_key k (rosters st1) ≤ 1)%nat)
  ∧ (∀ k, (key_count attendance_key k (attendances st) ≤ 1)%nat
          → (key_count attendance_key k (attendances st1) ≤ 1)%nat).
Proof.
  cbv zeta. split.
  - unfold post. destruct (roster_file request) as [roster_df | ]; [ | done].
    destruct (attendance_file request) as [attendance_df | ]; [ | done].
    unfold try_except, mbind, db_bind. rewrite !process_files_ingest.
    pose proof (ingest_idempotent roster_df attendance_df st) as Hi.
    destruct (ingest roster_df attendance_df st) as [st1 [ym | e]];
      cbn [fst snd mret db_ret] in *; by rewrite Hi.
  - rewrite post_store.
    destruct (roster_file request) as [roster_df | ]; [ | done].
    destruct (attendance_file request) as [attendance_df | ]; [ | done].
    split; intros k Hk;
      destruct (ingest_writable roster_df attendance_df st k) as [Hr Ha];
      unfold writable in *.
    + eapply bool_decide_eq_true_1. rewrite Hr. by apply bool_decide_eq_true_2.
    + eapply bool_decide_eq_true_1. rewrite Ha. by apply bool_decide_eq_true_2.
Qed.

(** ** The low-hours actions *)

Lemma elem_of_insert_by {A} (leb : A → A → bool) (x y : A) (l : list A) :
  y ∈ insert_by leb x l ↔ y = x ∨ y ∈ l.
Proof.
  induction l as [ | z l IH]; cbn [insert_by].
  - rewrite list_elem_of_singleton, elem_of_nil. tauto.
  - destruct (leb x z); [by rewrite elem_of_cons | ].
    rewrite !elem_of_cons, IH. tauto.
Qed.

Lemma elem_of_sort_by {A} (leb : A → A → bool) (y : A) (l : list A) :
  y ∈ sort_by leb l ↔ y ∈ l.
Proof.
  unfold sort_by. induction l as [ | x l IH]; [done | ].
  cbn [foldr]. by rewrite elem_of_insert_by, IH, elem_of_cons.
Qed.

Lemma roster_map_of_lookup (qs : list Roster) (k : key) :
  (∀ r, roster_map_of qs !! k = Some r → r ∈ qs ∧ roster_key r = k)
  ∧ ((∃ r, r ∈ qs ∧ roster_key r = k) → is_Some (roster_map_of qs !! k)).
Proof.
  unfold roster_map_of.
  assert (∀ m : gmap key Roster,
            (∀ r, foldl (λ m r, <[(r_name r, r_date r) := r]> m) m qs !! k = Some r
                  → m !! k = Some r ∨ (r ∈ qs ∧ roster_key r = k))
            ∧ (is_Some (m !! k) ∨ (∃ r, r ∈ qs ∧ roster_key r = k)
               → is_Some (foldl (λ m r, <[(r_name r, r_date r) := r]> m) m qs !! k)))
    as H.
  { induction qs as [ | x qs IH]; intros m.
    - cbn [foldl]. split; [by left | ].
      intros [? | (r & ?%elem_of_nil & _)]; done.
    - cbn [foldl]. destruct (IH (<[(r_name x, r_date x) := x]> m)) as [IH1 IH2]. split.
      + intros r [Hm | [Hr Hk]]%IH1.
        * destruct (decide ((r_name x, r_date x) = k)) as [Heq | Hne].
          -- subst k. rewrite lookup_insert_eq in Hm. injection Hm as <-.
             right. split; [left | done].
          -- rewrite lookup_insert_ne in Hm by done. by left.
        * right. split; [by right | done].
      + intros Hor. apply IH2.
        destruct (decide ((r_name x, r_date x) = k)) as [Heq | Hne].
        * left. subst k. rewrite lookup_insert_eq. by eexists.
        * rewrite lookup_insert_ne by done.
          destruct Hor as [? | (r & [-> | Hr]%elem_of_cons & Hk)]; [by left | done | ].
          right. by exists r. }
  destruct (H ∅) as [H1 H2]. split.
  - intros r [Hm | ?]%H1; [by rewrite lookup_empty in Hm | done].
  - intros Hex. apply H2. by right.
Qed.

Lemma unique_key_eq {R} (key_of : R → key) (k : key) (table : list R) (r r' : R) :
  (key_count key_of k table ≤ 1)%nat →
  r ∈ table → r' ∈ table → key_of r = k → key_of r' = k → r = r'.
Proof.
  intros Hcount Hr Hr' Hk Hk'. induction table as [ | x table IH];
    [by apply elem_of_nil in Hr | ].
  unfold key_count in Hcount. cbn [List.filter] in Hcount.
  assert (∀ y, y ∈ table → key_of y = k → key_of x = k → False) as Hno.
  { intros y Hy Hyk Hxk. rewrite bool_decide_eq_true_2 in Hcount by done.
    cbn [length] in Hcount.
    assert (key_count key_of k table = 0%nat) as H0 by (unfold key_count; lia).
    apply key_count_0 in H0. apply H0. apply list_elem_of_fmap. by exists y. }
  apply elem_of_cons in Hr as [-> | Hr]; apply elem_of_cons in Hr' as [-> | Hr'].
  - done.
  - destruct (Hno r' Hr' Hk' Hk).
  - destruct (Hno r Hr Hk Hk').
  - apply IH; [ | done | done]. unfold key_count.
    destruct (bool_decide (key_of x = k)); cbn [length] in Hcount; lia.
Qed.

Lemma low_hour_attendances_elem (st : store) (start_date end_date : date)
    (att : Attendance) :
  att ∈ low_hour_attendances st start_date end_date ↔ low_hour st start_date end_date att.
Proof.
  unfold low_hour_attendances, order_by_date_name, low_hour.
  rewrite elem_of_sort_by, elem_of_bfilter, andb_true_iff.
  destruct (a_net_office_time att) as [t | ].
  - split.
    + intros (? & ? & ?). split; [done | ]. split; [done | ]. by exists t.
    + intros (? & ? & t' & [= <-] & ?). done.
  - split; [by intros (_ & _ & ?) | by intros (_ & _ & t & ? & _)].
Qed.

(** The join of both low-hours actions, for any shift codes excluded. *)
Lemma join_low_hours_exact (excluded : string → bool) (st : store)
    (start_date end_date : date) (e : low_hours_result) :
  (∀ k, (key_count roster_key k (rosters st) ≤ 1)%nat) →
  let atts := low_hour_attendances st start_date end_date in
  e ∈ join_low_hours
        (roster_map_of (low_hours_rosters excluded st start_date end_date atts)) atts
  ↔ ∃ att r, low_hour st start_date end_date att
             ∧ roster_entry_for excluded st att r ∧ e = flagged att r.
Proof.
  intros Huniq atts. unfold join_low_hours. rewrite list_elem_of_omap.
  set (qs := low_hours_rosters excluded st start_date end_date atts).
  assert (∀ r, r ∈ qs ↔ r ∈ rosters st
                        ∧ date__range start_date end_date (r_date r) = true
                        ∧ name__in (map a_name atts) (r_name r) = true
                        ∧ lookup_text excluded (r_schedule r) = false) as Hqs.
  { intros r. unfold qs, low_hours_rosters.
    rewrite elem_of_bfilter, !andb_true_iff, negb_true_iff. tauto. }
  split.
  - intros (att & Hatt & Hjoin). apply low_hour_attendances_elem in Hatt.
    destruct (roster_map_of qs !! (a_name att, a_date att)) as [r | ] eqn:Hmap;
      [ | done].
    cbn in Hjoin. injection Hjoin as <-.
    apply (proj1 (roster_map_of_lookup qs _)) in Hmap as [Hr Hk].
    apply Hqs in Hr as (Hr & _ & Hin & Hex).
    unfold roster_key in Hk. injection Hk as Hn Hd.
    exists att, r. split; [done | ]. split; [ | done].
    split; [done | ]. split; [ | done].
    rewrite <- Hn. unfold name__in in Hin. by destruct (r_name r).
  - intros (att & r & Hatt & (Hr & [v Hv] & Hn & Hd & Hex) & ->).
    exists att. split; [by apply low_hour_attendances_elem | ].
    assert (r ∈ qs) as Hrq.
    { apply Hqs. split; [done | ]. split; [ | split; [ | done]].
      - rewrite Hd. by destruct Hatt as (_ & ? & _).
      - rewrite Hn, Hv. cbn. apply bool_decide_eq_true_2. rewrite <- Hv.
        apply list_elem_of_fmap. exists att. split; [done | ].
        by apply low_hour_attendances_elem. }
    destruct (proj2 (roster_map_of_lookup qs (a_name att, a_date att))) as [r' Hmap].
    { exists r. split; [done | ]. unfold roster_key. by rewrite Hn, Hd. }
    cbv beta. rewrite Hmap. cbn.
    apply (proj1 (roster_map_of_lookup qs _)) in Hmap as [Hr' Hk'].
    apply Hqs in Hr' as (Hr' & _).
    assert (r' = r) as ->; [ | done].
    eapply (unique_key_eq roster_key); [apply Huniq | done | done | exact Hk' | ].
    unfold roster_key. by rewrite Hn, Hd.
Qed.

(** ** The resolution of the date range *)

Lemma date_ltb_lt (a b : date) :
  date_ltb a b = true
  ↔ year a < year b
    ∨ (year a = year b
       ∧ (month a < month b ∨ (month a = month b ∧ day a < day b))).
Proof.
  unfold date_ltb.
  rewrite !orb_true_iff, !andb_true_iff, !orb_true_iff, !andb_true_iff,
    !Z.ltb_lt, !Z.eqb_eq.
  tauto.
Qed.

Lemma date_leb_le (a b : date) :
  date_leb a b = true
  ↔ year a < year b
    ∨ (year a = year b
       ∧ (month a < month b ∨ (month a = month b ∧ day a ≤ day b))).
Proof.
  unfold date_leb. rewrite negb_true_iff, <- not_true_iff_false, date_ltb_lt. lia.
Qed.

Lemma date_leb_antisym (a b : date) :
  date_leb a b = true → date_leb b a = true → a = b.
Proof.
  rewrite !date_leb_le. destruct a, b. cbn [year month day]. intros H1 H2.
  f_equal; lia.
Qed.

(** [latest] finds a record no record of the table is more recent than. *)
Lemma latest_spec (table : list Attendance) :
  match latest table with
  | None => table = []
  | Some la => la ∈ table ∧ ∀ a, a ∈ table → date_leb (a_date a) (a_date la) = true
  end.
Proof.
  unfold latest.
  set (f := λ (best : option Attendance) (a : Attendance),
              match best with
              | None => Some a
              | Some b => if date_ltb (a_date b) (a_date a) then Some a else Some b
              end).
  assert (∀ best,
            match foldl f best table with
            | None => best = None ∧ table = []
            | Some la =>
                (best = Some la ∨ la ∈ table)
                ∧ (∀ b, best = Some b → date_leb (a_date b) (a_date la) = true)
                ∧ (∀ a, a ∈ table → date_leb (a_date a) (a_date la) = true)
            end) as H.
  { induction table as [ | x table IH]; intros best.
    - cbn [foldl]. destruct best as [b | ]; [ | done].
      split; [by left | ]. split; [ | by intros a ?%elem_of_nil].
      intros b' [= <-]. apply date_leb_le. lia.
    - cbn [foldl]. specialize (IH (f best x)).
      destruct (foldl f (f best x) table) as [la | ].
      2: { destruct IH as [Hf _]. destruct best as [b | ]; cbn [f] in Hf; [ | done].
           by destruct (date_ltb (a_date b) (a_date x)). }
      destruct IH as (Hin & Hbest & Hall).
      assert (date_leb (a_date x) (a_date la) = true
              ∧ ∀ b, best = Some b → date_leb (a_date b) (a_date la) = true)
        as [Hx Hb].
      { destruct best as [b | ]; cbn [f] in Hbest.
        - destruct (date_ltb (a_date b) (a_date x)) eqn:Hlt.
          + pose proof (Hbest x eq_refl) as Hx. split; [done | ].
            intros b' [= <-]. apply date_ltb_lt in Hlt.
            apply date_leb_le in Hx. apply date_leb_le. lia.
          + pose proof (Hbest b eq_refl) as Hb. split; [ | by intros b' [= <-]].
            apply not_true_iff_false in Hlt. rewrite date_ltb_lt in Hlt.
            apply date_leb_le in Hb. apply date_leb_le. lia.
        - split; [by apply Hbest | done]. }
      split; [ | split; [done | ]].
      + destruct Hin as [Hin | Hin]; [ | right; by right].
        destruct best as [b | ]; cbn [f] in Hin.
        * destruct (date_ltb (a_date b) (a_date x)).
          -- injection Hin as <-. right. left.
          -- by left.
        * injection Hin as <-. right. left.
      + intros a [-> | Ha]%elem_of_cons; [done | by apply Hall]. }
  specialize (H None). destruct (foldl f None table) as [la | ].
  - destruct H as ([? | ?] & _ & ?); done.
  - by destruct H.
Qed.

Lemma days_in_month_bounds (y m : Z) : 28 ≤ days_in_month y m ≤ 31.
Proof.
  unfold days_in_month. destruct (m =? 2); [destruct (is_leap y); lia | ].
  destruct ((m =? 4) || (m =? 6) || (m =? 9) || (m =? 11)); lia.
Qed.

Lemma date_new_Ok (y m d : Z) (t : date) :
  date_new y m d = Ok t
  ↔ t = mkdate y m d ∧ 1 ≤ y ≤ 9999 ∧ 1 ≤ m ≤ 12 ∧ 1 ≤ d ≤ days_in_month y m.
Proof.
  unfold date_new.
  destruct ((1 <=? y) && (y <=? 9999) && (1 <=? m) && (m <=? 12) && (1 <=? d)
            && (d <=? days_in_month y m)) eqn:H.
  - rewrite !andb_true_iff, !Z.leb_le in H.
    assert (fits_int y && fits_int m && fits_int d = true) as ->.
    { pose proof (days_in_month_bounds y m). unfold fits_int.
      rewrite !andb_true_iff, !Z.leb_le. lia. }
    cbn [negb]. split; [intros [= <-] | intros [-> _]]; [split; [done | lia] | done].
  - split; [by destruct (negb _) | ]. intros (_ & H1 & H2 & H3).
    apply not_true_iff_false in H. destruct H.
    rewrite !andb_true_iff, !Z.leb_le. lia.
Qed.

Lemma days_in_december (y : Z) : days_in_month y 12 = 31.
Proof. reflexivity. Qed.

Lemma iter_days_add (step : date → result date) (a b : nat) (d : date) :
  iter_days step (a + b) d = (d' ← iter_days step a d; iter_days step b d').
Proof.
  revert d. induction a as [ | a IH]; intros d; [done | ].
  cbn [Nat.add iter_days]. unfold mbind, result_bind in *.
  destruct (step d) as [d1 | e]; [apply IH | done].
Qed.

Lemma iter_next_within (n : nat) (y m d : Z) :
  d + Z.of_nat n ≤ days_in_month y m →
  iter_days next_day n (mkdate y m d) = Ok (mkdate y m (d + Z.of_nat n)).
Proof.
  revert d. induction n as [ | n IH]; intros d Hd.
  - cbn [iter_days]. do 2 f_equal. lia.
  - cbn [iter_days]. unfold next_day. cbn [year month day].
    assert ((d <? days_in_month y m) = true) as -> by (apply Z.ltb_lt; lia).
    cbn [mbind result_bind]. rewrite IH by lia. do 2 f_equal. lia.
Qed.

Lemma iter_prev_within (n : nat) (y m d : Z) :
  Z.of_nat n < d →
  iter_days prev_day n (mkdate y m d) = Ok (mkdate y m (d - Z.of_nat n)).
Proof.
  revert d. induction n as [ | n IH]; intros d Hd.
  - cbn [iter_days]. do 2 f_equal. lia.
  - cbn [iter_days]. unfold prev_day. cbn [year month day].
    assert ((1 <? d) = true) as -> by (apply Z.ltb_lt; lia).
    cbn [mbind result_bind]. rewrite IH by lia. do 2 f_equal. lia.
Qed.

Lemma next_day_month_end (y m : Z) :
  1 ≤ m ≤ 12 → ¬ (y = 9999 ∧ m = 12) → y ≤ 9999 →
  next_day (mkdate y m (days_in_month y m))
  = Ok (mkdate (if m <? 12 then y else y + 1) (if m <? 12 then m + 1 else 1) 1).
Proof.
  intros Hm Hmax Hy. unfold next_day. cbn [year month day]. rewrite Z.ltb_irrefl.
  destruct (m <? 12) eqn:Hlt; [done | ]. apply Z.ltb_ge in Hlt.
  by assert ((y <? 9999) = true) as -> by (apply Z.ltb_lt; lia).
Qed.

Lemma prev_day_month_start (y m : Z) :
  1 ≤ m ≤ 12 → 1 ≤ y →
  prev_day (mkdate (if m <? 12 then y else y + 1) (if m <? 12 then m + 1 else 1) 1)
  = Ok (mkdate y m (days_in_month y m)).
Proof.
  intros Hm Hy. unfold prev_day. cbn [year month day]. rewrite Z.ltb_irrefl.
  destruct (m <? 12) eqn:Hlt.
  - apply Z.ltb_lt in Hlt.
    assert ((1 <? m + 1) = true) as -> by (apply Z.ltb_lt; lia).
    by replace (m + 1 - 1) with m by lia.
  - apply Z.ltb_ge in Hlt. assert (m = 12) as -> by lia. rewrite Z.ltb_irrefl.
    assert ((1 <? y + 1) = true) as -> by (apply Z.ltb_lt; lia).
    by replace (y + 1 - 1) with y by lia.
Qed.

(** From any day of a month other than December 9999: the first of
    the month, day 28 plus four days, and back by the day reached. *)
Lemma month_bounds (y m d : Z) :
  1 ≤ y ≤ 9999 → 1 ≤ m ≤ 12 → 1 ≤ d ≤ days_in_month y m →
  ¬ (y = 9999 ∧ m = 12) →
  (start_date ← date_replace_day (mkdate y m d) 1;
   day28 ← date_replace_day start_date 28;
   next_month ← date_add_days day28 4;
   end_date ← date_sub_days next_month (day next_month);
   Ok (Some (start_date, end_date)))
  = Ok (Some (mkdate y m 1, mkdate y m (days_in_month y m))).
Proof.
  intros Hy Hm Hd Hmax.
  pose proof (days_in_month_bounds y m) as HD.
  pose proof (next_day_month_end y m Hm Hmax ltac:(lia)) as Hnext.
  pose proof (prev_day_month_start y m Hm ltac:(lia)) as Hprev.
  set (y' := if m <? 12 then y else y + 1) in *.
  set (m' := if m <? 12 then m + 1 else 1) in *.
  set (D := days_in_month y m) in *.
  unfold date_replace_day. cbn [year month day].
  rewrite (proj2 (date_new_Ok y m 1 (mkdate y m 1))) by (split; [done | fold D; lia]).
  cbn [mbind result_bind year month day].
  rewrite (proj2 (date_new_Ok y m 28 (mkdate y m 28))) by (split; [done | fold D; lia]).
  cbn [mbind result_bind].
  set (k := Z.to_nat (D - 28)).
  assert (iter_days next_day (k + (1 + (3 - k))) (mkdate y m 28)
          = Ok (mkdate y' m' (32 - D))) as Hadd.
  { rewrite iter_days_add, iter_next_within by (fold D; lia).
    cbn [mbind result_bind]. rewrite iter_days_add. cbn [iter_days].
    replace (28 + Z.of_nat k) with D by lia. rewrite Hnext. cbn [mbind result_bind].
    pose proof (days_in_month_bounds y' m').
    rewrite iter_next_within by lia. do 2 f_equal. lia. }
  unfold date_add_days at 1. cbn [Z.leb Z.compare].
  replace (Z.to_nat 4) with (k + (1 + (3 - k)))%nat by lia.
  rewrite Hadd. cbn [mbind result_bind day]. unfold date_sub_days, date_add_days.
  assert ((0 <=? - (32 - D)) = false) as -> by (apply Z.leb_gt; lia).
  replace (Z.to_nat (- - (32 - D))) with ((3 - k) + 1)%nat by lia.
  rewrite iter_days_add, iter_prev_within by lia.
  cbn [mbind result_bind iter_days].
  replace (32 - D - Z.of_nat (3 - k)) with 1 by lia.
  rewrite Hprev. done.
Qed.

(** C6, amended. An explicit start date is the start of the range and
    the end defaults to it; without one the range is the calendar month
    of the most recent attendance date; and without one over an empty
    attendance store there is no range and every action answers 404
    with a no-data payload, except a count that names nobody, which is
    turned down before the range is resolved. *)
Theorem date_range_resolution (request : query_params) (st : store) :
  (∀ start_date_str start_date,
     truthy (qp_start_date request) = Some start_date_str →
     to_datetime_query start_date_str = Ok start_date →
     (truthy (qp_end_date request) = None →
      _get_date_range request st = Ok (Some (start_date, start_date)))
     ∧ (∀ end_date_str end_date,
          truthy (qp_end_date request) = Some end_date_str →
          to_datetime_query end_date_str = Ok end_date →
          _get_date_range request st = Ok (Some (start_date, end_date))))
  ∧ (∀ y m d la,
       truthy (qp_start_date request) = None →
       la ∈ attendances st → a_date la = mkdate y m d →
       (∀ a, a ∈ attendances st → date_leb (a_date a) (a_date la) = true) →
       date_new y m d = Ok (mkdate y m d) →
       ¬ (y = 9999 ∧ m = 12) →
       _get_date_range request st
       = Ok (Some (mkdate y m 1, mkdate y m (days_in_month y m))))
  ∧ (truthy (qp_start_date request) = None → attendances st = [] →
     _get_date_range request st = Ok None
     ∧ (¬ count_without_filter request →
        ∃ b, get request st = Ok (Response b HTTP_404_NOT_FOUND)
             ∧ (b = NoDataForPeriod ∨ b = NoDataFound))).
Proof.
  split; [ | split].
  - intros start_date_str start_date Hs Hparse. unfold _get_date_range.
    rewrite Hs, Hparse. cbn [mbind result_bind]. split.
    + by intros ->.
    + intros end_date_str end_date -> ->. done.
  - intros y m d la Hs Hla Hdate Hmax Hvalid H9999. unfold _get_date_range. rewrite Hs.
    pose proof (latest_spec (attendances st)) as Hl.
    destruct (latest (attendances st)) as [la' | ];
      [ | rewrite Hl in Hla; by apply elem_of_nil in Hla].
    destruct Hl as [Hla' Hmax'].
    assert (a_date la' = mkdate y m d) as ->.
    { rewrite <- Hdate. apply date_leb_antisym; auto. }
    apply date_new_Ok in Hvalid as (_ & Hy & Hm & Hd).
    rewrite bool_decide_eq_false_2 by (unfold NaT; intros [= ? _ _]; lia).
    by apply month_bounds.
  - intros Hs Hempty.
    assert (_get_date_range request st = Ok None) as Hrange.
    { unfold _get_date_range. by rewrite Hs, Hempty. }
    split; [done | ]. intros Hcount. unfold get.
    destruct (action_is (qp_action request) "count") eqn:Hc.
    + unfold _perform_count.
      destruct (truthy (qp_q request)) as [query | ] eqn:Hq;
        destruct (truthy (qp_id request)) as [employee_id | ] eqn:Hid;
        try (destruct Hcount; by repeat split).
      all: cbn [bool_decide decide_rel andb]; rewrite Hrange; cbn [mbind result_bind];
        exists NoDataForPeriod; split; [reflexivity | by left].
    + destruct (action_is (qp_action request) "low_hours").
      { unfold _find_low_hours. rewrite Hrange. exists NoDataFound. split; [done | by right]. }
      destruct (action_is (qp_action request) "non_pl_low_hours").
      { unfold _find_non_pl_low_hours. rewrite Hrange. exists NoDataFound.
        split; [done | by right]. }
      unfold _perform_search. rewrite Hrange. exists NoDataForPeriod.
      split; [done | by left].
Qed.

(** ** Bad requests and requests that match nobody *)

Lemma bfilter_nil {A} (f : A → bool) (l : list A) :
  (∀ x, x ∈ l → f x = false) → List.filter f l = [].
Proof.
  intros H. induction l as [ | x l IH]; [done | ].
  cbn [List.filter]. rewrite (H x) by left. apply IH. intros y Hy. apply H. by right.
Qed.

Lemma filter_words_elem (query : string) (qs : list Roster) (r : Roster) :
  r ∈ filter_words query qs
  ↔ r ∈ qs ∧ ∀ word, word ∈ split query →
                     lookup_text (λ n, icontains n word) (r_name r) = true.
Proof. only_stated.
  unfold filter_words. generalize (split query) as words. intros words.
  revert qs. induction words as [ | w words IH]; intros qs; cbn [foldl].
  - split; [ | tauto]. intros ?. split; [done | ]. by intros word ?%elem_of_nil.
  - rewrite IH, elem_of_bfilter. split.
    + intros [[? Hw] Hall]. split; [done | ].
      intros word [-> | ?]%elem_of_cons; auto.
    + intros [? Hall]. split; [split; [done | ] | ].
      * apply Hall. left.
      * intros word ?. apply Hall. by right.
Qed.

Lemma names_with_id_nil (st : store) (start_date end_date : date) (employee_id : string) :
  id_matches_nobody st start_date end_date employee_id →
  names_with_id st start_date end_date employee_id = [].
Proof.
  intros H. unfold names_with_id. rewrite bfilter_nil; [done | ].
  intros a Ha. destruct (date__range start_date end_date (a_date a)) eqn:Hr.
  - by rewrite (H a Ha Hr).
  - by rewrite andb_false_r.
Qed.

Lemma filter_words_nil (st : store) (start_date end_date : date) (query : string) :
  query_matches_nobody st start_date end_date query →
  filter_words query
    (List.filter (λ r, date__range start_date end_date (r_date r)) (rosters st)) = [].
Proof.
  intros H. apply elem_of_nil_inv. intros r [[Hr Hin]%elem_of_bfilter Hall]%filter_words_elem.
  by apply (H r Hr Hin).
Qed.

(** C10, amended. A count that names nobody is a bad request (400),
    whatever the store; a count whose id or name filter matches nobody
    in the resolved range, and any action but such a count when no range
    can be resolved, is not found (404); the search action answers an id
    filter that matches nobody with an empty list (200).  A query only
    reads the store: [get] returns a response and no store. *)
Theorem query_error_statuses (request : query_params) (st : store) :
  (count_without_filter request →
   get request st = Ok (Response QueryRequired HTTP_400_BAD_REQUEST))
  ∧ (∀ start_date end_date employee_id,
       action_is (qp_action request) "count" = true →
       _get_date_range request st = Ok (Some (start_date, end_date)) →
       truthy (qp_id request) = Some employee_id →
       id_matches_nobody st start_date end_date employee_id →
       get request st = Ok (Response (NoEmployeeWithId employee_id) HTTP_404_NOT_FOUND))
  ∧ (∀ start_date end_date query,
       action_is (qp_action request) "count" = true →
       _get_date_range request st = Ok (Some (start_date, end_date)) →
       truthy (qp_id request) = None → truthy (qp_q request) = Some query →
       query_matches_nobody st start_date end_date query →
       get request st = Ok (Response (NoEmployeeMatching query) HTTP_404_NOT_FOUND))
  ∧ (_get_date_range request st = Ok None → ¬ count_without_filter request →
     ∃ b, get request st = Ok (Response b HTTP_404_NOT_FOUND))
  ∧ (∀ start_date end_date employee_id,
       action_is (qp_action request) "count" = false →
       action_is (qp_action request) "low_hours" = false →
       action_is (qp_action request) "non_pl_low_hours" = false →
       _get_date_range request st = Ok (Some (start_date, end_date)) →
       truthy (qp_id request) = Some employee_id →
       id_matches_nobody st start_date end_date employee_id →
       get request st = Ok (Response (SearchResults []) HTTP_200_OK))
  ∧ HTTP_404_NOT_FOUND ≠ HTTP_400_BAD_REQUEST.
Proof.
  split; [ | split; [ | split; [ | split; [ | split; [ | done]]]]].
  - intros (Hc & Hq & Hid). unfold get, _perform_count. by rewrite Hc, Hq, Hid.
  - intros start_date end_date employee_id Hc Hrange Hid Hno.
    unfold get, _perform_count. rewrite Hc, Hid, Hrange.
    rewrite andb_false_r. cbn [mbind result_bind].
    by rewrite names_with_id_nil.
  - intros start_date end_date query Hc Hrange Hid Hq Hno.
    unfold get, _perform_count. rewrite Hc, Hid, Hq, Hrange.
    cbn [bool_decide decide_rel andb mbind result_bind].
    by rewrite filter_words_nil.
  - intros Hrange Hcount. unfold get.
    destruct (action_is (qp_action request) "count") eqn:Hc.
    + unfold _perform_count.
      destruct (truthy (qp_q request)) as [query | ] eqn:Hq;
        destruct (truthy (qp_id request)) as [employee_id | ] eqn:Hid;
        try (destruct Hcount; by repeat split).
      all: cbn [bool_decide decide_rel andb]; rewrite Hrange; cbn [mbind result_bind];
        by eexists.
    + destruct (action_is (qp_action request) "low_hours").
      { unfold _find_low_hours. rewrite Hrange. by eexists. }
      destruct (action_is (qp_action request) "non_pl_low_hours").
      { unfold _find_non_pl_low_hours. rewrite Hrange. by eexists. }
      unfold _perform_search. rewrite Hrange. by eexists.
  - intros start_date end_date employee_id Hc Hl Hn Hrange Hid Hno.
    unfold get, _perform_search. rewrite Hc, Hl, Hn, Hrange, Hid.
    cbn [mbind result_bind]. by rewrite names_with_id_nil.
Qed.

(** An upload keeps the keys of both stores unique. *)
Lemma post_unique_keys (request : upload_request) (st : store) :
  unique_keys st → unique_keys (post request st).1.
Proof.
  intros [Hr Ha]. rewrite post_store.
  destruct (roster_file request) as [roster_df | ]; [ | done].
  destruct (attendance_file request) as [attendance_df | ]; [ | done].
  split; intros k; destruct (ingest_writable roster_df attendance_df st k) as [Er Ea];
    unfold writable in Er, Ea.
  - eapply bool_decide_eq_true_1. rewrite Er. by apply bool_decide_eq_true_2.
  - eapply bool_decide_eq_true_1. rewrite Ea. by apply bool_decide_eq_true_2.
Qed.

Lemma empty_store_unique_keys : unique_keys empty_store.
Proof. split; intros k; cbn; lia. Qed.

(** ** Further properties of the upload *)

Lemma elem_of_put_other {R} (key_of : R → key) (row r : R) (table : list R) :
  r ∈ table → key_of r ≠ key_of row → r ∈ put key_of row table.
Proof.
  intros Hr Hk. unfold put. case_bool_decide.
  - apply list_elem_of_fmap. exists r. split; [ | done].
    unfold replace_row. by rewrite bool_decide_eq_false_2.
  - apply elem_of_app. by left.
Qed.

Lemma elem_of_put_all_other {R} (key_of : R → key) (rows : list R) (r : R)
    (table : list R) :
  r ∈ table → (∀ row, row ∈ rows → key_of r ≠ key_of row) →
  r ∈ put_all key_of rows table.
Proof.
  revert table. induction rows as [ | row rows IH]; intros table Hr Hk; [done | ].
  change (put_all key_of (row :: rows) table)
    with (put_all key_of rows (put key_of row table)).
  apply IH.
  - apply elem_of_put_other; [done | apply Hk; left].
  - intros row' Hrow'. apply Hk. by right.
Qed.

Lemma length_put {R} (key_of : R → key) (row : R) (table : list R) :
  (length table ≤ length (put key_of row table))%nat.
Proof.
  unfold put. case_bool_decide; [by rewrite length_map | rewrite length_app; lia].
Qed.

Lemma length_put_all {R} (key_of : R → key) (rows : list R) (table : list R) :
  (length table ≤ length (put_all key_of rows table))%nat.
Proof.
  revert table. induction rows as [ | row rows IH]; intros table; [done | ].
  change (put_all key_of (row :: rows) table)
    with (put_all key_of rows (put key_of row table)).
  etrans; [apply (length_put key_of row) | apply IH].
Qed.

(** A loop stops at a turn that raises or at a key that two rows of
    the table hold. *)
Lemma outcome_raises {R} (key_of : R → key) (ok : key → bool) (ops : list (result R))
    (e : exn) :
  outcome key_of ok ops = Raise e →
  Raise e ∈ ops
  ∨ (e = MultipleObjectsReturned ∧ ∃ row, Ok row ∈ ops ∧ ok (key_of row) = false).
Proof.
  induction ops as [ | [row | e'] ops IH]; cbn [outcome].
  - done.
  - destruct (ok (key_of row)) eqn:Hok.
    + intros [? | [-> (row' & Hrow' & Hok')]]%IH; [left; by right | right].
      split; [done | ]. exists row'. split; [by right | done].
    + intros [= <-]. right. split; [done | ]. exists row. split; [left | done].
  - intros [= ->]. left. left.
Qed.

Lemma int_from_nonneg (acc : Z) (s : string) :
  0 ≤ acc → all_digits s = true → 0 ≤ int_from acc s.
Proof.
  revert acc. induction s as [ | c s IH]; intros acc Hacc; cbn [all_digits int_from];
    [done | ].
  intros [Hc Hs]%andb_true_iff. apply IH; [ | done].
  unfold is_digit in Hc. apply andb_true_iff in Hc as [Hc _].
  apply Nat.leb_le in Hc. lia.
Qed.

(** X1. [post] always answers: with 400 and an untouched store when a
    file is missing, and otherwise with 201 or, whatever was raised
    while the files were processed, with 500. *)
Theorem post_always_responds (request : upload_request) (st : store) :
  ∃ b s,
    (post request st).2 = Ok (Response b s)
    ∧ ((s = HTTP_400_BAD_REQUEST ∧ b = UploadBothFiles ∧ (post request st).1 = st
        ∧ (roster_file request = None ∨ attendance_file request = None))
       ∨ (is_Some (roster_file request) ∧ is_Some (attendance_file request)
          ∧ ((s = HTTP_201_CREATED ∧ ∃ y m, b = ProcessedSuccessfully y m)
             ∨ (s = HTTP_500_INTERNAL_SERVER_ERROR ∧ ∃ e, b = ErrorOccurred e)))).
Proof.
  unfold post.
  destruct (roster_file request) as [roster_df | ];
    [destruct (attendance_file request) as [attendance_df | ] | ].
  - unfold try_except, mbind, db_bind, mret, db_ret.
    destruct (process_files roster_df attendance_df st) as [st' [[y m] | e]]; cbn [snd].
    + eexists _, _. split; [reflexivity | ]. right.
      split; [done | ]. split; [done | ]. left. split; [done | ]. by exists y, m.
    + eexists _, _. split; [reflexivity | ]. right.
      split; [done | ]. split; [done | ]. right. split; [done | ]. by exists e.
  - eexists _, _. split; [reflexivity | ]. left. repeat split; by right.
  - eexists _, _. split; [reflexivity | ]. left. repeat split; by left.
Qed.

(** X2. Three sheets are turned down with 500 before either store is
    written: an attendance sheet without a data row ([ValueError], when
    its columns are named), an attendance sheet with rows but without
    any date that parses ([IndexError]), and a roster sheet without a
    name column ([KeyError]). *)
Theorem post_unusable_sheets (request : upload_request) (st : store)
    (roster_df : roster_sheet) (attendance_df : list attendance_row) :
  roster_file request = Some roster_df →
  attendance_file request = Some attendance_df →
  (attendance_df = [] →
   post request st
   = (st, Ok (Response (ErrorOccurred ValueError) HTTP_500_INTERNAL_SERVER_ERROR)))
  ∧ (attendance_df ≠ [] → first_valid_date attendance_df = None →
     post request st
     = (st, Ok (Response (ErrorOccurred IndexError) HTTP_500_INTERNAL_SERVER_ERROR)))
  ∧ (is_Some (first_valid_date attendance_df) → "name" ∉ columns roster_df →
     post request st
     = (st, Ok (Response (ErrorOccurred KeyError) HTTP_500_INTERNAL_SERVER_ERROR))).
Proof.
  intros Hrf Haf. unfold post. rewrite Hrf, Haf.
  unfold try_except, mbind, db_bind, mret, db_ret.
  rewrite process_files_ingest. unfold ingest. split; [ | split].
  - by intros ->.
  - intros Hrows ->. by destruct attendance_df.
  - intros [first ->] Hname. by rewrite bool_decide_eq_false_2.
Qed.

(** X3. Every roster record an upload writes comes from a cell of the
    roster sheet under a column whose label is a number: its date is
    that day of the month of the first valid attendance date, a day the
    month has; its name is the row's name; its team and its shift are
    the text of the row's [sr no] cell and of the cell itself, which
    for a missing cell is ['nan']. *)
Theorem roster_writes_in_processing_month (request : upload_request) (st : store)
    (r : Roster) :
  r ∈ rosters (post request st).1 →
  r ∈ rosters st
  ∨ ∃ roster_df attendance_df first row n col_name schedule,
      roster_file request = Some roster_df
      ∧ attendance_file request = Some attendance_df
      ∧ first_valid_date attendance_df = Some first
      ∧ row ∈ rows roster_df ∧ (col_name, schedule) ∈ items roster_df row
      ∧ isdigit col_name = true
      ∧ 1 ≤ int_of_digits col_name ≤ days_in_month (year first) (month first)
      ∧ row_get "name" (items roster_df row) = Some n
      ∧ r = mkRoster (Some n)
              (mkdate (year first) (month first) (int_of_digits col_name))
              (row_field "sr no" (items roster_df row))
              (Some (stored_text schedule)).
Proof.
  rewrite post_store.
  destruct (roster_file request) as [roster_df | ]; [ | by left].
  destruct (attendance_file request) as [attendance_df | ]; [ | by left].
  destruct (first_valid_date attendance_df) as [first | ] eqn:Hfirst;
    [ | rewrite ingest_unchanged by (by left); by left].
  destruct (decide ("name" ∈ columns roster_df)) as [Hname | Hname];
    [ | rewrite ingest_unchanged by (by right); by left].
  destruct (ingest_tables roster_df attendance_df st first Hfirst Hname) as [-> _].
  intros [? | Hop]%elem_of_upsert_all; [by left | right].
  apply roster_ops_elem in Hop
    as (row & col_name & schedule & date & Hrow & Hitem & Hdigit & Hdate & ->).
  apply matched_roster_rows in Hrow as (Hrow & n & Hn & _).
  apply date_new_Ok in Hdate as (-> & _ & _ & Hday).
  exists roster_df, attendance_df, first, row, n, col_name, schedule.
  repeat (split; [done | ]). f_equal. exact (row_field_get _ _ _ Hn).
Qed.

(** X4. Roster ingestion keeps the [ValueError] of an impossible day to
    itself, and only that: over a store without duplicated keys, with
    a year, a month and numbered column labels that are C ints, it runs
    to its end; the exceptions it can raise are
    [MultipleObjectsReturned] for a key held by two rows and
    [OverflowError] for a year, a month or a column number that is no
    C int.  It never touches the attendance store. *)
Theorem roster_ingestion_failures (df : roster_sheet) (year month : Z) (st : store) :
  ((∀ k, (key_count roster_key k (rosters st) ≤ 1)%nat) →
   fits_int year = true → fits_int month = true → day_labels_fit df →
   (_process_roster_data df year month st).2 = Ok ())
  ∧ (∀ e, (_process_roster_data df year month st).2 = Raise e →
          (e = MultipleObjectsReturned
           ∧ ∃ k, (1 < key_count roster_key k (rosters st))%nat)
          ∨ (e = OverflowError
             ∧ ∃ col_name,
                 col_name ∈ columns df ∧ isdigit col_name = true
                 ∧ (year < -2147483648 ∨ 2147483647 < year
                    ∨ month < -2147483648 ∨ 2147483647 < month
                    ∨ 2147483647 < int_of_digits col_name)))
  ∧ attendances (_process_roster_data df year month st).1 = attendances st.
Proof.
  rewrite _process_roster_data_ops. split; [ | split].
  - intros Huniq Hy Hm Hfit. unfold run_roster. rewrite upsert_all_written. cbn [snd].
    apply written_all; [ | intros e; by apply roster_ops_no_raise].
    intros k. unfold writable. by apply bool_decide_eq_true_2.
  - intros e. unfold run_roster. rewrite upsert_all_written. cbn [snd]. intros He.
    apply outcome_raises in He as [Hraise | [-> (row & _ & Hok)]].
    + right. apply roster_ops_raise in Hraise as [-> (col_name & Hcol & Hdigit & Hover)].
      split; [done | ]. exists col_name. split; [done | ]. split; [done | ].
      assert (0 ≤ int_of_digits col_name) as Hpos.
      { apply int_from_nonneg; [lia | ].
        unfold isdigit in Hdigit. by apply andb_true_iff in Hdigit as [_ ?]. }
      unfold fits_int in Hover. rewrite !andb_false_iff, !Z.leb_gt in Hover. lia.
    + left. split; [done | ]. exists (roster_key row).
      unfold writable in Hok. apply bool_decide_eq_false_1 in Hok. lia.
  - apply run_roster_attendances.
Qed.

(** X5. An upload deletes nothing: every key of either store is still
    there afterwards, neither store gets shorter, and a roster record
    of somebody the roster sheet does not name is left as it was. *)
Theorem post_never_deletes (request : upload_request) (st : store) :
  let st' := (post request st).1 in
  (∀ r, r ∈ rosters st → roster_key r ∈ map roster_key (rosters st'))
  ∧ (∀ a, a ∈ attendances st → attendance_key a ∈ map attendance_key (attendances st'))
  ∧ (length (rosters st) ≤ length (rosters st'))%nat
  ∧ (length (attendances st) ≤ length (attendances st'))%nat
  ∧ (∀ r roster_df,
       r ∈ rosters st → roster_file request = Some roster_df →
       (∀ n, r_name r = Some n → n ∉ roster_names_of roster_df) →
       r ∈ rosters st').
Proof.
  cbv zeta. rewrite post_store.
  assert (∀ r, r ∈ rosters st → roster_key r ∈ map roster_key (rosters st)) as Hkr.
  { intros r Hr. apply list_elem_of_fmap. by exists r. }
  assert (∀ a, a ∈ attendances st
               → attendance_key a ∈ map attendance_key (attendances st)) as Hka.
  { intros a Ha. apply list_elem_of_fmap. by exists a. }
  destruct (roster_file request) as [roster_df | ]; [ | done].
  destruct (attendance_file request) as [attendance_df | ]; [ | done].
  destruct (first_valid_date attendance_df) as [first | ] eqn:Hfirst;
    [ | rewrite ingest_unchanged by (by left); done].
  destruct (decide ("name" ∈ columns roster_df)) as [Hname | Hname];
    [ | rewrite ingest_unchanged by (by right); done].
  destruct (ingest_tables roster_df attendance_df st first Hfirst Hname) as [-> Ha].
  rewrite upsert_all_written. cbn [fst].
  assert (∀ a, a ∈ attendances st
               → attendance_key a
                 ∈ map attendance_key (attendances (ingest roster_df attendance_df st).1))
    as Hka'.
  { intros a Hin. destruct Ha as [-> | [_ ->]]; [by apply Hka | ].
    rewrite upsert_all_written. cbn [fst]. apply keys_put_all_mono. by apply Hka. }
  assert (length (attendances st)
          ≤ length (attendances (ingest roster_df attendance_df st).1))%nat as Hla.
  { destruct Ha as [-> | [_ ->]]; [done | ].
    rewrite upsert_all_written. cbn [fst]. apply length_put_all. }
  split; [ | split; [exact Hka' | split; [apply length_put_all | split; [exact Hla | ]]]].
  - intros r Hr. apply keys_put_all_mono. by apply Hkr.
  - intros r roster_df' Hr [= <-] Hnot. apply elem_of_put_all_other; [done | ].
    intros row Hrow%elem_of_written Hkey.
    apply roster_ops_elem in Hrow
      as (row' & col_name & schedule & date & Hrow' & _ & _ & _ & ->).
    apply matched_roster_rows in Hrow' as (_ & n & Hn & (raw & Hraw)%values_elem).
    apply name_map_of_Some in Hraw as [Hin _].
    unfold roster_key in Hkey. cbn [r_name r_date] in Hkey.
    injection Hkey as Hkn _. apply (Hnot n); [ | done]. rewrite Hkn.
    exact (row_field_get _ _ _ Hn).
Qed.



(** ** Further properties of the time normalizer *)

Lemma time_of_seconds_negative (n : Z) :
  n < 0 →
  time_of_seconds n
  = Raise (if n <? -7730941132800 then OverflowError else ValueError).
Proof.
  intros Hn. unfold time_of_seconds, time_new, fits_int. cbv zeta.
  replace (Z.min n 86399) with n by lia.
  pose proof (Z.mod_pos_bound n 3600 ltac:(lia)) as Hr.
  assert (0 ≤ n mod 3600 / 60 < 60) as Hm.
  { split; [apply Z.div_pos; lia | apply Z.div_lt_upper_bound; lia]. }
  pose proof (Z.mod_pos_bound (n mod 3600) 60 ltac:(lia)) as Hs.
  assert (n / 3600 < 0) as Hh by (apply Z.div_lt_upper_bound; lia).
  destruct (n <? -7730941132800) eqn:Hov.
  - apply Z.ltb_lt in Hov.
    assert (n / 3600 < -2147483648) as Hlow by (apply Z.div_lt_upper_bound; lia).
    replace (-2147483648 <=? n / 3600) with false by (symmetry; apply Z.leb_gt; lia).
    done.
  - apply Z.ltb_ge in Hov.
    assert (-2147483648 ≤ n / 3600) as Hlow by (apply Z.div_le_lower_bound; lia).
    repeat match goal with
           | |- context [?a <=? ?b] =>
               first [ replace (a <=? b) with true by (symmetry; apply Z.leb_le; lia)
                     | replace (a <=? b) with false by (symmetry; apply Z.leb_gt; lia) ]
           end.
    done.
Qed.

(** X7. [to_safe_time] raises for numbers only.  For an [int] it
    raises exactly when the int is negative: [ValueError], and
    [OverflowError] once the hours leave the C ints (from -89478486
    down).  For a [float] that is not NaN it raises exactly when its
    seconds cannot be computed or are negative, with the same two
    exceptions.  A time goes through as it is, and a text or a missing
    cell never raises. *)
Theorem to_safe_time_raises (c : cell) (e : exn) :
  to_safe_time c = Raise e
  ↔ (∃ z, c = CInt z
          ∧ ((-89478486 < z < 0 ∧ e = ValueError)
             ∨ (z ≤ -89478486 ∧ e = OverflowError)))
    ∨ (∃ f, c = CFloat f ∧ isna c = false
            ∧ (scaled_seconds c = Raise e
               ∨ ∃ n, scaled_seconds c = Ok n
                      ∧ ((-7730941132800 ≤ n < 0 ∧ e = ValueError)
                         ∨ (n < -7730941132800 ∧ e = OverflowError)))).
Proof.
  only_stated.
  assert (∀ n, (tm ← time_of_seconds n; Ok (Some tm)) = Raise e
               ↔ (-7730941132800 ≤ n < 0 ∧ e = ValueError)
                 ∨ (n < -7730941132800 ∧ e = OverflowError)) as Htime.
  { intros n. destruct (Z.lt_ge_cases n 0) as [Hn | Hn].
    - rewrite time_of_seconds_negative by done. cbn.
      destruct (n <? -7730941132800) eqn:Hov;
        [apply Z.ltb_lt in Hov | apply Z.ltb_ge in Hov].
      + split; [intros [= <-]; right; by split | ].
        intros [[? _] | [_ ->]]; [lia | done].
      + split; [intros [= <-]; left; by split | ].
        intros [[_ ->] | [? _]]; [done | lia].
    - rewrite time_of_seconds_ok by lia. cbn. split; [done | lia]. }
  destruct c as [ | tm | z | f | s].
  - split; [done | ]. by intros [(z & ? & _) | (f & ? & _)].
  - split; [done | ]. by intros [(z & ? & _) | (f & ? & _)].
  - rewrite (to_safe_time_of_seconds (CInt z) (z * 24 * 60 * 60)) by done.
    rewrite Htime. split.
    + intros H. left. exists z. split; [done | ]. destruct H as [[? ->] | [? ->]];
        [left | right]; (split; [lia | done]).
    + intros [(z' & [= <-] & H) | (f & ? & _)]; [ | done].
      destruct H as [[? ->] | [? ->]]; [left | right]; (split; [lia | done]).
  - destruct (isna (CFloat f)) eqn:Hna.
    { unfold to_safe_time. rewrite Hna. split; [done | ].
      by intros [(z & ? & _) | (f' & _ & ? & _)]. }
    destruct (scaled_seconds (CFloat f)) as [n | e'] eqn:Hs.
    + rewrite (to_safe_time_of_seconds _ n Hs), Htime. split.
      * intros H. right. exists f. split; [done | ]. split; [done | ].
        right. by exists n.
      * intros [(z & ? & _) | (f' & _ & _ & [? | (n' & [= <-] & H)])]; done.
    + assert (to_safe_time (CFloat f) = Raise e') as ->.
      { unfold to_safe_time. rewrite Hna, Hs. done. }
      split.
      * intros [= ->]. right. exists f. split; [done | ]. split; [done | ]. by left.
      * intros [(z & ? & _) | (f' & _ & _ & [[= ->] | (n' & ? & _)])]; done.
  - split.
    + unfold to_safe_time. cbn [isna]. by destruct (to_datetime_time s).
    + by intros [(z & ? & _) | (f & ? & _)].
Qed.

(** ** Further properties of the queries *)

Lemma filter_filter {A} (f g : A → bool) (l : list A) :
  List.filter f (List.filter g l) = List.filter (λ x, g x && f x) l.
Proof.
  induction l as [ | x l IH]; [done | ]. cbn [List.filter].
  destruct (g x); cbn [List.filter andb]; [destruct (f x); by rewrite IH | done].
Qed.

Lemma filter_true {A} (l : list A) : List.filter (λ _, true) l = l.
Proof. induction l as [ | x l IH]; [done | ]. cbn [List.filter]. by rewrite IH. Qed.

Lemma filter_if_filter {A} (param : option string) (test : string → A → bool)
    (qs : list A) :
  filter_if param test qs
  = List.filter (λ x, match param with Some p => test p x | None => true end) qs.
Proof. destruct param; [done | ]. cbn [filter_if]. by rewrite filter_true. Qed.

Lemma filter_words_filter (query : string) (qs : list Roster) :
  filter_words query qs
  = List.filter
      (λ r, forallb (λ word, lookup_text (λ n, icontains n word) (r_name r))
              (split query)) qs.
Proof.
  unfold filter_words. generalize (split query). intros words. revert qs.
  induction words as [ | word words IH]; intros qs; cbn [foldl forallb].
  - by rewrite filter_true.
  - by rewrite IH, filter_filter.
Qed.

Lemma insert_by_perm {A} (leb : A → A → bool) (x : A) (l : list A) :
  insert_by leb x l ≡ₚ x :: l.
Proof.
  induction l as [ | y l IH]; [done | ]. cbn [insert_by].
  destruct (leb x y); [done | ]. rewrite IH. apply Permutation_swap.
Qed.

Lemma sort_by_perm {A} (leb : A → A → bool) (l : list A) : sort_by leb l ≡ₚ l.
Proof.
  unfold sort_by. induction l as [ | x l IH]; [done | ]. cbn [foldr].
  by rewrite insert_by_perm, IH.
Qed.

Lemma roster_of_join_search (attendance_map : gmap key Attendance) (qs : list Roster) :
  map roster_of_result (join_search attendance_map qs) = qs.
Proof.
  unfold join_search. induction qs as [ | [n d t s] qs IH]; [done | ].
  cbn [map]. by rewrite IH.
Qed.

(** The filters of [_perform_search], one after the other, are one
    filter. *)
Lemma search_filters_compose (request : query_params) (qs : list Roster) :
  filter_if (truthy (qp_shift request))
    (λ s r, lookup_text (λ v, iexact v s) (r_schedule r))
    (match truthy (qp_q request) with
     | Some query =>
         filter_words query
           (filter_if (truthy (qp_teamname request))
              (λ t r, lookup_text (λ v, iexact v t) (r_team r)) qs)
     | None =>
         filter_if (truthy (qp_teamname request))
           (λ t r, lookup_text (λ v, iexact v t) (r_team r)) qs
     end)
  = List.filter (passes_filters request) qs.
Proof.
  only_stated. rewrite !filter_if_filter. unfold passes_filters.
  destruct (truthy (qp_q request)) as [query | ].
  - rewrite filter_words_filter, !filter_filter. apply filter_ext. intros r.
    cbv beta. by rewrite <- ?andb_assoc.
  - rewrite filter_filter. apply filter_ext. intros r. by rewrite andb_true_r.
Qed.

Lemma search_pipeline (request : query_params) (st : store) (start_date end_date : date) :
  _get_date_range request st = Ok (Some (start_date, end_date)) →
  let rs := selected_rosters request st start_date end_date in
  _perform_search request st
  = Ok (Response
          (SearchResults
             (join_search
                (attendance_map_of
                   (List.filter
                      (λ a, name__in (distinct (map r_name rs)) (a_name a)
                            && date__range start_date end_date (a_date a))
                      (attendances st)))
                rs))
          HTTP_200_OK).
Proof.
  intros Hrange. cbv zeta. unfold _perform_search. rewrite Hrange.
  cbn [mbind result_bind]. cbv zeta.
  assert (∀ qs, qs = List.filter (search_selects request st start_date end_date) (rosters st)
                → order_by_date_name r_date r_name qs
                  = selected_rosters request st start_date end_date) as Hsel.
  { by intros qs ->. }
  destruct (truthy (qp_id request)) as [employee_id | ] eqn:Hid.
  - case_bool_decide as Hnames.
    + assert (selected_rosters request st start_date end_date = []) as ->; [ | done].
      unfold selected_rosters. rewrite bfilter_nil; [done | ].
      intros r _. unfold search_selects. rewrite Hid, Hnames. unfold name__in.
      destruct (r_name r).
      * rewrite bool_decide_eq_false_2 by (by intros ?%elem_of_nil).
        by rewrite andb_false_r.
      * by rewrite andb_false_r.
    + rewrite search_filters_compose, !filter_filter.
      rewrite (Hsel _); [done | ]. apply filter_ext. intros r.
      unfold search_selects. by rewrite Hid, andb_assoc.
  - rewrite search_filters_compose, !filter_filter.
    rewrite (Hsel _); [done | ]. apply filter_ext. intros r.
    unfold search_selects. by rewrite Hid, andb_true_r.
Qed.

(** X8. Over a resolved range a search answers 200 with one result
    for each roster entry of the range that passes every filter that
    was sent (the employee id through the attendance records of the
    range, the team and the shift whatever the case, every word of the
    name), and with nothing else. *)
Theorem search_results_exact (request : query_params) (st : store)
    (start_date end_date : date) :
  _get_date_range request st = Ok (Some (start_date, end_date)) →
  ∃ results,
    _perform_search request st = Ok (Response (SearchResults results) HTTP_200_OK)
    ∧ map roster_of_result results
      ≡ₚ List.filter (search_selects request st start_date end_date) (rosters st).
Proof.
  intros Hrange. eexists. split; [by apply search_pipeline | ].
  rewrite roster_of_join_search. apply sort_by_perm.
Qed.

Lemma date__range_inverted (start_date end_date d : date) :
  date_ltb end_date start_date = true → date__range start_date end_date d = false.
Proof.
  only_stated. intros Hinv%date_ltb_lt. unfold date__range.
  destruct (date_leb start_date d) eqn:H1; [ | done].
  destruct (date_leb d end_date) eqn:H2; [ | done].
  apply date_leb_le in H1, H2. lia.
Qed.

(** X9. A range whose end is before its start selects nothing: search
    and both low-hours actions answer 200 with no result, and a count
    answers 404 for whatever id or name it is asked about. *)
Theorem inverted_range_selects_nothing (request : query_params) (st : store)
    (start_date end_date : date) :
  _get_date_range request st = Ok (Some (start_date, end_date)) →
  date_ltb end_date start_date = true →
  _perform_search request st = Ok (Response (SearchResults []) HTTP_200_OK)
  ∧ _find_low_hours request st = Ok (Response (LowHours 0 []) HTTP_200_OK)
  ∧ _find_non_pl_low_hours request st = Ok (Response (NonPlLowHours 0 []) HTTP_200_OK)
  ∧ (∀ employee_id,
       truthy (qp_id request) = Some employee_id →
       _perform_count request st
       = Ok (Response (NoEmployeeWithId employee_id) HTTP_404_NOT_FOUND))
  ∧ (∀ query,
       truthy (qp_id request) = None → truthy (qp_q request) = Some query →
       _perform_count request st
       = Ok (Response (NoEmployeeMatching query) HTTP_404_NOT_FOUND)).
Proof.
  intros Hrange Hinv.
  pose proof (date__range_inverted start_date end_date) as Hout.
  assert (low_hour_attendances st start_date end_date = []) as Hlow.
  { unfold low_hour_attendances. rewrite bfilter_nil; [done | ].
    intros a _. by rewrite Hout. }
  split; [ | split; [ | split; [ | split]]].
  - rewrite (search_pipeline _ _ _ _ Hrange). cbv zeta.
    assert (selected_rosters request st start_date end_date = []) as ->; [ | done].
    unfold selected_rosters. rewrite bfilter_nil; [done | ].
    intros r _. unfold search_selects. by rewrite Hout.
  - unfold _find_low_hours. rewrite Hrange. cbn [mbind result_bind]. by rewrite Hlow.
  - unfold _find_non_pl_low_hours. rewrite Hrange. cbn [mbind result_bind].
    by rewrite Hlow.
  - intros employee_id Hid. unfold _perform_count. rewrite Hid, Hrange.
    rewrite andb_false_r. cbn [mbind result_bind].
    rewrite names_with_id_nil; [done | ]. intros a _ Hin. by rewrite Hout in Hin.
  - intros query Hid Hq. unfold _perform_count. rewrite Hid, Hq, Hrange.
    cbn [bool_decide decide_rel andb mbind result_bind].
    rewrite filter_words_nil; [done | ]. intros r _ Hin. by rewrite Hout in Hin.
Qed.

Lemma not_after_leb (a b : date) : not_after a b = date_leb a b.
Proof.
  apply eq_true_iff_eq. rewrite date_leb_le. unfold not_after.
  rewrite !orb_true_iff, !andb_true_iff, !orb_true_iff, !andb_true_iff,
    !Z.ltb_lt, !Z.eqb_eq, Z.leb_le.
  tauto.
Qed.

Lemma under_worked_filter (start_date end_date : date) (att : Attendance) :
  under_worked start_date end_date att
  = date__range start_date end_date (a_date att)
    && match a_net_office_time att with
       | Some t => time_ltb t eight_hours
       | None => false
       end.
Proof. unfold under_worked, date__range. by rewrite !not_after_leb. Qed.

Lemma same_name_and_date_key (att : Attendance) (r : Roster) :
  same_name_and_date att r = true
  ↔ is_Some (a_name att) ∧ roster_key r = (a_name att, a_date att).
Proof.
  unfold same_name_and_date, roster_key.
  rewrite !andb_true_iff, !Z.eqb_eq.
  destruct (a_name att) as [n | ], (r_name r) as [n' | ].
  - rewrite String.eqb_eq. destruct (r_date r), (a_date att). cbn [year month day].
    split.
    + intros [[[-> ->] ->] ->]. split; [by eexists | done].
    + intros [_ [= -> -> -> ->]]. done.
  - split; [by intros [[[? _] _] _] | by intros [_ ?]].
  - split; [by intros [[[? _] _] _] | by intros [[? ?] _]].
  - split; [by intros [[[? _] _] _] | by intros [[? ?] _]].
Qed.

Lemma filter_length_mono {A} (f g : A → bool) (l : list A) :
  (∀ x, f x = true → g x = true) →
  (length (List.filter f l) ≤ length (List.filter g l))%nat.
Proof.
  intros Himp. induction l as [ | x l IH]; [done | ]. cbn [List.filter].
  destruct (f x) eqn:Hf.
  - rewrite (Himp x Hf). cbn [length]. lia.
  - destruct (g x); cbn [length]; lia.
Qed.

Lemma omap_flat_map {A B} (f : A → option B) (g : A → list B) (l : list A) :
  (∀ x, x ∈ l → option_list (f x) = g x) → omap f l = flat_map g l.
Proof.
  induction l as [ | x l IH]; intros Hfg; [done | ].
  cbn [omap list_omap flat_map]. rewrite <- (Hfg x) by left.
  rewrite <- IH by (intros y Hy; apply Hfg; by right).
  by destruct (f x).
Qed.

(** The join of both low-hours actions is the report of the
    specification, for any codes excluded. *)
Lemma join_low_hours_report (excluded : string → bool) (codes : list string)
    (st : store) (start_date end_date : date) :
  (∀ s, excluded s = existsb (String.eqb (upper s)) codes) →
  (∀ k, (key_count roster_key k (rosters st) ≤ 1)%nat) →
  let atts := low_hour_attendances st start_date end_date in
  join_low_hours
    (roster_map_of (low_hours_rosters excluded st start_date end_date atts)) atts
  ≡ₚ low_hours_report codes st start_date end_date.
Proof.
  intros Hcodes Huniq atts.
  set (qs := low_hours_rosters excluded st start_date end_date atts).
  set (entry := λ (att : Attendance) (r : Roster),
         mklow_hours_result (a_name att) (a_employee_id att) (r_team r) (a_date att)
           (r_schedule r) (a_net_office_time att)).
  set (joined := λ att,
         map (entry att)
           (List.filter (λ r, same_name_and_date att r && negb (shift_among codes r))
              (rosters st))).
  assert (∀ r, lookup_text excluded (r_schedule r) = shift_among codes r) as Hex.
  { intros r. unfold shift_among. destruct (r_schedule r); [apply Hcodes | done]. }
  assert (∀ r, r ∈ qs ↔ r ∈ rosters st
                        ∧ date__range start_date end_date (r_date r) = true
                        ∧ name__in (map a_name atts) (r_name r) = true
                        ∧ shift_among codes r = false) as Hqs.
  { intros r. unfold qs, low_hours_rosters.
    rewrite elem_of_bfilter, !andb_true_iff, negb_true_iff, Hex. tauto. }
  assert (join_low_hours (roster_map_of qs) atts = flat_map joined atts) as ->.
  { unfold join_low_hours. apply omap_flat_map. intros att Hatt.
    set (k := (a_name att, a_date att)).
    pose proof (proj1 (low_hour_attendances_elem _ _ _ _) Hatt) as (_ & Hdate & _).
    assert (∀ r, r ∈ List.filter (λ r, same_name_and_date att r
                                        && negb (shift_among codes r)) (rosters st)
                 ↔ r ∈ qs ∧ roster_key r = k) as Hjoin.
    { intros r. rewrite elem_of_bfilter, andb_true_iff, negb_true_iff,
        same_name_and_date_key, Hqs. fold k. split.
      - intros (Hr & ([n Hn] & Hk) & Hshift). split; [ | done].
        split; [done | ]. injection Hk as Hrn Hrd. split; [by rewrite Hrd | ].
        split; [ | done]. rewrite Hrn, Hn. cbn. apply bool_decide_eq_true_2.
        rewrite <- Hn. apply list_elem_of_fmap. by exists att.
      - intros ((Hr & _ & Hin & Hshift) & Hk). split; [done | ]. split; [ | done].
        split; [ | done]. injection Hk as Hrn _. rewrite <- Hrn.
        unfold name__in in Hin. by destruct (r_name r). }
    assert (length (List.filter (λ r, same_name_and_date att r
                                      && negb (shift_among codes r)) (rosters st))
            ≤ 1)%nat as Hlen.
    { etrans; [ | exact (Huniq k)]. unfold key_count. apply filter_length_mono.
      intros r [Hsame _]%andb_true_iff. apply bool_decide_eq_true_2.
      by apply same_name_and_date_key in Hsame as [_ ?]. }
    unfold joined.
    destruct (List.filter _ (rosters st)) as [ | r [ | r2 rest]] eqn:Hfilter.
    - destruct (roster_map_of qs !! k) as [r' | ] eqn:Hmap; [ | done].
      apply (proj1 (roster_map_of_lookup qs k)) in Hmap.
      apply Hjoin in Hmap. by apply elem_of_nil in Hmap.
    - assert (r ∈ qs ∧ roster_key r = k) as [Hr Hk] by (apply Hjoin; left).
      destruct (proj2 (roster_map_of_lookup qs k)) as [r' Hmap]; [by exists r | ].
      rewrite Hmap. pose proof (proj1 (roster_map_of_lookup qs k) r' Hmap) as Hr'.
      apply Hjoin, list_elem_of_singleton in Hr' as ->. done.
    - cbn [length] in Hlen. lia. }
  unfold low_hours_report. fold entry. fold joined.
  rewrite (filter_ext _ _ (under_worked_filter start_date end_date)).
  unfold atts, low_hour_attendances, order_by_date_name.
  apply Permutation_flat_map, sort_by_perm.
Qed.

(** C5. Over a resolved range and a roster store with one row per
    (name, date), the results of low_hours are, up to their order,
    exactly the attendance records dated within the range whose net
    office time is strictly less than 8:00:00, each once for the roster
    entry of the same name and date, provided the shift code of that
    entry is neither PL nor WO, whatever the case; non_pl_low_hours is
    the same with only PL excluded.  The count of each response is the
    number of its results. *)
Theorem low_hours_exact (request : query_params) (st : store)
    (start_date end_date : date) :
  _get_date_range request st = Ok (Some (start_date, end_date)) →
  (∀ k, (key_count roster_key k (rosters st) ≤ 1)%nat) →
  ∃ results results',
    _find_low_hours request st
    = Ok (Response (LowHours (length results) results) HTTP_200_OK)
    ∧ _find_non_pl_low_hours request st
      = Ok (Response (NonPlLowHours (length results') results') HTTP_200_OK)
    ∧ results ≡ₚ low_hours_report ["PL"; "WO"] st start_date end_date
    ∧ results' ≡ₚ low_hours_report ["PL"] st start_date end_date.
Proof.
  intros Hrange Huniq. unfold _find_low_hours, _find_non_pl_low_hours.
  rewrite Hrange. cbn [mbind result_bind].
  eexists _, _. split; [reflexivity | ]. split; [reflexivity | ].
  split; apply join_low_hours_report; try done.
  - intros s. unfold iexact. cbn [existsb upper]. by rewrite orb_false_r.
  - intros s. unfold iexact. cbn [existsb upper]. by rewrite orb_false_r.
Qed.

(** X10. Every day low_hours flags is flagged by non_pl_low_hours too;
    what the second flags beyond the first are days off (WO), and
    neither flags a day of paid leave (PL). *)
Theorem low_hours_within_non_pl (request : query_params) (st : store)
    (start_date end_date : date) :
  _get_date_range request st = Ok (Some (start_date, end_date)) →
  (∀ k, (key_count roster_key k (rosters st) ≤ 1)%nat) →
  ∃ results results',
    _find_low_hours request st
    = Ok (Response (LowHours (length results) results) HTTP_200_OK)
    ∧ _find_non_pl_low_hours request st
      = Ok (Response (NonPlLowHours (length results') results') HTTP_200_OK)
    ∧ (∀ e, e ∈ results → e ∈ results')
    ∧ (∀ e, e ∈ results' → e ∉ results →
            lookup_text (λ s, iexact s "WO") (lh_shift e) = true)
    ∧ (∀ e, e ∈ results → lookup_text (λ s, iexact s "WO") (lh_shift e) = false)
    ∧ (∀ e, e ∈ results' → lookup_text (λ s, iexact s "PL") (lh_shift e) = false).
Proof.
  intros Hrange Huniq. unfold _find_low_hours, _find_non_pl_low_hours.
  rewrite Hrange. cbn [mbind result_bind]. cbv zeta.
  eexists _, _. split; [reflexivity | ]. split; [reflexivity | ].
  pose proof (λ e, join_low_hours_exact (λ s, iexact s "PL" || iexact s "WO") st
                     start_date end_date e Huniq) as Hlow.
  pose proof (λ e, join_low_hours_exact (λ s, iexact s "PL") st
                     start_date end_date e Huniq) as Hnon.
  cbv zeta in Hlow, Hnon.
  assert (∀ v, lookup_text (λ s, iexact s "PL" || iexact s "WO") v
               = lookup_text (λ s, iexact s "PL") v
                 || lookup_text (λ s, iexact s "WO") v) as Hor.
  { by intros [v | ]. }
  split; [ | split; [ | split]].
  - intros e (att & r & Hatt & (Hr & Hn & Hname & Hdate & Hex) & ->)%Hlow.
    apply Hnon. exists att, r. split; [done | ]. split; [ | done].
    rewrite Hor in Hex. apply orb_false_elim in Hex as [Hpl _]. done.
  - intros e (att & r & Hatt & (Hr & Hn & Hname & Hdate & Hex) & ->)%Hnon Hnot.
    cbn [flagged lh_shift].
    destruct (lookup_text (λ s, iexact s "WO") (r_schedule r)) eqn:Hwo; [done | ].
    destruct Hnot. apply Hlow. exists att, r. split; [done | ]. split; [ | done].
    repeat (split; [done | ]). by rewrite Hor, Hex, Hwo.
  - intros e (att & r & _ & (_ & _ & _ & _ & Hex) & ->)%Hlow.
    cbn [flagged lh_shift]. rewrite Hor in Hex. by apply orb_false_elim in Hex as [_ ?].
  - intros e (att & r & _ & (_ & _ & _ & _ & Hex) & ->)%Hnon. done.
Qed.

(** X11. When a count request carries an employee id, its name query
    is not looked at: the answer is the same whatever [q] is. *)
Theorem count_id_overrides_query (request : query_params) (q' : option string)
    (st : store) (employee_id : string) :
  truthy (qp_id request) = Some employee_id →
  _perform_count
    (mkquery (qp_action request) q' (qp_id request) (qp_teamname request)
       (qp_shift request) (qp_start_date request) (qp_end_date request)) st
  = _perform_count request st.
Proof.
  intros Hid. unfold _perform_count, _get_date_range.
  cbn [qp_q qp_id qp_start_date qp_end_date]. rewrite Hid, !andb_false_r. done.
Qed.

(** X12. A date parameter that does not parse is not answered: the
    exception of the parser leaves [get], for every request but a count
    that names nobody, which is turned down with 400 before. *)
Theorem unparsable_date_escapes (request : query_params) (st : store)
    (start_date_str : string) (e : exn) :
  truthy (qp_start_date request) = Some start_date_str →
  to_datetime_query start_date_str = Raise e
  ∨ (∃ start_date end_date_str,
       to_datetime_query start_date_str = Ok start_date
       ∧ truthy (qp_end_date request) = Some end_date_str
       ∧ to_datetime_query end_date_str = Raise e) →
  (count_without_filter request →
   get request st = Ok (Response QueryRequired HTTP_400_BAD_REQUEST))
  ∧ (¬ count_without_filter request → get request st = Raise e).
Proof.
  intros Hs Hparse.
  assert (_get_date_range request st = Raise e) as Hrange.
  { unfold _get_date_range. rewrite Hs.
    destruct Hparse as [-> | (start_date & end_date_str & -> & -> & Hend)]; [done | ].
    cbn [mbind result_bind]. by rewrite Hend. }
  split.
  - intros (Hc & Hq & Hid). unfold get, _perform_count. by rewrite Hc, Hq, Hid.
  - intros Hcount. unfold get.
    destruct (action_is (qp_action request) "count") eqn:Hc.
    + unfold _perform_count.
      destruct (truthy (qp_q request)) as [query | ] eqn:Hq;
        destruct (truthy (qp_id request)) as [employee_id | ] eqn:Hid;
        try (by rewrite Hrange).
      destruct Hcount. done.
    + unfold _find_low_hours, _find_non_pl_low_hours, _perform_search.
      rewrite Hrange. by repeat case_match.
Qed.

Lemma NoDup_unique_from `{EqDecision A} (seen l : list A) : NoDup (unique_from seen l).
Proof.
  revert seen. induction l as [ | x l IH]; intros seen; cbn [unique_from].
  - apply NoDup_nil_2.
  - case_bool_decide; [apply IH | ]. apply NoDup_cons. split; [ | apply IH].
    intros [_ Hx]%unique_from_elem. apply Hx. left.
Qed.

Lemma count_employee_names (st : store) (rosters_query : list Roster)
    (start_date end_date : date) (names : list (option string)) :
  map cr_employee (map (count_employee st rosters_query start_date end_date) names)
  = names.
Proof. induction names as [ | n names IH]; [done | ]. cbn [map]. by rewrite IH. Qed.

(** X13. A count that answers with results answers 200 with at least
    one result, one for each employee and no employee twice, each over
    the resolved range; the employees are the names of the attendance
    records of the range that carry the id, or, without an id, the
    names of the roster entries of the range that contain every word of
    the query. *)
Theorem count_results_shape (request : query_params) (st : store)
    (results : list count_result) (s : Z) :
  _perform_count request st = Ok (Response (CountResults results) s) →
  s = HTTP_200_OK ∧ results ≠ [] ∧ NoDup (map cr_employee results)
  ∧ ∃ start_date end_date,
      _get_date_range request st = Ok (Some (start_date, end_date))
      ∧ (∀ c, c ∈ results →
              cr_period_start c = start_date ∧ cr_period_end c = end_date)
      ∧ (∀ employee_id name,
           truthy (qp_id request) = Some employee_id →
           name ∈ map cr_employee results
           ↔ ∃ a, a ∈ attendances st ∧ a_name a = name
                  ∧ date__range start_date end_date (a_date a) = true
                  ∧ lookup_text (λ v, iexact v employee_id) (a_employee_id a) = true)
      ∧ (∀ query name,
           truthy (qp_id request) = None → truthy (qp_q request) = Some query →
           name ∈ map cr_employee results
           ↔ ∃ r, r ∈ rosters st ∧ r_name r = name
                  ∧ date__range start_date end_date (r_date r) = true
                  ∧ ∀ word, word ∈ split query →
                            lookup_text (λ n, icontains n word) (r_name r) = true).
Proof.
  unfold _perform_count.
  destruct (truthy (qp_q request)) as [query | ] eqn:Hq;
    destruct (truthy (qp_id request)) as [employee_id | ] eqn:Hid;
    cbn [bool_decide decide_rel andb]; rewrite ?andb_false_r, ?andb_false_l; try done;
    (destruct (_get_date_range request st) as [[[start_date end_date] | ] | e];
     cbn [mbind result_bind]; [ | done | done]);
    (case_bool_decide as Hnames; [done | ]); intros [= <- <-];
    (split; [done | ]);
    (split; [intros Hnil; apply Hnames; apply (f_equal (map cr_employee)) in Hnil;
             by rewrite count_employee_names in Hnil | ]);
    rewrite count_employee_names;
    (split; [apply NoDup_unique_from | ]);
    exists start_date, end_date; (split; [done | ]);
    (split; [by intros c (n & -> & _)%list_elem_of_fmap | ]).
  - split; [ | intros ? ? H; discriminate H]. intros ? name [= <-].
    unfold names_with_id, distinct. rewrite unique_elem, list_elem_of_fmap. split.
    + intros (a & -> & [Ha [Hi Hr]%andb_true_iff]%elem_of_bfilter). by exists a.
    + intros (a & Ha & <- & Hr & Hi). exists a. split; [done | ].
      apply elem_of_bfilter. split; [done | ]. by rewrite Hi, Hr.
  - split; [intros ? ? H; discriminate H | ]. intros ? name _ [= <-].
    unfold distinct. rewrite unique_elem, list_elem_of_fmap. split.
    + intros (r & -> & [[Hr Hin]%elem_of_bfilter Hw]%filter_words_elem). by exists r.
    + intros (r & Hr & <- & Hin & Hw). exists r. split; [done | ].
      apply filter_words_elem. split; [ | done]. by apply elem_of_bfilter.
  - split; [ | intros ? ? H; discriminate H]. intros ? name [= <-].
    unfold names_with_id, distinct. rewrite unique_elem, list_elem_of_fmap. split.
    + intros (a & -> & [Ha [Hi Hr]%andb_true_iff]%elem_of_bfilter). by exists a.
    + intros (a & Ha & <- & Hr & Hi). exists a. split; [done | ].
      apply elem_of_bfilter. split; [done | ]. by rewrite Hi, Hr.
Qed.

(** A dict filled from a list of rows under their keys. *)
Lemma map_of_lookup {R} (key_of : R → key) (qs : list R) (k : key) :
  (∀ r, foldl (λ (m : gmap key R) r, <[key_of r := r]> m) ∅ qs !! k = Some r
        → r ∈ qs ∧ key_of r = k)
  ∧ ((∃ r, r ∈ qs ∧ key_of r = k)
     → is_Some (foldl (λ (m : gmap key R) r, <[key_of r := r]> m) ∅ qs !! k)).
Proof.
  assert (∀ m : gmap key R,
            (∀ r, foldl (λ m r, <[key_of r := r]> m) m qs !! k = Some r
                  → m !! k = Some r ∨ (r ∈ qs ∧ key_of r = k))
            ∧ (is_Some (m !! k) ∨ (∃ r, r ∈ qs ∧ key_of r = k)
               → is_Some (foldl (λ m r, <[key_of r := r]> m) m qs !! k))) as H.
  { induction qs as [ | x qs IH]; intros m; cbn [foldl].
    - split; [by left | ]. intros [? | (r & ?%elem_of_nil & _)]; done.
    - destruct (IH (<[key_of x := x]> m)) as [IH1 IH2]. split.
      + intros r [Hm | [Hr Hk]]%IH1; [ | right; split; [by right | done]].
        destruct (decide (key_of x = k)) as [Heq | Hne].
        * rewrite <- Heq, lookup_insert_eq in Hm. injection Hm as <-.
          right. split; [left | done].
        * rewrite lookup_insert_ne in Hm by done. by left.
      + intros Hor. apply IH2. destruct (decide (key_of x = k)) as [Heq | Hne].
        * left. rewrite <- Heq, lookup_insert_eq. by eexists.
        * rewrite lookup_insert_ne by done.
          destruct Hor as [? | (r & [-> | Hr]%elem_of_cons & Hk)]; [by left | done | ].
          right. by exists r. }
  destruct (H ∅) as [H1 H2]. split.
  - intros r [Hm | ?]%H1; [by rewrite lookup_empty in Hm | done].
  - intros Hex. apply H2. by right.
Qed.

(** X14. In a search result the attendance fields are those of the
    attendance record of the same name and date, and they are all null
    when the store has no such record. *)
Theorem search_attendance_join (request : query_params) (st : store)
    (start_date end_date : date) :
  _get_date_range request st = Ok (Some (start_date, end_date)) →
  (∀ k, (key_count attendance_key k (attendances st) ≤ 1)%nat) →
  ∃ results,
    _perform_search request st = Ok (Response (SearchResults results) HTTP_200_OK)
    ∧ ∀ e, e ∈ results →
           (∀ a, a ∈ attendances st → is_Some (a_name a) →
                 attendance_key a = (sr_name e, sr_date e) → joined_to e (Some a))
           ∧ ((∀ a, a ∈ attendances st → is_Some (a_name a) →
                    attendance_key a ≠ (sr_name e, sr_date e))
              → joined_to e None).
Proof.
  intros Hrange Huniq. eexists. split; [by apply search_pipeline | ].
  cbv zeta. set (rs := selected_rosters request st start_date end_date).
  set (data := List.filter _ (attendances st)).
  assert (∀ a, a ∈ data ↔ a ∈ attendances st
                          ∧ name__in (distinct (map r_name rs)) (a_name a) = true
                          ∧ date__range start_date end_date (a_date a) = true) as Hdata.
  { intros a. unfold data. by rewrite elem_of_bfilter, andb_true_iff. }
  intros e (r & -> & Hr)%list_elem_of_fmap. cbn [sr_name sr_date].
  assert (date__range start_date end_date (r_date r) = true) as Hin.
  { unfold rs, selected_rosters, order_by_date_name in Hr.
    apply elem_of_sort_by, elem_of_bfilter in Hr as [_ Hsel].
    unfold search_selects in Hsel. by apply andb_true_iff in Hsel as [[? _]%andb_true_iff _]. }
  pose proof (map_of_lookup attendance_key data (r_name r, r_date r)) as [Hfound Hfind].
  change (foldl _ ∅ data) with (attendance_map_of data) in Hfound, Hfind.
  split.
  - intros a Ha [n Hn] Hkey.
    assert (a ∈ data) as Had.
    { apply Hdata. unfold attendance_key in Hkey. injection Hkey as Hkn Hkd.
      split; [done | ]. split; [ | by rewrite Hkd].
      rewrite Hn. cbn [name__in]. apply bool_decide_eq_true_2.
      unfold distinct. apply unique_elem, list_elem_of_fmap. exists r.
      split; [congruence | done]. }
    destruct Hfind as [a' Hmap]; [by exists a | ].
    destruct (Hfound a' Hmap) as [Ha' Hkey'].
    assert (a' = a) as ->.
    { eapply (unique_key_eq attendance_key); [apply Huniq | | done | exact Hkey' | done].
      by apply Hdata in Ha' as [? _]. }
    unfold joined_to. cbv beta zeta.
    cbn [sr_employee_id sr_department sr_first_in sr_last_out sr_gross_time
         sr_out_of_office_time sr_out_of_office_count sr_net_office_time].
    by rewrite Hmap.
  - intros Hnone.
    destruct (attendance_map_of data !! (r_name r, r_date r)) as [a' | ] eqn:Hmap.
    + destruct (Hfound a' eq_refl) as [(Ha' & Hname & _)%Hdata Hkey'].
      destruct (Hnone a' Ha'); [ | done].
      unfold name__in in Hname. by destruct (a_name a').
    + done.
Qed.

Lemma forallb_same_elements {A} (f : A → bool) (l1 l2 : list A) :
  (∀ x, x ∈ l1 ↔ x ∈ l2) → forallb f l1 = forallb f l2.
Proof.
  intros Hsame. apply eq_true_iff_eq. rewrite !forallb_forall.
  split; intros H x Hx%list_elem_of_In; apply H, list_elem_of_In, Hsame, Hx.
Qed.

Lemma truthy_words (q : string) (f : string → bool) :
  match truthy (Some q) with
  | Some q' => forallb f (split q')
  | None => true
  end = forallb f (split q).
Proof.
  cbn [truthy]. destruct (String.eqb q "") eqn:E; [ | done].
  by apply String.eqb_eq in E as ->.
Qed.

(** X15. A search looks at the words of the name query as a set: two
    queries with the same words, in whatever order and however often,
    get the same answer. *)
Theorem search_query_as_word_set (request : query_params) (q1 q2 : string)
    (st : store) :
  (∀ word, word ∈ split q1 ↔ word ∈ split q2) →
  _perform_search
    (mkquery (qp_action request) (Some q1) (qp_id request) (qp_teamname request)
       (qp_shift request) (qp_start_date request) (qp_end_date request)) st
  = _perform_search
      (mkquery (qp_action request) (Some q2) (qp_id request) (qp_teamname request)
         (qp_shift request) (qp_start_date request) (qp_end_date request)) st.
Proof.
  intros Hsame.
  set (r1 := mkquery _ (Some q1) _ _ _ _ _). set (r2 := mkquery _ (Some q2) _ _ _ _ _).
  assert (_get_date_range r1 st = _get_date_range r2 st) as Hrange by reflexivity.
  destruct (_get_date_range r2 st) as [[[start_date end_date] | ] | e] eqn:Hr2.
  - rewrite (search_pipeline r1 st _ _ Hrange), (search_pipeline r2 st _ _ Hr2).
    cbv zeta.
    assert (selected_rosters r1 st start_date end_date
            = selected_rosters r2 st start_date end_date) as ->; [ | done].
    unfold selected_rosters. f_equal. apply filter_ext. intros r.
    unfold search_selects, passes_filters. cbn [r1 r2 qp_q qp_id qp_teamname qp_shift].
    rewrite !truthy_words. by rewrite (forallb_same_elements _ _ _ Hsame).
  - unfold _perform_search. by rewrite Hrange, Hr2.
  - unfold _perform_search. by rewrite Hrange, Hr2.
Qed.

(** *** The order of the results *)

Lemma HdRel_insert_by {A} (leb : A → A → bool) (a x : A) (l : list A) :
  HdRel (λ x y, leb x y = true) a l → leb a x = true →
  HdRel (λ x y, leb x y = true) a (insert_by leb x l).
Proof.
  intros Hl Hax. destruct l as [ | y l]; cbn [insert_by]; [by constructor | ].
  destruct (leb x y); constructor; [done | by inversion Hl].
Qed.

Lemma Sorted_insert_by {A} (leb : A → A → bool) (x : A) (l : list A) :
  (∀ x y, leb x y = false → leb y x = true) →
  Sorted (λ x y, leb x y = true) l → Sorted (λ x y, leb x y = true) (insert_by leb x l).
Proof.
  intros Htotal. induction 1 as [ | y l Hs IH Hhd]; cbn [insert_by].
  - by repeat constructor.
  - destruct (leb x y) eqn:E.
    + constructor; [by constructor | by constructor].
    + constructor; [done | ]. apply HdRel_insert_by; [done | by apply Htotal].
Qed.

Lemma Sorted_sort_by {A} (leb : A → A → bool) (l : list A) :
  (∀ x y, leb x y = false → leb y x = true) →
  Sorted (λ x y, leb x y = true) (sort_by leb l).
Proof.
  intros Htotal. unfold sort_by. induction l as [ | x l IH]; cbn [foldr].
  - constructor.
  - by apply Sorted_insert_by.
Qed.

Lemma Sorted_weaken {A} (R R' : A → A → Prop) (l : list A) :
  (∀ x y, R x y → R' x y) → Sorted R l → Sorted R' l.
Proof.
  intros Himpl. induction 1 as [ | x l Hs IH Hhd]; constructor; [done | ].
  destruct Hhd; constructor. by apply Himpl.
Qed.

Lemma date_leb_refl (d : date) : date_leb d d = true.
Proof. only_stated. apply date_leb_le. lia. Qed.

Lemma date_leb_trans (a b c : date) :
  date_leb a b = true → date_leb b c = true → date_leb a c = true.
Proof. only_stated. rewrite !date_leb_le. lia. Qed.

Lemma date_ltb_leb (a b : date) : date_ltb a b = true → date_leb a b = true.
Proof. only_stated. rewrite date_ltb_lt, date_leb_le. lia. Qed.

Lemma name_leb_total (a b : option string) : name_leb a b = false → name_leb b a = true.
Proof.
  destruct a as [x | ], b as [y | ]; cbn [name_leb]; try done.
  intros Hxy. destruct (String.leb_total x y) as [H | H]; congruence.
Qed.

(** [order_by('date', 'name')] puts the rows in the order of their
    dates. *)
Lemma order_by_date_name_sorted {A} (date_of : A → date) (name_of : A → option string)
    (l : list A) :
  StronglySorted (λ x y, date_leb (date_of x) (date_of y) = true)
    (order_by_date_name date_of name_of l).
Proof.
  only_stated. apply Sorted_StronglySorted.
  { intros x y z. apply date_leb_trans. }
  unfold order_by_date_name.
  eapply Sorted_weaken; [ | apply Sorted_sort_by].
  - cbv beta. intros x y [Hlt | [Heq _]%andb_true_iff]%orb_true_iff.
    + by apply date_ltb_leb.
    + apply bool_decide_eq_true_1 in Heq. rewrite Heq. apply date_leb_refl.
  - cbv beta. intros x y [Hlt Hname]%orb_false_elim.
    destruct (date_ltb (date_of y) (date_of x)) eqn:Hgt; [done | ].
    assert (date_of x = date_of y) as Heq.
    { apply date_leb_antisym; unfold date_leb; by rewrite ?Hlt, ?Hgt. }
    rewrite Heq in Hname |- *. rewrite bool_decide_eq_true_2 in Hname |- * by done.
    cbn [andb orb] in Hname |- *. by apply name_leb_total.
Qed.

Lemma StronglySorted_omap {A B} (RA : A → A → Prop) (RB : B → B → Prop)
    (f : A → option B) (l : list A) :
  (∀ x1 x2 y1 y2, RA x1 x2 → f x1 = Some y1 → f x2 = Some y2 → RB y1 y2) →
  StronglySorted RA l → StronglySorted RB (omap f l).
Proof.
  intros Hf. induction 1 as [ | x l Hs IH Hall]; cbn [omap list_omap]; [constructor | ].
  destruct (f x) as [y | ] eqn:Hy; [ | done]. constructor; [done | ].
  apply Forall_forall. intros y' (x' & Hx' & Hy')%list_elem_of_omap.
  eapply Hf; [ | done | done]. rewrite Forall_forall in Hall. by apply Hall.
Qed.

Lemma join_search_sorted (attendance_map : gmap key Attendance) (qs : list Roster) :
  StronglySorted (λ x y, date_leb (r_date x) (r_date y) = true) qs →
  StronglySorted (λ e1 e2, date_leb (sr_date e1) (sr_date e2) = true)
    (join_search attendance_map qs).
Proof.
  unfold join_search.
  induction 1 as [ | r rs Hs IH Hall]; cbn [map]; [constructor | ].
  constructor; [done | ].
  apply Forall_forall. intros e (r' & -> & Hr')%list_elem_of_fmap.
  cbn [sr_date]. rewrite Forall_forall in Hall. by apply Hall.
Qed.

(** X16. The results of a search and of both low-hours actions come in
    the order of their dates. *)
Theorem results_in_date_order (request : query_params) (st : store)
    (start_date end_date : date) :
  _get_date_range request st = Ok (Some (start_date, end_date)) →
  ∃ found low low',
    _perform_search request st = Ok (Response (SearchResults found) HTTP_200_OK)
    ∧ _find_low_hours request st = Ok (Response (LowHours (length low) low) HTTP_200_OK)
    ∧ _find_non_pl_low_hours request st
      = Ok (Response (NonPlLowHours (length low') low') HTTP_200_OK)
    ∧ StronglySorted (λ e1 e2, date_leb (sr_date e1) (sr_date e2) = true) found
    ∧ StronglySorted (λ e1 e2, date_leb (lh_date e1) (lh_date e2) = true) low
    ∧ StronglySorted (λ e1 e2, date_leb (lh_date e1) (lh_date e2) = true) low'.
Proof.
  intros Hrange. eexists _, _, _.
  split; [by apply search_pipeline | ].
  unfold _find_low_hours, _find_non_pl_low_hours. rewrite Hrange.
  cbn [mbind result_bind]. cbv zeta.
  split; [reflexivity | ]. split; [reflexivity | ].
  assert (∀ m, StronglySorted (λ e1 e2, date_leb (lh_date e1) (lh_date e2) = true)
                 (join_low_hours m (low_hour_attendances st start_date end_date)))
    as Hlow.
  { intros m. unfold join_low_hours.
    eapply StronglySorted_omap; [ | apply (order_by_date_name_sorted a_date a_name)].
    cbv beta. intros a1 a2 e1 e2 Hle H1 H2.
    destruct (m !! (a_name a1, a_date a1)); [ | done].
    destruct (m !! (a_name a2, a_date a2)); [ | done].
    cbn in H1, H2. by injection H1 as <-; injection H2 as <-. }
  split; [ | by split].
  apply join_search_sorted. apply order_by_date_name_sorted.
Qed.

(** *** The case of the parameters *)

Lemma upper_ascii_idem (c : ascii) : upper_ascii (upper_ascii c) = upper_ascii c.
Proof. by destruct c as [[] [] [] [] [] [] [] []]. Qed.

Lemma is_space_upper (c : ascii) : is_space (upper_ascii c) = is_space c.
Proof. by destruct c as [[] [] [] [] [] [] [] []]. Qed.

Lemma upper_idem (s : string) : upper (upper s) = upper s.
Proof.
  induction s as [ | c s IH]; [done | ]. cbn [upper]. by rewrite upper_ascii_idem, IH.
Qed.

Lemma upper_app (s t : string) : upper (s +:+ t) = upper s +:+ upper t.
Proof.
  induction s as [ | c s IH]; [done | ].
  change (upper (String c s +:+ t)) with (String (upper_ascii c) (upper (s +:+ t))).
  by rewrite IH.
Qed.

Lemma split_from_upper (word s : string) :
  split_from (upper word) (upper s) = map upper (split_from word s).
Proof.
  assert (∀ w, String.eqb (upper w) "" = String.eqb w "") as Hempty.
  { by intros [ | c w]. }
  revert word. induction s as [ | c s IH]; intros word; cbn [upper split_from].
  - rewrite Hempty. by destruct (String.eqb word "").
  - rewrite is_space_upper, Hempty. destruct (is_space c).
    + pose proof (IH "") as IH0. change (upper "") with "" in IH0. rewrite IH0.
      by destruct (String.eqb word "").
    + change (String (upper_ascii c) "") with (upper (String c "")).
      by rewrite <- upper_app, IH.
Qed.

Lemma iexact_upper (v p : string) : iexact v (upper p) = iexact v p.
Proof. unfold iexact. by rewrite upper_idem. Qed.

Lemma icontains_upper (n word : string) : icontains n (upper word) = icontains n word.
Proof. unfold icontains. by rewrite upper_idem. Qed.

Lemma truthy_upper (o : option string) : truthy (upper <$> o) = upper <$> truthy o.
Proof.
  destruct o as [[ | c s] | ]; [done | | done]. cbn [fmap option_fmap option_map truthy].
  done.
Qed.

Lemma names_with_id_upper (st : store) (start_date end_date : date) (employee_id : string) :
  names_with_id st start_date end_date (upper employee_id)
  = names_with_id st start_date end_date employee_id.
Proof.
  unfold names_with_id. do 2 f_equal. apply filter_ext. intros a.
  f_equal. destruct (a_employee_id a); [apply iexact_upper | done].
Qed.

(** X17. A search does not look at the case of its parameters: the
    employee id, the team, the shift and the words of the name can be
    sent in capitals without changing the answer. *)
Theorem search_ignores_case (request : query_params) (st : store) :
  _perform_search
    (mkquery (qp_action request) (upper <$> qp_q request) (upper <$> qp_id request)
       (upper <$> qp_teamname request) (upper <$> qp_shift request)
       (qp_start_date request) (qp_end_date request)) st
  = _perform_search request st.
Proof.
  set (r1 := mkquery _ _ _ _ _ _ _).
  assert (_get_date_range r1 st = _get_date_range request st) as Hrange by reflexivity.
  destruct (_get_date_range request st) as [[[start_date end_date] | ] | e] eqn:Hr;
    [ | unfold _perform_search; by rewrite Hrange, Hr ..].
  rewrite (search_pipeline r1 st _ _ Hrange), (search_pipeline request st _ _ Hr).
  cbv zeta.
  assert (selected_rosters r1 st start_date end_date
          = selected_rosters request st start_date end_date) as ->; [ | done].
  unfold selected_rosters. f_equal. apply filter_ext. intros r.
  unfold search_selects, passes_filters. cbn [r1 qp_q qp_id qp_teamname qp_shift].
  rewrite !truthy_upper. f_equal; [f_equal | f_equal; [f_equal | ]].
  - destruct (truthy (qp_id request)) as [employee_id | ]; [ | done].
    cbn [fmap option_fmap option_map]. by rewrite names_with_id_upper.
  - destruct (truthy (qp_teamname request)) as [t | ]; [ | done].
    cbn [fmap option_fmap option_map].
    destruct (r_team r); [apply iexact_upper | done].
  - destruct (truthy (qp_q request)) as [q | ]; [ | done].
    cbn [fmap option_fmap option_map]. unfold split.
    pose proof (split_from_upper "" q) as Hsplit. change (upper "") with "" in Hsplit.
    rewrite Hsplit. clear Hsplit.
    assert (∀ word, lookup_text (λ n, icontains n (upper word)) (r_name r)
                    = lookup_text (λ n, icontains n word) (r_name r)) as Hword.
    { intros word. destruct (r_name r); [apply icontains_upper | done]. }
    induction (split_from "" q) as [ | word words IH]; [done | ].
    cbn [map forallb]. by rewrite Hword, IH.
  - destruct (truthy (qp_shift request)) as [s | ]; [ | done].
    cbn [fmap option_fmap option_map].
    destruct (r_schedule r); [apply iexact_upper | done].
Qed.

(** ** Further properties of the two ingestors *)

Lemma attendance_record_Some (row : attendance_row) (name : option string)
    (a : Attendance) :
  attendance_record (row, name) = Ok (Some a)
  ↔ isna (attendance_date row) = false
    ∧ ∃ first_in' last_out' gross_time' out_of_office_time' net_office_time',
        to_safe_time (first_in row) = Ok first_in'
        ∧ to_safe_time (last_out row) = Ok last_out'
        ∧ to_safe_time (gross_time row) = Ok gross_time'
        ∧ to_safe_time (out_of_office_time row) = Ok out_of_office_time'
        ∧ to_safe_time (net_office_time row) = Ok net_office_time'
        ∧ a = mkAttendance name
                (match to_datetime_dayfirst (attendance_date row) with
                 | Some date => date
                 | None => NaT
                 end)
                (ads_id row) (user_type row) (designation row)
                (department row) (location row) first_in' last_out' gross_time'
                out_of_office_time' (out_of_office_count row) net_office_time'.
Proof.
  unfold attendance_record, mbind, result_bind, date_column.
  destruct (isna (attendance_date row));
    [split; [done | by intros [? _]] | ].
  assert (negb (date_truth (to_datetime_dayfirst (attendance_date row))) = false) as ->.
  { by destruct (to_datetime_dayfirst (attendance_date row)). }
  destruct (to_safe_time (first_in row)) as [fi | ];
    destruct (to_safe_time (last_out row)) as [lo | ];
    destruct (to_safe_time (gross_time row)) as [gt | ];
    destruct (to_safe_time (out_of_office_time row)) as [oo | ];
    destruct (to_safe_time (net_office_time row)) as [nt | ];
    (split;
     [first [done | intros [= <-]; (split; [done | ]); by eexists _, _, _, _, _]
     | intros [_ (? & ? & ? & ? & ? & H1 & H2 & H3 & H4 & H5 & ->)];
       first [done | congruence]]).
Qed.

(** X18. Every attendance record an upload writes holds what its row
    of the sheet holds: the canonical name of the row's raw name, the
    date the row's date cell parses to, or NaT when it does not parse,
    its five times as [to_safe_time] returns them, and its other cells
    as they are. *)
Theorem attendance_writes_from_rows (request : upload_request) (st : store)
    (a : Attendance) :
  a ∈ attendances (post request st).1 →
  a ∈ attendances st
  ∨ ∃ roster_df attendance_df row raw n first_in' last_out' gross_time'
      out_of_office_time' net_office_time',
      roster_file request = Some roster_df
      ∧ attendance_file request = Some attendance_df
      ∧ row ∈ attendance_df
      ∧ name_in_attendance row = Some raw
      ∧ name_map_of roster_df attendance_df !! raw = Some n
      ∧ isna (attendance_date row) = false
      ∧ to_safe_time (first_in row) = Ok first_in'
      ∧ to_safe_time (last_out row) = Ok last_out'
      ∧ to_safe_time (gross_time row) = Ok gross_time'
      ∧ to_safe_time (out_of_office_time row) = Ok out_of_office_time'
      ∧ to_safe_time (net_office_time row) = Ok net_office_time'
      ∧ a = mkAttendance (Some n)
              (match to_datetime_dayfirst (attendance_date row) with
               | Some date => date
               | None => NaT
               end)
              (ads_id row) (user_type row) (designation row)
              (department row) (location row) first_in' last_out' gross_time'
              out_of_office_time' (out_of_office_count row) net_office_time'.
Proof.
  rewrite post_store.
  destruct (roster_file request) as [roster_df | ]; [ | by left].
  destruct (attendance_file request) as [attendance_df | ]; [ | by left].
  destruct (first_valid_date attendance_df) as [first | ] eqn:Hfirst;
    [ | rewrite ingest_unchanged by (by left); by left].
  destruct (decide ("name" ∈ columns roster_df)) as [Hname | Hname];
    [ | rewrite ingest_unchanged by (by right); by left].
  destruct (ingest_tables roster_df attendance_df st first Hfirst Hname)
    as [_ [-> | [_ ->]]]; [by left | ].
  intros [? | Hop]%elem_of_upsert_all; [by left | right].
  apply attendance_ops_elem in Hop as ([row name] & Hnr & Hrec).
  apply matched_attendance_elem in Hnr as (Hrow & raw & n & Hraw & Hmap & ->).
  apply attendance_record_Some in Hrec
    as (Hna & fi & lo & gt & oo & nt & H1 & H2 & H3 & H4 & H5 & ->).
  exists roster_df, attendance_df, row, raw, n, fi, lo, gt, oo, nt. done.
Qed.

(** X19. An upload that answers 201 names, in its message, the year
    and the month of the first date of the attendance sheet that
    parses. *)
Theorem post_created (request : upload_request) (st : store) (b : body) :
  (post request st).2 = Ok (Response b HTTP_201_CREATED) →
  ∃ roster_df attendance_df first,
    roster_file request = Some roster_df
    ∧ attendance_file request = Some attendance_df
    ∧ first_valid_date attendance_df = Some first
    ∧ "name" ∈ columns roster_df
    ∧ b = ProcessedSuccessfully (year first) (month first).
Proof.
  unfold post.
  destruct (roster_file request) as [roster_df | ]; [ | done].
  destruct (attendance_file request) as [attendance_df | ]; [ | done].
  unfold try_except, mbind, db_bind, mret, db_ret.
  rewrite process_files_ingest. unfold ingest.
  destruct (first_valid_date attendance_df) as [first | ] eqn:Hfirst; [ | done].
  case_bool_decide as Hname; [ | done].
  unfold mbind, db_bind, mret, db_ret.
  destruct (run_roster _ st) as [st1 [[] | e1]]; [ | done].
  destruct (run_attendance _ st1) as [st2 [[] | e2]]; [ | done].
  cbn. intros [= <-]. by exists roster_df, attendance_df, first.
Qed.

Lemma elem_of_put_self {R} (key_of : R → key) (row : R) (table : list R) :
  row ∈ put key_of row table.
Proof.
  unfold put. case_bool_decide as Hk.
  - apply list_elem_of_fmap in Hk as (r & Hr & Hin).
    apply list_elem_of_fmap. exists r. split; [ | done].
    unfold replace_row. by rewrite bool_decide_eq_true_2.
  - apply elem_of_app. right. left.
Qed.

Lemma put_all_app {R} (key_of : R → key) (rows1 rows2 : list R) (table : list R) :
  put_all key_of (rows1 ++ rows2) table
  = put_all key_of rows2 (put_all key_of rows1 table).
Proof. unfold put_all. apply foldl_app. Qed.

Lemma written_app_all {R} (key_of : R → key) (ok : key → bool) (rows : list R)
    (ops : list (result R)) :
  (∀ k, ok k = true) →
  written key_of ok (map Ok rows ++ ops) = rows ++ written key_of ok ops
  ∧ outcome key_of ok (map Ok rows ++ ops) = outcome key_of ok ops.
Proof.
  intros Hok. induction rows as [ | row rows [IH1 IH2]]; [done | ].
  cbn [map app written outcome]. rewrite Hok, IH1, IH2. done.
Qed.

Lemma written_of_no_raise {R} (key_of : R → key) (ok : key → bool)
    (ops : list (result R)) :
  (∀ k, ok k = true) → (∀ e, Raise e ∉ ops) →
  map Ok (written key_of ok ops) = ops.
Proof.
  intros Hok. induction ops as [ | [row | e] ops IH]; intros Hraise; [done | | ].
  - cbn [written]. rewrite Hok. cbn [map]. rewrite IH; [done | ].
    intros e He. apply (Hraise e). by right.
  - destruct (Hraise e). left.
Qed.

(** X20. When two cells of a roster sheet are written under the same
    name and date, the store ends up with the later one: when no cell
    before a written record raises, the row of its key is the last
    record the ingestion wrote under it. *)
Theorem roster_last_write_wins (df : roster_sheet) (year month : Z) (st : store)
    (ops1 ops2 : list (result Roster)) (r : Roster) :
  (∀ k, (key_count roster_key k (rosters st) ≤ 1)%nat) →
  roster_ops df year month = ops1 ++ Ok r :: ops2 →
  (∀ e, Raise e ∉ ops1) →
  (∀ r', Ok r' ∈ ops2 → roster_key r' ≠ roster_key r) →
  let st' := (_process_roster_data df year month st).1 in
  r ∈ rosters st'
  ∧ ∀ r', r' ∈ rosters st' → roster_key r' = roster_key r → r' = r.
Proof.
  intros Huniq Hops Hraise Hlast. cbv zeta.
  rewrite _process_roster_data_ops, run_roster_rosters.
  assert (∀ k, writable roster_key (rosters st) k = true) as Hok.
  { intros k. by apply bool_decide_eq_true_2. }
  assert (r ∈ (upsert_all roster_key (roster_ops df year month) (rosters st)).1) as Hin.
  { rewrite upsert_all_written. cbn [fst]. rewrite Hops.
    rewrite <- (written_of_no_raise roster_key _ ops1 Hok Hraise) at 1.
    destruct (written_app_all roster_key (writable roster_key (rosters st))
                (written roster_key (writable roster_key (rosters st)) ops1)
                (Ok r :: ops2) Hok) as [-> _].
    cbn [written]. rewrite Hok, put_all_app.
    change (put_all roster_key (r :: ?w2) ?t)
      with (put_all roster_key w2 (put roster_key r t)).
    apply elem_of_put_all_other; [apply elem_of_put_self | ].
    intros r' Hr' Hk. apply (Hlast r'); [ | done].
    by apply elem_of_written in Hr'. }
  split; [exact Hin | ]. intros r' Hr' Hk.
  eapply (unique_key_eq roster_key); [ | exact Hr' | exact Hin | exact Hk | done].
  pose proof (upsert_all_writable roster_key (roster_ops df year month) (rosters st)
                (roster_key r)) as Hwr.
  rewrite Hok in Hwr. by apply bool_decide_eq_true_1 in Hwr.
Qed.

(** X21. Attendance ingestion has no transaction: when the record of a
    row raises, the rows before it are written, the rows after it are
    not looked at, and the exception leaves the ingestor. *)
Theorem attendance_ingestion_stops (before after : list named_row) (nr : named_row)
    (records : list Attendance) (e : exn) (st : store) :
  (∀ k, (key_count attendance_key k (attendances st) ≤ 1)%nat) →
  Forall2 (λ nr a, attendance_record nr = Ok (Some a)) before records →
  attendance_record nr = Raise e →
  _process_attendance_data (before ++ nr :: after) st
  = (mkstore (rosters st) (put_all attendance_key records (attendances st)), Raise e).
Proof.
  intros Huniq Hbefore Hnr. rewrite _process_attendance_data_ops.
  assert (attendance_ops (before ++ nr :: after)
          = map Ok records ++ Raise e :: attendance_ops after) as ->.
  { unfold attendance_ops. rewrite flat_map_app. cbn [flat_map]. f_equal.
    - induction Hbefore as [ | nr' a before' records' Ha _ IH]; [done | ].
      cbn [flat_map map]. unfold attendance_row_ops at 1. by rewrite Ha, IH.
    - unfold attendance_row_ops at 1. by rewrite Hnr. }
  unfold run_attendance. rewrite upsert_all_written.
  destruct (written_app_all attendance_key (writable attendance_key (attendances st))
              records (Raise e :: attendance_ops after)) as [-> ->].
  { intros k. by apply bool_decide_eq_true_2. }
  cbn [written outcome]. by rewrite app_nil_r.
Qed.

End Billing.

(** * The properties on the sample month *)

Lemma persisted_names_canonical_witness :
  let st' := (post ex_ratio ex_time ex_day ex_series ex_upload empty_store).1 in
  let r := mkRoster (Some "John Doe") (mkdate 2024 3 1) (Some "T1") (Some "WFO-M") in
  let a := mkAttendance (Some "John Doe") (mkdate 2024 3 1) (Some "E1")
             (Some "Employee") (Some "Engineer") (Some "Billing") (Some "Pune")
             (Some (mktime 9 30 0 0)) None None None (Some 2)
             (Some (mktime 7 59 0 0)) in
  (r ∈ rosters st'
   ∧ (r ∈ rosters empty_store
      ∨ ∃ roster_df n,
          roster_file ex_upload = Some roster_df
          ∧ r_name r = Some n ∧ n ∈ roster_names_of roster_df))
  ∧ (a ∈ attendances st'
     ∧ (a ∈ attendances empty_store
        ∨ ∃ roster_df attendance_df row raw n,
            roster_file ex_upload = Some roster_df
            ∧ attendance_file ex_upload = Some attendance_df
            ∧ row ∈ attendance_df
            ∧ name_in_attendance row = Some raw
            ∧ name_map_of ex_ratio roster_df attendance_df !! raw = Some n
            ∧ (90 <= ex_ratio raw n)%Q
            ∧ attendance_record ex_time ex_day (row, Some n) = Ok (Some a)
            ∧ a_name a = Some n ∧ n ∈ roster_names_of roster_df)).
Proof.
  cbv zeta.
  destruct (persisted_names_canonical ex_ratio ex_time ex_day ex_series ex_upload
              empty_store) as [Hr Ha].
  split.
  - assert (mkRoster (Some "John Doe") (mkdate 2024 3 1) (Some "T1") (Some "WFO-M")
            ∈ rosters (post ex_ratio ex_time ex_day ex_series ex_upload empty_store).1)
      as Hin by (vm_compute; left).
    split; [exact Hin | exact (Hr _ Hin)].
  - assert (mkAttendance (Some "John Doe") (mkdate 2024 3 1) (Some "E1")
              (Some "Employee") (Some "Engineer") (Some "Billing") (Some "Pune")
              (Some (mktime 9 30 0 0)) None None None (Some 2)
              (Some (mktime 7 59 0 0))
            ∈ attendances (post ex_ratio ex_time ex_day ex_series ex_upload
                             empty_store).1)
      as Hin by (vm_compute; left).
    split; [exact Hin | exact (Ha _ Hin)].
Defined.


Lemma ex_roster_labels_fit : day_labels_fit ex_roster.
Proof.
  intros col_name Hcol _. cbn in Hcol.
  repeat (apply elem_of_cons in Hcol as [-> | Hcol]; [by vm_compute | ]).
  by apply elem_of_nil in Hcol.
Qed.


Lemma name_reconciler_threshold_witness :
  let attendance_names := ["Jon Doe"; "J Doe"] in
  let roster_names := ["Asha Rao"; "John Doe"] in
  ("Jon Doe" ∈ attendance_names
   ∧ build_name_map ex_ratio attendance_names roster_names !! "Jon Doe" = Some "John Doe"
   ∧ ∃ i, first_max ex_ratio "Jon Doe" roster_names i "John Doe"
          ∧ (90 <= ex_ratio "Jon Doe" "John Doe")%Q)
  ∧ ("J Doe" ∈ attendance_names
     ∧ build_name_map ex_ratio attendance_names roster_names !! "J Doe" = None
     ∧ ∀ c, c ∈ roster_names → (ex_ratio "J Doe" c < 90)%Q).
Proof.
  cbv zeta. split.
  - assert ("Jon Doe" ∈ ["Jon Doe"; "J Doe"]) as Hin by left.
    destruct (name_reconciler_threshold ex_ratio ["Jon Doe"; "J Doe"]
                ["Asha Rao"; "John Doe"] "Jon Doe" Hin) as [Hsome _].
    assert (build_name_map ex_ratio ["Jon Doe"; "J Doe"] ["Asha Rao"; "John Doe"]
              !! "Jon Doe" = Some "John Doe") as Hmap by (by vm_compute).
    split; [exact Hin | ]. split; [exact Hmap | ]. by apply Hsome.
  - assert ("J Doe" ∈ ["Jon Doe"; "J Doe"]) as Hin by (right; left).
    destruct (name_reconciler_threshold ex_ratio ["Jon Doe"; "J Doe"]
                ["Asha Rao"; "John Doe"] "J Doe" Hin) as [_ Hnone].
    assert (build_name_map ex_ratio ["Jon Doe"; "J Doe"] ["Asha Rao"; "John Doe"]
              !! "J Doe" = None) as Hmap by (by vm_compute).
    split; [exact Hin | ]. split; [exact Hmap | ]. by apply Hnone.
Defined.

(** C4. The time normalizer does not return a time of day for every
    numeric cell.  The number of seconds is clamped from above only, so
    the negative number -1, as an int and as a float, reaches
    [datetime.time] with a negative hour and raises [ValueError]; and
    for the float 1e308, which is at least 1.0, the product is infinite
    and [int] raises [OverflowError] before the clamp.  Neither exception
    is caught, while a text that is no time gives the absence marker. *)
Theorem to_safe_time_numeric_raises :
  to_safe_time ex_time (CInt (-1)) = Raise ValueError
  ∧ to_safe_time ex_time (CFloat (b64_of_Z (-1))) = Raise ValueError
  ∧ b64_ge b64_1e308 1
  ∧ to_safe_time ex_time (CFloat b64_1e308) = Raise OverflowError
  ∧ to_safe_time ex_time (CStr "noon") = Ok None.
Proof.
  split; [by vm_compute | ]. split; [by vm_compute | ].
  split; [ | split; by vm_compute]. vm_compute. intros H. discriminate H.
Qed.

Lemma to_safe_time_numeric_witness :
  (scaled_seconds (CFloat b64_quarter) = Ok 21600 ∧ 0 ≤ 21600
   ∧ to_safe_time ex_time (CFloat b64_quarter) = Ok (Some (mktime 6 0 0 0)))
  ∧ to_safe_time ex_time (CFloat b64_half) = Ok (Some (mktime 12 0 0 0))
  ∧ (1 ≤ 2 ∧ to_safe_time ex_time (CInt 2) = Ok (Some (mktime 23 59 59 0)))
  ∧ (b64_ge b64_one_and_half 1
     ∧ scaled_seconds (CFloat b64_one_and_half) = Ok 129600
     ∧ to_safe_time ex_time (CFloat b64_one_and_half) = Ok (Some (mktime 23 59 59 0)))
  ∧ (isna CNone = true ∧ to_safe_time ex_time CNone = Ok None).
Proof.
  destruct (to_safe_time_numeric ex_time) as (Hscaled & Hhalf & Hint & Hfloat & Hna).
  assert (scaled_seconds (CFloat b64_quarter) = Ok 21600) as Hq by (by vm_compute).
  assert (scaled_seconds (CFloat b64_one_and_half) = Ok 129600) as Ho by (by vm_compute).
  assert (b64_ge b64_one_and_half 1) as Hge.
  { vm_compute. intros H. discriminate H. }
  split; [ | split; [exact Hhalf | split; [ | split]]].
  - split; [exact Hq | ]. split; [lia | ].
    exact (Hscaled (CFloat b64_quarter) 21600 Hq ltac:(lia)).
  - split; [lia | ]. apply Hint. lia.
  - split; [exact Hge | ]. split; [exact Ho | ]. exact (Hfloat _ _ Hge Ho).
  - split; [reflexivity | ]. by apply Hna.
Defined.

Lemma nodup_keys_unique {R} (key_of : R → key) (table : list R) :
  NoDup (map key_of table) → ∀ k, (key_count key_of k table ≤ 1)%nat.
Proof.
  intros Hnodup k. induction table as [ | r table IH]; [cbn; lia | ].
  cbn [map] in Hnodup. apply NoDup_cons in Hnodup as [Hnew Hnodup].
  specialize (IH Hnodup). unfold key_count in *. cbn [List.filter].
  case_bool_decide as Hk; [ | done]. cbn [length]. subst k.
  apply (key_count_0 key_of) in Hnew. unfold key_count in Hnew. lia.
Qed.

Lemma low_hours_exact_witness :
  let request :=
    mkquery (Some "low_hours") None None None None (Some "2024-03-01")
      (Some "2024-03-31") in
  let flag d s t :=
    mklow_hours_result (Some "John Doe") (Some "E1") (Some "T1") d (Some s) (Some t) in
  let low := [flag (mkdate 2024 3 1) "WFO-M" (mktime 7 59 59 999999);
              flag (mkdate 2024 3 31) "WFO-G" (mktime 7 0 0 0)] in
  let non_pl := [flag (mkdate 2024 3 1) "WFO-M" (mktime 7 59 59 999999);
                 flag (mkdate 2024 3 3) "wo" (mktime 6 0 0 0);
                 flag (mkdate 2024 3 31) "WFO-G" (mktime 7 0 0 0)] in
  _get_date_range ex_query_date request ex_store_hours
  = Ok (Some (mkdate 2024 3 1, mkdate 2024 3 31))
  ∧ (∀ k, (key_count roster_key k (rosters ex_store_hours) ≤ 1)%nat)
  ∧ _find_low_hours ex_query_date request ex_store_hours
    = Ok (Response (LowHours 2 low) HTTP_200_OK)
  ∧ _find_non_pl_low_hours ex_query_date request ex_store_hours
    = Ok (Response (NonPlLowHours 3 non_pl) HTTP_200_OK)
  ∧ low ≡ₚ low_hours_report ["PL"; "WO"] ex_store_hours (mkdate 2024 3 1)
             (mkdate 2024 3 31)
  ∧ non_pl ≡ₚ low_hours_report ["PL"] ex_store_hours (mkdate 2024 3 1)
                (mkdate 2024 3 31).
Proof.
  cbv zeta.
  assert (_get_date_range ex_query_date
            (mkquery (Some "low_hours") None None None None (Some "2024-03-01")
               (Some "2024-03-31")) ex_store_hours
          = Ok (Some (mkdate 2024 3 1, mkdate 2024 3 31))) as Hrange by (by vm_compute).
  assert (∀ k, (key_count roster_key k (rosters ex_store_hours) ≤ 1)%nat) as Huniq.
  { apply nodup_keys_unique. apply (bool_decide_unpack _). by vm_compute. }
  destruct (low_hours_exact ex_query_date _ _ _ _ Hrange Huniq)
    as (results & results' & Hlow & Hnon & Hreport & Hreport').
  assert (_find_low_hours ex_query_date
            (mkquery (Some "low_hours") None None None None (Some "2024-03-01")
               (Some "2024-03-31")) ex_store_hours
          = Ok (Response
                  (LowHours 2
                     [mklow_hours_result (Some "John Doe") (Some "E1") (Some "T1")
                        (mkdate 2024 3 1) (Some "WFO-M") (Some (mktime 7 59 59 999999));
                      mklow_hours_result (Some "John Doe") (Some "E1") (Some "T1")
                        (mkdate 2024 3 31) (Some "WFO-G") (Some (mktime 7 0 0 0))])
                  HTTP_200_OK)) as Hlow' by (by vm_compute).
  assert (_find_non_pl_low_hours ex_query_date
            (mkquery (Some "low_hours") None None None None (Some "2024-03-01")
               (Some "2024-03-31")) ex_store_hours
          = Ok (Response
                  (NonPlLowHours 3
                     [mklow_hours_result (Some "John Doe") (Some "E1") (Some "T1")
                        (mkdate 2024 3 1) (Some "WFO-M") (Some (mktime 7 59 59 999999));
                      mklow_hours_result (Some "John Doe") (Some "E1") (Some "T1")
                        (mkdate 2024 3 3) (Some "wo") (Some (mktime 6 0 0 0));
                      mklow_hours_result (Some "John Doe") (Some "E1") (Some "T1")
                        (mkdate 2024 3 31) (Some "WFO-G") (Some (mktime 7 0 0 0))])
                  HTTP_200_OK)) as Hnon' by (by vm_compute).
  rewrite Hlow' in Hlow. injection Hlow as _ <-.
  rewrite Hnon' in Hnon. injection Hnon as _ <-.
  split; [exact Hrange | ]. split; [exact Huniq | ].
  split; [exact Hlow' | ]. split; [exact Hnon' | ].
  split; [exact Hreport | exact Hreport'].
Defined.

(** On the sample month the WO day is flagged by non_pl_low_hours only. *)
Lemma low_hours_sample_month :
  let st := (post ex_ratio ex_time ex_day ex_series ex_upload empty_store).1 in
  let request := ex_query (Some "low_hours") None None None in
  let flag d s t :=
    mklow_hours_result (Some "John Doe") (Some "E1") (Some "T1") d (Some s) (Some t) in
  _find_low_hours ex_query_date request st
  = Ok (Response (LowHours 1 [flag (mkdate 2024 3 1) "WFO-M" (mktime 7 59 0 0)])
          HTTP_200_OK)
  ∧ _find_non_pl_low_hours ex_query_date request st
    = Ok (Response (NonPlLowHours 2 [flag (mkdate 2024 3 1) "WFO-M" (mktime 7 59 0 0);
                                     flag (mkdate 2024 3 2) "WO" (mktime 6 0 0 0)])
            HTTP_200_OK).
Proof. cbv zeta. split; by vm_compute. Qed.

(** A count that names nobody, over an empty store and without a start
    date, is answered 400 and not with the no-data condition; and the
    month of a most recent date in December 9999 has no last day the
    code can compute. *)
Lemma count_on_empty_store_is_bad_request :
  let request := ex_query (Some "count") None None None in
  attendances empty_store = []
  ∧ truthy (qp_start_date request) = None
  ∧ get ex_query_date request empty_store
    = Ok (Response QueryRequired HTTP_400_BAD_REQUEST)
  ∧ HTTP_400_BAD_REQUEST ≠ HTTP_404_NOT_FOUND
  ∧ _get_date_range ex_query_date (ex_query None None None None) ex_store_9999
    = Raise OverflowError.
Proof. cbv zeta. repeat split; by vm_compute. Qed.

Lemma date_range_resolution_witness :
  let st := (post ex_ratio ex_time ex_day ex_series ex_upload empty_store).1 in
  let with_start := ex_query (Some "search") None None (Some "2024-03-01") in
  let with_both :=
    mkquery (Some "search") None None None None (Some "2024-03-01") (Some "2024-03-31") in
  let without := ex_query (Some "search") None None None in
  (truthy (qp_start_date with_start) = Some "2024-03-01"
   ∧ ex_query_date "2024-03-01" = Ok (mkdate 2024 3 1)
   ∧ truthy (qp_end_date with_start) = None
   ∧ _get_date_range ex_query_date with_start st
     = Ok (Some (mkdate 2024 3 1, mkdate 2024 3 1)))
  ∧ (truthy (qp_end_date with_both) = Some "2024-03-31"
     ∧ ex_query_date "2024-03-31" = Ok (mkdate 2024 3 31)
     ∧ _get_date_range ex_query_date with_both st
       = Ok (Some (mkdate 2024 3 1, mkdate 2024 3 31)))
  ∧ (truthy (qp_start_date without) = None
     ∧ date_new 2024 3 2 = Ok (mkdate 2024 3 2)
     ∧ _get_date_range ex_query_date without st
       = Ok (Some (mkdate 2024 3 1, mkdate 2024 3 (days_in_month 2024 3))))
  ∧ (attendances empty_store = []
     ∧ _get_date_range ex_query_date without empty_store = Ok None
     ∧ ∃ b, get ex_query_date without empty_store = Ok (Response b HTTP_404_NOT_FOUND)
            ∧ (b = NoDataForPeriod ∨ b = NoDataFound)).
Proof.
  cbv zeta. split; [ | split; [ | split]].
  - destruct (date_range_resolution ex_query_date
                (ex_query (Some "search") None None (Some "2024-03-01"))
                (post ex_ratio ex_time ex_day ex_series ex_upload empty_store).1)
      as (Hstart & _ & _).
    destruct (Hstart "2024-03-01" (mkdate 2024 3 1) eq_refl eq_refl) as [Hdefault _].
    split; [reflexivity | ]. split; [reflexivity | ]. split; [reflexivity | ].
    exact (Hdefault eq_refl).
  - destruct (date_range_resolution ex_query_date
                (mkquery (Some "search") None None None None (Some "2024-03-01")
                   (Some "2024-03-31"))
                (post ex_ratio ex_time ex_day ex_series ex_upload empty_store).1)
      as (Hstart & _ & _).
    destruct (Hstart "2024-03-01" (mkdate 2024 3 1) eq_refl eq_refl) as [_ Hend].
    split; [reflexivity | ]. split; [reflexivity | ].
    exact (Hend "2024-03-31" (mkdate 2024 3 31) eq_refl eq_refl).
  - destruct (date_range_resolution ex_query_date
                (ex_query (Some "search") None None None)
                (post ex_ratio ex_time ex_day ex_series ex_upload empty_store).1)
      as (_ & Hlatest & _).
    split; [reflexivity | ]. split; [reflexivity | ].
    apply (Hlatest 2024 3 2
             (mkAttendance (Some "John Doe") (mkdate 2024 3 2) (Some "E1")
                (Some "Employee") (Some "Engineer") (Some "Billing") (Some "Pune")
                (Some (mktime 9 30 0 0)) None None None (Some 2)
                (Some (mktime 6 0 0 0)))).
    + reflexivity.
    + vm_compute. right. left.
    + reflexivity.
    + intros a Ha. vm_compute in Ha.
      repeat (apply elem_of_cons in Ha as [-> | Ha]; [reflexivity | ]).
      by apply elem_of_nil in Ha.
    + reflexivity.
    + intros [Hy _]. discriminate Hy.
  - destruct (date_range_resolution ex_query_date
                (ex_query (Some "search") None None None) empty_store)
      as (_ & _ & Hempty).
    destruct (Hempty eq_refl eq_refl) as [Hnone Hget].
    split; [reflexivity | ]. split; [exact Hnone | ].
    apply Hget. intros (Hcount & _). discriminate Hcount.
Defined.


Lemma reingestion_idempotent_witness :
  let upload := post ex_ratio ex_time ex_day ex_series ex_upload in
  let st1 := (upload ex_store_stale).1 in
  let k := (Some "John Doe", mkdate 2024 3 1) in
  upload st1 = (st1, (upload ex_store_stale).2)
  ∧ ((key_count roster_key k (rosters ex_store_stale) ≤ 1)%nat
     ∧ (key_count roster_key k (rosters st1) ≤ 1)%nat)
  ∧ ((key_count attendance_key k (attendances ex_store_stale) ≤ 1)%nat
     ∧ (key_count attendance_key k (attendances st1) ≤ 1)%nat)
  ∧ map r_schedule (rosters st1) = [Some "WFO-M"; Some "WO"; Some "PL"]
  ∧ length (attendances st1) = 2%nat.
Proof.
  cbv zeta.
  destruct (reingestion_idempotent ex_ratio ex_time ex_day ex_series ex_upload
              ex_store_stale) as (Hsame & Hrosters & Hattendances).
  assert (key_count roster_key (Some "John Doe", mkdate 2024 3 1)
            (rosters ex_store_stale) ≤ 1)%nat as Hr by (vm_compute; lia).
  assert (key_count attendance_key (Some "John Doe", mkdate 2024 3 1)
            (attendances ex_store_stale) ≤ 1)%nat as Ha by (vm_compute; lia).
  split; [exact Hsame | ].
  split; [split; [exact Hr | exact (Hrosters _ Hr)] | ].
  split; [split; [exact Ha | exact (Hattendances _ Ha)] | ].
  split; by vm_compute.
Defined.

(** C9. A roster cell under a day that the processing month does not
    have is skipped and the other cells of the row are written, but no
    attendance row is ever skipped: the test on the date never fires.  A
    row whose date text does not parse is stored, under the date NaT,
    and the upload answers 201; a row whose date cell is empty raises,
    [post] answers 500, the rows before it stay written and the rows
    after it are not ingested. *)
Theorem attendance_row_never_skipped :
  (∀ to_datetime_time to_datetime_dayfirst nr,
     attendance_record to_datetime_time to_datetime_dayfirst nr ≠ Ok None)
  ∧ (let result :=
       post ex_ratio ex_time ex_day ex_series ex_upload_bad_date empty_store in
     ex_day (CStr "someday") = None
     ∧ result.2 = Ok (Response (ProcessedSuccessfully 2024 4) HTTP_201_CREATED)
     ∧ map a_date (attendances result.1) = [mkdate 2024 4 1; NaT; mkdate 2024 4 2]
     ∧ map r_date (rosters result.1) = [mkdate 2024 4 1; mkdate 2024 4 2])
  ∧ (let result :=
       post ex_ratio ex_time ex_day ex_series ex_upload_no_date empty_store in
     result.2
     = Ok (Response (ErrorOccurred AttributeError) HTTP_500_INTERNAL_SERVER_ERROR)
     ∧ map a_date (attendances result.1) = [mkdate 2024 4 1]
     ∧ map r_date (rosters result.1) = [mkdate 2024 4 1; mkdate 2024 4 2]).
Proof.
  split; [ | split; cbv zeta; repeat split; by vm_compute].
  intros to_datetime_time to_datetime_dayfirst [row name]. unfold attendance_record.
  destruct (isna (attendance_date row)); [done | ].
  cbn [mbind result_bind].
  destruct (to_datetime_dayfirst (attendance_date row)) as [date | ];
    cbn [date_truth negb];
    repeat match goal with
           | |- context [to_safe_time ?f ?c] =>
               destruct (to_safe_time f c); cbn [mbind result_bind]; [ | done]
           end; done.
Qed.

(** A search by an id that nobody carries answers 200 with an empty
    list, and low_hours over an explicit range of an empty store answers
    200 with no result: neither no-match condition is a 404. *)
Lemma search_without_match_is_ok :
  let request := ex_query None None (Some "E9") (Some "2024-03-01") in
  let st := (post ex_ratio ex_time ex_day ex_series ex_upload empty_store).1 in
  id_matches_nobody st (mkdate 2024 3 1) (mkdate 2024 3 1) "E9"
  ∧ get ex_query_date request st = Ok (Response (SearchResults []) HTTP_200_OK)
  ∧ get ex_query_date (ex_query (Some "low_hours") None None (Some "2024-03-01"))
      empty_store
    = Ok (Response (LowHours 0 []) HTTP_200_OK)
  ∧ HTTP_200_OK ≠ HTTP_404_NOT_FOUND.
Proof.
  cbv zeta. split; [ | repeat split; by vm_compute].
  intros a Ha _. vm_compute in Ha.
  repeat (apply elem_of_cons in Ha as [-> | Ha]; [by vm_compute | ]).
  by apply elem_of_nil in Ha.
Qed.

Lemma query_error_statuses_witness :
  let st := (post ex_ratio ex_time ex_day ex_series ex_upload empty_store).1 in
  let by_id := ex_query (Some "count") None (Some "E9") None in
  let by_name := ex_query (Some "count") (Some "Asha") None None in
  (count_without_filter (ex_query (Some "count") None None None)
   ∧ get ex_query_date (ex_query (Some "count") None None None) st
     = Ok (Response QueryRequired HTTP_400_BAD_REQUEST))
  ∧ (id_matches_nobody st (mkdate 2024 3 1) (mkdate 2024 3 31) "E9"
     ∧ get ex_query_date by_id st
       = Ok (Response (NoEmployeeWithId "E9") HTTP_404_NOT_FOUND))
  ∧ (query_matches_nobody st (mkdate 2024 3 1) (mkdate 2024 3 31) "Asha"
     ∧ get ex_query_date by_name st
       = Ok (Response (NoEmployeeMatching "Asha") HTTP_404_NOT_FOUND))
  ∧ (_get_date_range ex_query_date by_id empty_store = Ok None
     ∧ ∃ b, get ex_query_date by_id empty_store = Ok (Response b HTTP_404_NOT_FOUND))
  ∧ get ex_query_date (ex_query None None (Some "E9") None) st
    = Ok (Response (SearchResults []) HTTP_200_OK).
Proof.
  cbv zeta.
  set (st := (post ex_ratio ex_time ex_day ex_series ex_upload empty_store).1).
  assert (∀ request, qp_start_date request = None → qp_end_date request = None →
            _get_date_range ex_query_date request st
            = Ok (Some (mkdate 2024 3 1, mkdate 2024 3 31))) as Hrange.
  { intros request Hs He. unfold _get_date_range. rewrite Hs. by vm_compute. }
  assert (id_matches_nobody st (mkdate 2024 3 1) (mkdate 2024 3 31) "E9") as Hid.
  { intros a Ha _. vm_compute in Ha.
    repeat (apply elem_of_cons in Ha as [-> | Ha]; [by vm_compute | ]).
    by apply elem_of_nil in Ha. }
  assert (query_matches_nobody st (mkdate 2024 3 1) (mkdate 2024 3 31) "Asha") as Hq.
  { intros r Hr _ Hall. vm_compute in Hr.
    assert ("Asha" ∈ split "Asha") as Hword by (vm_compute; left).
    repeat (apply elem_of_cons in Hr as [-> | Hr];
            [specialize (Hall "Asha" Hword); vm_compute in Hall; discriminate Hall | ]).
    by apply elem_of_nil in Hr. }
  split; [ | split; [ | split; [ | split]]].
  - assert (count_without_filter (ex_query (Some "count") None None None)) as Hc
      by (by vm_compute).
    split; [exact Hc | ].
    by apply (query_error_statuses ex_query_date
                (ex_query (Some "count") None None None) st).
  - split; [exact Hid | ].
    destruct (query_error_statuses ex_query_date
                (ex_query (Some "count") None (Some "E9") None) st)
      as (_ & Hnoid & _).
    exact (Hnoid _ _ "E9" eq_refl
             (Hrange (ex_query (Some "count") None (Some "E9") None) eq_refl eq_refl)
             eq_refl Hid).
  - split; [exact Hq | ].
    destruct (query_error_statuses ex_query_date
                (ex_query (Some "count") (Some "Asha") None None) st)
      as (_ & _ & Hnoname & _).
    exact (Hnoname _ _ "Asha" eq_refl
             (Hrange (ex_query (Some "count") (Some "Asha") None None) eq_refl eq_refl)
             eq_refl eq_refl Hq).
  - destruct (query_error_statuses ex_query_date
                (ex_query (Some "count") None (Some "E9") None) empty_store)
      as (_ & _ & _ & Hnorange & _).
    assert (_get_date_range ex_query_date (ex_query (Some "count") None (Some "E9") None)
              empty_store = Ok None) as Hnone by reflexivity.
    split; [exact Hnone | ]. apply (Hnorange Hnone).
    intros (_ & _ & Hno). discriminate Hno.
  - destruct (query_error_statuses ex_query_date
                (ex_query None None (Some "E9") None) st)
      as (_ & _ & _ & _ & Hsearch & _).
    exact (Hsearch _ _ "E9" eq_refl eq_refl eq_refl
             (Hrange (ex_query None None (Some "E9") None) eq_refl eq_refl)
             eq_refl Hid).
Defined.

(** * The further properties on the sample month *)

Lemma post_unusable_sheets_witness :
  let undated := [ex_attendance_row "John Doe" "someday" (CInt 0)] in
  let no_rows := mkupload (Some ex_roster) (Some []) in
  let no_dates := mkupload (Some ex_roster) (Some undated) in
  let no_names := mkupload (Some (mkroster_sheet ["sr no"; "1"] [])) (Some ex_attendance) in
  post ex_ratio ex_time ex_day ex_series no_rows ex_store_stale
  = (ex_store_stale,
     Ok (Response (ErrorOccurred ValueError) HTTP_500_INTERNAL_SERVER_ERROR))
  ∧ (undated ≠ [] ∧ first_valid_date ex_series undated = None
     ∧ post ex_ratio ex_time ex_day ex_series no_dates ex_store_stale
       = (ex_store_stale,
          Ok (Response (ErrorOccurred IndexError) HTTP_500_INTERNAL_SERVER_ERROR)))
  ∧ (is_Some (first_valid_date ex_series ex_attendance)
     ∧ ("name" ∉ ["sr no"; "1"])
     ∧ post ex_ratio ex_time ex_day ex_series no_names ex_store_stale
       = (ex_store_stale,
          Ok (Response (ErrorOccurred KeyError) HTTP_500_INTERNAL_SERVER_ERROR))).
Proof.
  cbv zeta. split; [ | split].
  - by apply (post_unusable_sheets ex_ratio ex_time ex_day ex_series
                (mkupload (Some ex_roster) (Some [])) ex_store_stale ex_roster []).
  - assert ([ex_attendance_row "John Doe" "someday" (CInt 0)] ≠ []) as Hrows
      by (intros H; discriminate H).
    assert (first_valid_date ex_series [ex_attendance_row "John Doe" "someday" (CInt 0)]
            = None) as Hnone by (by vm_compute).
    split; [exact Hrows | ]. split; [exact Hnone | ].
    by apply (post_unusable_sheets ex_ratio ex_time ex_day ex_series
                (mkupload (Some ex_roster)
                   (Some [ex_attendance_row "John Doe" "someday" (CInt 0)]))
                ex_store_stale ex_roster
                [ex_attendance_row "John Doe" "someday" (CInt 0)]).
  - assert (is_Some (first_valid_date ex_series ex_attendance)) as Hfirst.
    { exists (mkdate 2024 3 1). by vm_compute. }
    assert ("name" ∉ ["sr no"; "1"]) as Hname.
    { intros H. repeat (apply elem_of_cons in H as [H | H]; [discriminate H | ]).
      by apply elem_of_nil in H. }
    split; [exact Hfirst | ]. split; [exact Hname | ].
    by apply (post_unusable_sheets ex_ratio ex_time ex_day ex_series
                (mkupload (Some (mkroster_sheet ["sr no"; "1"] [])) (Some ex_attendance))
                ex_store_stale (mkroster_sheet ["sr no"; "1"] []) ex_attendance).
Defined.

Lemma roster_writes_in_processing_month_witness :
  let st' := (post ex_ratio ex_time ex_day ex_series ex_upload_missing_cell empty_store).1 in
  let r := mkRoster (Some "Asha Rao") (mkdate 2024 3 31) (Some "T2") (Some "nan") in
  r ∈ rosters st'
  ∧ (r ∈ rosters empty_store
     ∨ ∃ roster_df attendance_df first row n col_name schedule,
         roster_file ex_upload_missing_cell = Some roster_df
         ∧ attendance_file ex_upload_missing_cell = Some attendance_df
         ∧ first_valid_date ex_series attendance_df = Some first
         ∧ row ∈ rows roster_df ∧ (col_name, schedule) ∈ items roster_df row
         ∧ isdigit col_name = true
         ∧ 1 ≤ int_of_digits col_name ≤ days_in_month (year first) (month first)
         ∧ row_get "name" (items roster_df row) = Some n
         ∧ r = mkRoster (Some n)
                 (mkdate (year first) (month first) (int_of_digits col_name))
                 (row_field "sr no" (items roster_df row))
                 (Some (stored_text schedule))).
Proof.
  cbv zeta.
  assert (mkRoster (Some "Asha Rao") (mkdate 2024 3 31) (Some "T2") (Some "nan")
          ∈ rosters (post ex_ratio ex_time ex_day ex_series ex_upload_missing_cell
                       empty_store).1)
    as Hin by (vm_compute; do 2 right; left).
  split; [exact Hin | ].
  exact (roster_writes_in_processing_month ex_ratio ex_time ex_day ex_series
           ex_upload_missing_cell empty_store _ Hin).
Defined.

Lemma roster_ingestion_failures_witness :
  ((∀ k, (key_count roster_key k (rosters empty_store) ≤ 1)%nat)
   ∧ fits_int 2024 = true ∧ fits_int 4 = true ∧ day_labels_fit ex_roster
   ∧ (_process_roster_data ex_roster 2024 4 empty_store).2 = Ok ())
  ∧ ((_process_roster_data ex_roster 2024 4 ex_store_duplicated).2
     = Raise MultipleObjectsReturned
     ∧ ∃ k, (1 < key_count roster_key k (rosters ex_store_duplicated))%nat)
  ∧ (_process_roster_data ex_roster_overflow 2024 4 empty_store
     = (mkstore [mkRoster (Some "John Doe") (mkdate 2024 4 1) (Some "T1") (Some "WFO-M")]
          [],
        Raise OverflowError)
     ∧ ∃ col_name, col_name ∈ columns ex_roster_overflow
                   ∧ 2147483647 < int_of_digits col_name)
  ∧ attendances (_process_roster_data ex_roster 2024 4 ex_store_duplicated).1
    = attendances ex_store_duplicated.
Proof.
  destruct (roster_ingestion_failures ex_roster 2024 4 empty_store) as (Hok & _ & _).
  destruct (roster_ingestion_failures ex_roster 2024 4 ex_store_duplicated)
    as (_ & Hraise & Hatt).
  destruct (roster_ingestion_failures ex_roster_overflow 2024 4 empty_store)
    as (_ & Hover & _).
  assert (∀ k, (key_count roster_key k (rosters empty_store) ≤ 1)%nat) as Huniq.
  { intros k. cbn. lia. }
  assert ((_process_roster_data ex_roster 2024 4 ex_store_duplicated).2
          = Raise MultipleObjectsReturned) as He by (by vm_compute).
  assert (_process_roster_data ex_roster_overflow 2024 4 empty_store
          = (mkstore
               [mkRoster (Some "John Doe") (mkdate 2024 4 1) (Some "T1") (Some "WFO-M")]
               [],
             Raise OverflowError)) as Ho by (by vm_compute).
  split.
  { split; [exact Huniq | ]. split; [reflexivity | ]. split; [reflexivity | ].
    split; [exact ex_roster_labels_fit | ].
    exact (Hok Huniq eq_refl eq_refl ex_roster_labels_fit). }
  split.
  { split; [exact He | ].
    destruct (Hraise _ He) as [[_ Hk] | [Hne _]]; [exact Hk | discriminate Hne]. }
  split; [ | exact Hatt].
  split; [exact Ho | ].
  destruct (Hover OverflowError) as [[Hne _] | [_ (col_name & Hcol & _ & Hbig)]].
  - by rewrite Ho.
  - discriminate Hne.
  - exists col_name. split; [exact Hcol | lia].
Defined.

Lemma post_never_deletes_witness :
  let st' := (post ex_ratio ex_time ex_day ex_series ex_upload ex_store_other).1 in
  let other := mkRoster (Some "Zed Q") (mkdate 2024 3 1) (Some "T3") (Some "WFO-G") in
  let stale := mkRoster (Some "John Doe") (mkdate 2024 3 1) (Some "T9") (Some "PL") in
  (stale ∈ rosters ex_store_other ∧ roster_key stale ∈ map roster_key (rosters st'))
  ∧ (length (rosters ex_store_other) ≤ length (rosters st'))%nat
  ∧ (other ∈ rosters ex_store_other
     ∧ roster_file ex_upload = Some ex_roster
     ∧ (∀ n, r_name other = Some n → n ∉ roster_names_of ex_roster)
     ∧ other ∈ rosters st').
Proof.
  cbv zeta.
  destruct (post_never_deletes ex_ratio ex_time ex_day ex_series ex_upload ex_store_other)
    as (Hkeys & _ & Hlen & _ & Hother).
  assert (mkRoster (Some "John Doe") (mkdate 2024 3 1) (Some "T9") (Some "PL")
          ∈ rosters ex_store_other) as Hstale by left.
  assert (mkRoster (Some "Zed Q") (mkdate 2024 3 1) (Some "T3") (Some "WFO-G")
          ∈ rosters ex_store_other) as Hin by (right; left).
  assert (∀ n, Some "Zed Q" = Some n → n ∉ roster_names_of ex_roster) as Hnot.
  { intros n [= <-] H. vm_compute in H.
    repeat (apply elem_of_cons in H as [H | H]; [discriminate H | ]).
    by apply elem_of_nil in H. }
  split; [split; [exact Hstale | exact (Hkeys _ Hstale)] | ].
  split; [exact Hlen | ].
  split; [exact Hin | ]. split; [reflexivity | ]. split; [exact Hnot | ].
  exact (Hother _ ex_roster Hin eq_refl Hnot).
Defined.


Lemma to_safe_time_raises_witness :
  to_safe_time ex_time (CInt (-3)) = Raise ValueError
  ∧ to_safe_time ex_time (CInt (-89478485)) = Raise ValueError
  ∧ to_safe_time ex_time (CInt (-89478486)) = Raise OverflowError
  ∧ ∀ e, to_safe_time ex_time (CStr "noon") ≠ Raise e.
Proof.
  split; [ | split; [ | split]].
  - apply (to_safe_time_raises ex_time (CInt (-3)) ValueError).
    left. exists (-3). split; [reflexivity | ]. left. split; [lia | reflexivity].
  - apply (to_safe_time_raises ex_time (CInt (-89478485)) ValueError).
    left. exists (-89478485). split; [reflexivity | ]. left. split; [lia | reflexivity].
  - apply (to_safe_time_raises ex_time (CInt (-89478486)) OverflowError).
    left. exists (-89478486). split; [reflexivity | ]. right. split; [lia | reflexivity].
  - intros e He. apply (to_safe_time_raises ex_time) in He.
    destruct He as [(z & Hz & _) | (f & Hf & _)]; discriminate.
Defined.

Lemma search_results_exact_witness :
  let st := (post ex_ratio ex_time ex_day ex_series ex_upload empty_store).1 in
  let request := mkquery None (Some "doe") None None (Some "wo") None None in
  _get_date_range ex_query_date request st
  = Ok (Some (mkdate 2024 3 1, mkdate 2024 3 31))
  ∧ List.filter (search_selects request st (mkdate 2024 3 1) (mkdate 2024 3 31))
      (rosters st)
    = [mkRoster (Some "John Doe") (mkdate 2024 3 2) (Some "T1") (Some "WO")]
  ∧ ∃ results,
      _perform_search ex_query_date request st
      = Ok (Response (SearchResults results) HTTP_200_OK)
      ∧ map roster_of_result results
        ≡ₚ List.filter (search_selects request st (mkdate 2024 3 1) (mkdate 2024 3 31))
             (rosters st).
Proof.
  cbv zeta.
  assert (_get_date_range ex_query_date
            (mkquery None (Some "doe") None None (Some "wo") None None)
            (post ex_ratio ex_time ex_day ex_series ex_upload empty_store).1
          = Ok (Some (mkdate 2024 3 1, mkdate 2024 3 31))) as Hrange by (by vm_compute).
  split; [exact Hrange | ]. split; [by vm_compute | ].
  exact (search_results_exact ex_query_date _ _ _ _ Hrange).
Defined.

Lemma inverted_range_selects_nothing_witness :
  let st := (post ex_ratio ex_time ex_day ex_series ex_upload empty_store).1 in
  let request :=
    mkquery None None (Some "E1") None None (Some "2024-03-31") (Some "2024-03-01") in
  _get_date_range ex_query_date request st
  = Ok (Some (mkdate 2024 3 31, mkdate 2024 3 1))
  ∧ date_ltb (mkdate 2024 3 1) (mkdate 2024 3 31) = true
  ∧ _perform_search ex_query_date request st
    = Ok (Response (SearchResults []) HTTP_200_OK)
  ∧ _find_low_hours ex_query_date request st = Ok (Response (LowHours 0 []) HTTP_200_OK)
  ∧ _perform_count ex_query_date request st
    = Ok (Response (NoEmployeeWithId "E1") HTTP_404_NOT_FOUND).
Proof.
  cbv zeta.
  assert (_get_date_range ex_query_date
            (mkquery None None (Some "E1") None None (Some "2024-03-31")
               (Some "2024-03-01"))
            (post ex_ratio ex_time ex_day ex_series ex_upload empty_store).1
          = Ok (Some (mkdate 2024 3 31, mkdate 2024 3 1))) as Hrange by (by vm_compute).
  destruct (inverted_range_selects_nothing ex_query_date _ _ _ _ Hrange eq_refl)
    as (Hsearch & Hlow & _ & Hid & _).
  split; [exact Hrange | ]. split; [reflexivity | ]. split; [exact Hsearch | ].
  split; [exact Hlow | ]. exact (Hid "E1" eq_refl).
Defined.

Lemma low_hours_within_non_pl_witness :
  let st := (post ex_ratio ex_time ex_day ex_series ex_upload empty_store).1 in
  let request := ex_query (Some "low_hours") None None None in
  _get_date_range ex_query_date request st
  = Ok (Some (mkdate 2024 3 1, mkdate 2024 3 31))
  ∧ (∀ k, (key_count roster_key k (rosters st) ≤ 1)%nat)
  ∧ ∃ results results',
      _find_low_hours ex_query_date request st
      = Ok (Response (LowHours (length results) results) HTTP_200_OK)
      ∧ _find_non_pl_low_hours ex_query_date request st
        = Ok (Response (NonPlLowHours (length results') results') HTTP_200_OK)
      ∧ (∀ e, e ∈ results → e ∈ results')
      ∧ (∀ e, e ∈ results' → e ∉ results →
              lookup_text (λ s, iexact s "WO") (lh_shift e) = true)
      ∧ (∀ e, e ∈ results → lookup_text (λ s, iexact s "WO") (lh_shift e) = false)
      ∧ (∀ e, e ∈ results' → lookup_text (λ s, iexact s "PL") (lh_shift e) = false).
Proof.
  cbv zeta.
  assert (_get_date_range ex_query_date (ex_query (Some "low_hours") None None None)
            (post ex_ratio ex_time ex_day ex_series ex_upload empty_store).1
          = Ok (Some (mkdate 2024 3 1, mkdate 2024 3 31))) as Hrange by (by vm_compute).
  pose proof (post_unique_keys ex_ratio ex_time ex_day ex_series ex_upload empty_store
                empty_store_unique_keys) as [Huniq _].
  split; [exact Hrange | ]. split; [exact Huniq | ].
  exact (low_hours_within_non_pl ex_query_date _ _ _ _ Hrange Huniq).
Defined.

Lemma count_id_overrides_query_witness :
  let st := (post ex_ratio ex_time ex_day ex_series ex_upload empty_store).1 in
  truthy (Some "E1") = Some "E1"
  ∧ _perform_count ex_query_date (ex_query (Some "count") (Some "nobody") (Some "E1") None)
      st
    = _perform_count ex_query_date (ex_query (Some "count") None (Some "E1") None) st.
Proof.
  cbv zeta. split; [reflexivity | ].
  exact (count_id_overrides_query ex_query_date
           (ex_query (Some "count") None (Some "E1") None) (Some "nobody") _ "E1"
           eq_refl).
Defined.

Lemma unparsable_date_escapes_witness :
  let request := ex_query (Some "low_hours") None None (Some "yesterday") in
  truthy (qp_start_date request) = Some "yesterday"
  ∧ ex_query_date "yesterday" = Raise ValueError
  ∧ ¬ count_without_filter request
  ∧ get ex_query_date request empty_store = Raise ValueError.
Proof.
  cbv zeta.
  assert (¬ count_without_filter (ex_query (Some "low_hours") None None (Some "yesterday")))
    as Hcount.
  { intros (Hc & _). discriminate Hc. }
  split; [reflexivity | ]. split; [reflexivity | ]. split; [exact Hcount | ].
  exact (proj2 (unparsable_date_escapes ex_query_date
                  (ex_query (Some "low_hours") None None (Some "yesterday"))
                  empty_store "yesterday" ValueError eq_refl (or_introl eq_refl))
           Hcount).
Defined.

Lemma count_results_shape_witness :
  let st := (post ex_ratio ex_time ex_day ex_series ex_upload empty_store).1 in
  let request := ex_query (Some "count") None (Some "e1") None in
  let results :=
    [mkcount_result (Some "John Doe") (Some "E1") (mkdate 2024 3 1) (mkdate 2024 3 31)
       (mkcounts 1 0 1 1 1 2)] in
  _perform_count ex_query_date request st
  = Ok (Response (CountResults results) HTTP_200_OK)
  ∧ NoDup (map cr_employee results)
  ∧ ∃ start_date end_date,
      _get_date_range ex_query_date request st = Ok (Some (start_date, end_date))
      ∧ ∀ c, c ∈ results → cr_period_start c = start_date ∧ cr_period_end c = end_date.
Proof.
  cbv zeta.
  assert (_perform_count ex_query_date (ex_query (Some "count") None (Some "e1") None)
            (post ex_ratio ex_time ex_day ex_series ex_upload empty_store).1
          = Ok (Response
                  (CountResults
                     [mkcount_result (Some "John Doe") (Some "E1") (mkdate 2024 3 1)
                        (mkdate 2024 3 31) (mkcounts 1 0 1 1 1 2)])
                  HTTP_200_OK)) as Hcount by (by vm_compute).
  destruct (count_results_shape ex_query_date _ _ _ _ Hcount)
    as (_ & _ & Hnodup & start_date & end_date & Hrange & Hperiod & _).
  split; [exact Hcount | ]. split; [exact Hnodup | ].
  exists start_date, end_date. split; [exact Hrange | exact Hperiod].
Defined.

Lemma search_attendance_join_witness :
  let st := (post ex_ratio ex_time ex_day ex_series ex_upload empty_store).1 in
  let request := ex_query None None None None in
  _get_date_range ex_query_date request st
  = Ok (Some (mkdate 2024 3 1, mkdate 2024 3 31))
  ∧ (∀ k, (key_count attendance_key k (attendances st) ≤ 1)%nat)
  ∧ ∃ results,
      _perform_search ex_query_date request st
      = Ok (Response (SearchResults results) HTTP_200_OK)
      ∧ ∀ e, e ∈ results →
             (∀ a, a ∈ attendances st → is_Some (a_name a) →
                   attendance_key a = (sr_name e, sr_date e) → joined_to e (Some a))
             ∧ ((∀ a, a ∈ attendances st → is_Some (a_name a) →
                      attendance_key a ≠ (sr_name e, sr_date e))
                → joined_to e None).
Proof.
  cbv zeta.
  assert (_get_date_range ex_query_date (ex_query None None None None)
            (post ex_ratio ex_time ex_day ex_series ex_upload empty_store).1
          = Ok (Some (mkdate 2024 3 1, mkdate 2024 3 31))) as Hrange by (by vm_compute).
  pose proof (post_unique_keys ex_ratio ex_time ex_day ex_series ex_upload empty_store
                empty_store_unique_keys) as [_ Huniq].
  split; [exact Hrange | ]. split; [exact Huniq | ].
  exact (search_attendance_join ex_query_date _ _ _ _ Hrange Huniq).
Defined.

Lemma search_query_as_word_set_witness :
  let st := (post ex_ratio ex_time ex_day ex_series ex_upload empty_store).1 in
  (∀ word, word ∈ split "john doe" ↔ word ∈ split " doe  john doe")
  ∧ _perform_search ex_query_date (ex_query None (Some "john doe") None None) st
    = _perform_search ex_query_date (ex_query None (Some " doe  john doe") None None) st.
Proof.
  cbv zeta.
  assert (∀ word, word ∈ split "john doe" ↔ word ∈ split " doe  john doe") as Hsame.
  { intros word.
    change (split "john doe") with ["john"; "doe"].
    change (split " doe  john doe") with ["doe"; "john"; "doe"].
    rewrite !elem_of_cons, elem_of_nil. tauto. }
  split; [exact Hsame | ].
  exact (search_query_as_word_set ex_query_date (ex_query None None None None)
           "john doe" " doe  john doe" _ Hsame).
Defined.

Lemma results_in_date_order_witness :
  let st := (post ex_ratio ex_time ex_day ex_series ex_upload empty_store).1 in
  let request := ex_query None None None None in
  _get_date_range ex_query_date request st
  = Ok (Some (mkdate 2024 3 1, mkdate 2024 3 31))
  ∧ ∃ found low low',
      _perform_search ex_query_date request st
      = Ok (Response (SearchResults found) HTTP_200_OK)
      ∧ _find_low_hours ex_query_date request st
        = Ok (Response (LowHours (length low) low) HTTP_200_OK)
      ∧ _find_non_pl_low_hours ex_query_date request st
        = Ok (Response (NonPlLowHours (length low') low') HTTP_200_OK)
      ∧ StronglySorted (λ e1 e2, date_leb (sr_date e1) (sr_date e2) = true) found
      ∧ StronglySorted (λ e1 e2, date_leb (lh_date e1) (lh_date e2) = true) low
      ∧ StronglySorted (λ e1 e2, date_leb (lh_date e1) (lh_date e2) = true) low'.
Proof.
  cbv zeta.
  assert (_get_date_range ex_query_date (ex_query None None None None)
            (post ex_ratio ex_time ex_day ex_series ex_upload empty_store).1
          = Ok (Some (mkdate 2024 3 1, mkdate 2024 3 31))) as Hrange by (by vm_compute).
  split; [exact Hrange | ].
  exact (results_in_date_order ex_query_date _ _ _ _ Hrange).
Defined.

Lemma attendance_writes_from_rows_witness :
  let st' := (post ex_ratio ex_time ex_day ex_series ex_upload_bad_date empty_store).1 in
  let a := mkAttendance (Some "John Doe") NaT (Some "E1")
             (Some "Employee") (Some "Engineer") (Some "Billing") (Some "Pune")
             (Some (mktime 9 30 0 0)) None None None (Some 2)
             (Some (mktime 12 0 0 0)) in
  a ∈ attendances st'
  ∧ (a ∈ attendances empty_store
     ∨ ∃ roster_df attendance_df row raw n first_in' last_out' gross_time'
         out_of_office_time' net_office_time',
         roster_file ex_upload_bad_date = Some roster_df
         ∧ attendance_file ex_upload_bad_date = Some attendance_df
         ∧ row ∈ attendance_df
         ∧ name_in_attendance row = Some raw
         ∧ name_map_of ex_ratio roster_df attendance_df !! raw = Some n
         ∧ isna (attendance_date row) = false
         ∧ to_safe_time ex_time (first_in row) = Ok first_in'
         ∧ to_safe_time ex_time (last_out row) = Ok last_out'
         ∧ to_safe_time ex_time (gross_time row) = Ok gross_time'
         ∧ to_safe_time ex_time (out_of_office_time row) = Ok out_of_office_time'
         ∧ to_safe_time ex_time (net_office_time row) = Ok net_office_time'
         ∧ a = mkAttendance (Some n)
                 (match ex_day (attendance_date row) with
                  | Some date => date
                  | None => NaT
                  end)
                 (ads_id row) (user_type row) (designation row)
                 (department row) (location row) first_in' last_out' gross_time'
                 out_of_office_time' (out_of_office_count row) net_office_time').
Proof.
  cbv zeta.
  assert (mkAttendance (Some "John Doe") NaT (Some "E1")
            (Some "Employee") (Some "Engineer") (Some "Billing") (Some "Pune")
            (Some (mktime 9 30 0 0)) None None None (Some 2)
            (Some (mktime 12 0 0 0))
          ∈ attendances (post ex_ratio ex_time ex_day ex_series ex_upload_bad_date
                           empty_store).1)
    as Hin by (vm_compute; right; left).
  split; [exact Hin | ].
  exact (attendance_writes_from_rows ex_ratio ex_time ex_day ex_series ex_upload_bad_date
           empty_store _ Hin).
Defined.

Lemma post_created_witness :
  (post ex_ratio ex_time ex_day ex_series ex_upload empty_store).2
  = Ok (Response (ProcessedSuccessfully 2024 3) HTTP_201_CREATED)
  ∧ ∃ roster_df attendance_df first,
      roster_file ex_upload = Some roster_df
      ∧ attendance_file ex_upload = Some attendance_df
      ∧ first_valid_date ex_series attendance_df = Some first
      ∧ "name" ∈ columns roster_df
      ∧ ProcessedSuccessfully 2024 3 = ProcessedSuccessfully (year first) (month first).
Proof.
  assert ((post ex_ratio ex_time ex_day ex_series ex_upload empty_store).2
          = Ok (Response (ProcessedSuccessfully 2024 3) HTTP_201_CREATED)) as Hpost
    by (by vm_compute).
  split; [exact Hpost | ].
  exact (post_created ex_ratio ex_time ex_day ex_series ex_upload empty_store _ Hpost).
Defined.

Lemma roster_last_write_wins_witness :
  let first := mkRoster (Some "John Doe") (mkdate 2024 3 1) (Some "T1") (Some "WFO-M") in
  let last := mkRoster (Some "John Doe") (mkdate 2024 3 1) (Some "T2") (Some "PL") in
  let st' := (_process_roster_data ex_roster_twice 2024 3 empty_store).1 in
  (∀ k, (key_count roster_key k (rosters empty_store) ≤ 1)%nat)
  ∧ roster_ops ex_roster_twice 2024 3 = [Ok first] ++ Ok last :: []
  ∧ rosters st' = [last]
  ∧ last ∈ rosters st'
  ∧ ∀ r', r' ∈ rosters st' → roster_key r' = roster_key last → r' = last.
Proof.
  cbv zeta.
  assert (∀ k, (key_count roster_key k (rosters empty_store) ≤ 1)%nat) as Huniq.
  { intros k. cbn. lia. }
  assert (roster_ops ex_roster_twice 2024 3
          = [Ok (mkRoster (Some "John Doe") (mkdate 2024 3 1) (Some "T1") (Some "WFO-M"))]
            ++ Ok (mkRoster (Some "John Doe") (mkdate 2024 3 1) (Some "T2") (Some "PL"))
               :: []) as Hops by (by vm_compute).
  split; [exact Huniq | ]. split; [exact Hops | ]. split; [by vm_compute | ].
  apply (roster_last_write_wins ex_roster_twice 2024 3 empty_store _ [] _ Huniq Hops).
  - intros e He. apply list_elem_of_singleton in He. discriminate He.
  - by intros r' ?%elem_of_nil.
Defined.

Lemma attendance_ingestion_stops_witness :
  let named day net := (ex_attendance_row "John Doe" day net, Some "John Doe") in
  let record :=
    mkAttendance (Some "John Doe") (mkdate 2024 4 1) (Some "E1") (Some "Employee")
      (Some "Engineer") (Some "Billing") (Some "Pune") (Some (mktime 9 30 0 0))
      None None None (Some 2) (Some (mktime 12 0 0 0)) in
  (∀ k, (key_count attendance_key k (attendances empty_store) ≤ 1)%nat)
  ∧ Forall2 (λ nr a, attendance_record ex_time ex_day nr = Ok (Some a))
      [named "01/04/2024" (CFloat b64_half)] [record]
  ∧ attendance_record ex_time ex_day (named "02/04/2024" (CFloat (b64_of_Z (-1))))
    = Raise ValueError
  ∧ _process_attendance_data ex_time ex_day
      ([named "01/04/2024" (CFloat b64_half)]
       ++ named "02/04/2024" (CFloat (b64_of_Z (-1)))
          :: [named "02/04/2024" (CFloat b64_half)]) empty_store
    = (mkstore [] [record], Raise ValueError).
Proof.
  cbv zeta.
  assert (∀ k, (key_count attendance_key k (attendances empty_store) ≤ 1)%nat) as Huniq.
  { intros k. cbn. lia. }
  assert (Forall2 (λ nr a, attendance_record ex_time ex_day nr = Ok (Some a))
            [(ex_attendance_row "John Doe" "01/04/2024" (CFloat b64_half), Some "John Doe")]
            [mkAttendance (Some "John Doe") (mkdate 2024 4 1) (Some "E1")
               (Some "Employee") (Some "Engineer") (Some "Billing") (Some "Pune")
               (Some (mktime 9 30 0 0)) None None None (Some 2)
               (Some (mktime 12 0 0 0))]) as Hbefore.
  { constructor; [by vm_compute | constructor]. }
  assert (attendance_record ex_time ex_day
            (ex_attendance_row "John Doe" "02/04/2024" (CFloat (b64_of_Z (-1))),
             Some "John Doe")
          = Raise ValueError) as Hbad by (by vm_compute).
  split; [exact Huniq | ]. split; [exact Hbefore | ]. split; [exact Hbad | ].
  exact (attendance_ingestion_stops ex_time ex_day _
           [(ex_attendance_row "John Doe" "02/04/2024" (CFloat b64_half), Some "John Doe")]
           _ _ ValueError empty_store Huniq Hbefore Hbad).
Defined.
